(** * EventServer: the UDP event server of xbmc/network/EventServer.cpp

    A shallow embedding of [CEventServer]: the client registry
    ([m_clients], a [std::map] from routing token to session), packet
    routing with admission control, the timeout sweep, the action
    dispatcher and the receive loop with its socket and buffer.

    Every call the server makes on a collaborator (the registry lock, the
    log, the socket, a session object, the host's action executors) is
    recorded as an [Event]; a server operation is a state transformer
    that also yields the events it produced, in program order. *)

From Stdlib Require Import String ZArith List Bool Lia Arith.
From Equations Require Import Equations.
Import ListNotations.

Local Open Scope Z_scope.

(** ** Machine integers *)

(** [(unsigned int) x]: conversion of an integer to a 32-bit unsigned. *)
Definition to_uint (x : Z) : Z := x mod 2 ^ 32.

(** ** Collaborator data *)

(** Modelled from the spec: the sender address of a datagram (Socket.h is
    not among the sources); only its textual form is kept. *)
Definition CAddress := string.

(** Modelled from the spec: a parsed view over a raw datagram
    (EventPacket.h): the validity verdict, the embedded client token and
    the payload. *)
Record CEventPacket := mkPacket {
  m_bValid : bool;
  m_iClientToken : Z;
  m_pPayload : list Byte.byte
}.

Definition IsValid (p : CEventPacket) : bool := m_bValid p.
Definition ClientToken (p : CEventPacket) : Z := m_iClientToken p.

(** Modelled from the spec: the kind of an action event (EventClient.h).
    The field is a small integer in the source, so kinds other than the
    two the dispatcher recognises are representable. *)
Inductive ActionType :=
| AT_EXEC_BUILTIN
| AT_BUTTON
| AT_OTHER (code : Z).

(** Modelled from the spec: an action event (EventClient.h): its kind
    and the name of the builtin command or button action. *)
Record CEventAction := mkAction {
  actionName : string;
  actionType : ActionType
}.

(** The action object handed to the application, built by
    [CAction(id, 1.0f, 0.0f, name)] (input/Key.h is not among the
    sources). The two amounts are the literals of the source, kept as
    the integers 1 and 0. *)
Record CAction := mkCAction {
  m_id : Z;
  m_amount1 : Z;
  m_amount2 : Z;
  m_name : string
}.

(** Modelled from the spec: a client session (EventClient.h):
    { remote address, last-activity timestamp, ordered queue of
    unconsumed packets, ordered queue of derived action events }. *)
Record CEventClient := mkClient {
  m_remoteAddr : CAddress;
  m_lastPing : Z;
  m_readyPackets : list CEventPacket;
  m_actionQueue : list CEventAction
}.

(** Modelled from the spec: a session is created bound to the sender
    address, with empty queues. *)
Definition CEventClient_new (addr : CAddress) : CEventClient :=
  {| m_remoteAddr := addr; m_lastPing := 0;
     m_readyPackets := []; m_actionQueue := [] |}.

(** Modelled from the spec: [enqueuePacket] appends to the packet queue
    and updates the last-activity timestamp. *)
Definition AddPacket (now : Z) (p : CEventPacket) (c : CEventClient)
  : CEventClient :=
  {| m_remoteAddr := m_remoteAddr c; m_lastPing := now;
     m_readyPackets := m_readyPackets c ++ [p];
     m_actionQueue := m_actionQueue c |}.

(** Modelled from the spec: [nextAction] pops and returns the oldest
    pending action, or nothing if there is none. *)
Definition GetNextAction (c : CEventClient)
  : option (CEventAction * CEventClient) :=
  match m_actionQueue c with
  | [] => None
  | a :: q =>
      Some (a, {| m_remoteAddr := m_remoteAddr c; m_lastPing := m_lastPing c;
                  m_readyPackets := m_readyPackets c; m_actionQueue := q |})
  end.

(** Modelled from the spec: [RefreshSettings] pushes the host's current
    configuration into the session; none of the fields kept here holds
    configuration, so only the call itself is observable. *)
Definition RefreshSettings (c : CEventClient) : CEventClient := c.

(** ** The registry: [std::map<unsigned long, CEventClient*>]

    The map is kept as an association list in ascending key order, which
    is the order in which the source's iterators walk it. *)
Module ClientMap.

Definition t (V : Type) := list (Z * V).

Definition size {V} (m : t V) : Z := Z.of_nat (length m).

Fixpoint find {V} (k : Z) (m : t V) : option V :=
  match m with
  | [] => None
  | (k', v) :: rest => if k' =? k then Some v else find k rest
  end.

(** [m[k] = v] *)
Fixpoint insert {V} (k : Z) (v : V) (m : t V) : t V :=
  match m with
  | [] => [(k, v)]
  | (k', v') :: rest =>
      if k <? k' then (k, v) :: (k', v') :: rest
      else if k =? k' then (k, v) :: rest
      else (k', v') :: insert k v rest
  end.

Definition keys {V} (m : t V) : list Z := map fst m.

Fixpoint ascending (l : list Z) : Prop :=
  match l with
  | [] => True
  | k :: rest => Forall (fun k' => k < k') rest /\ ascending rest
  end.

Definition wf {V} (m : t V) : Prop := ascending (keys m).

End ClientMap.

(** ** Events *)

Inductive LogLevel := LOGDEBUG | LOGNOTICE | LOGWARNING | LOGERROR.

Inductive Method :=
| MNew | MDelete | MAddPacket | MProcessEvents | MAlive
| MRefreshSettings | MGetNextAction.

Inductive Event :=
| EvLog (level : LogLevel) (msg : string)
| EvEnter                      (* CSingleLock lock(m_critSection) *)
| EvLeave                      (* lock.Leave() or the lock's destructor *)
| EvClient (token : Z) (m : Method)
| EvSocketClose
| EvSocketDelete
| EvBufferFree
| EvBind (localOnly : bool) (port range : Z)
| EvPublish (port : Z)
| EvThreadCreate
| EvBuiltinExecute (name : string)
| EvPlayActionSound (a : CAction)
| EvOnAction (a : CAction).

(** ** Server state *)

(** Modelled from the spec: the UDP socket object (Socket.h); only its
    identity is kept. *)
Inductive CUDPSocket := UDPSocket (fd : Z).

Record CEventServer := mkServer {
  m_pSocket : option CUDPSocket;
  m_pPacketBuffer : option (list Byte.byte);
  m_bStop : bool;
  m_bRunning : bool;
  m_bRefreshSettings : bool;
  m_iListenTimeout : Z;
  m_iPort : Z;
  m_iMaxClients : Z;
  m_clients : ClientMap.t CEventClient
}.

Definition set_pSocket (x : option CUDPSocket) (s : CEventServer) :=
  mkServer x (m_pPacketBuffer s) (m_bStop s) (m_bRunning s)
    (m_bRefreshSettings s) (m_iListenTimeout s) (m_iPort s)
    (m_iMaxClients s) (m_clients s).

Definition set_pPacketBuffer (x : option (list Byte.byte)) (s : CEventServer) :=
  mkServer (m_pSocket s) x (m_bStop s) (m_bRunning s)
    (m_bRefreshSettings s) (m_iListenTimeout s) (m_iPort s)
    (m_iMaxClients s) (m_clients s).

Definition set_bStop (x : bool) (s : CEventServer) :=
  mkServer (m_pSocket s) (m_pPacketBuffer s) x (m_bRunning s)
    (m_bRefreshSettings s) (m_iListenTimeout s) (m_iPort s)
    (m_iMaxClients s) (m_clients s).

Definition set_bRunning (x : bool) (s : CEventServer) :=
  mkServer (m_pSocket s) (m_pPacketBuffer s) (m_bStop s) x
    (m_bRefreshSettings s) (m_iListenTimeout s) (m_iPort s)
    (m_iMaxClients s) (m_clients s).

Definition set_bRefreshSettings (x : bool) (s : CEventServer) :=
  mkServer (m_pSocket s) (m_pPacketBuffer s) (m_bStop s) (m_bRunning s)
    x (m_iListenTimeout s) (m_iPort s) (m_iMaxClients s) (m_clients s).

Definition set_iPort (x : Z) (s : CEventServer) :=
  mkServer (m_pSocket s) (m_pPacketBuffer s) (m_bStop s) (m_bRunning s)
    (m_bRefreshSettings s) (m_iListenTimeout s) x
    (m_iMaxClients s) (m_clients s).

Definition set_iMaxClients (x : Z) (s : CEventServer) :=
  mkServer (m_pSocket s) (m_pPacketBuffer s) (m_bStop s) (m_bRunning s)
    (m_bRefreshSettings s) (m_iListenTimeout s) (m_iPort s)
    x (m_clients s).

Definition set_clients (x : ClientMap.t CEventClient) (s : CEventServer) :=
  mkServer (m_pSocket s) (m_pPacketBuffer s) (m_bStop s) (m_bRunning s)
    (m_bRefreshSettings s) (m_iListenTimeout s) (m_iPort s)
    (m_iMaxClients s) x.

(** [CEventServer::CEventServer()] *)
Definition CEventServer_new : CEventServer :=
  {| m_pSocket := None; m_pPacketBuffer := None;
     m_bStop := false; m_bRunning := false; m_bRefreshSettings := false;
     m_iListenTimeout := 1000;
     m_iPort := 0; m_iMaxClients := 0;
     m_clients := [] |}.

(** ** A state monad that records events *)

Definition M (A : Type) : Type := CEventServer -> A * CEventServer * list Event.

Definition ret {A} (a : A) : M A := fun s => (a, s, []).

Definition bind {A B} (m : M A) (f : A -> M B) : M B :=
  fun s =>
    let r1 := m s in
    let r2 := f (fst (fst r1)) (snd (fst r1)) in
    (fst r2, snd r1 ++ snd r2).

Definition emit (e : Event) : M unit := fun s => (tt, s, [e]).
Definition gets {A} (f : CEventServer -> A) : M A := fun s => (f s, s, []).
Definition modify (f : CEventServer -> CEventServer) : M unit :=
  fun s => (tt, f s, []).

Definition result {A} (r : A * CEventServer * list Event) : A := fst (fst r).
Definition state {A} (r : A * CEventServer * list Event) : CEventServer :=
  snd (fst r).
Definition trace {A} (r : A * CEventServer * list Event) : list Event := snd r.

Declare Scope es_scope.
Delimit Scope es_scope with es.
Notation "x <- c1 ;; c2" := (bind c1 (fun x => c2))
  (at level 100, c1 at next level, right associativity) : es_scope.
Notation "c1 ;; c2" := (bind c1 (fun _ => c2))
  (at level 100, right associativity) : es_scope.

Local Open Scope es_scope.

(** ** The environment of a run *)

(** What one pass of the receive loop meets at the socket. *)
Inductive Received :=
| ListenTimeout                                   (* Listen returned false *)
| ReadFailed                                      (* Read returned -1 *)
| Datagram (addr : CAddress) (bytes : list Byte.byte)
| ListenException.                                (* Listen or Read threw *)

(** One pass of the loop: what arrives, and the clock readings taken when
    the datagram is queued and when the sweep tests liveness. *)
Record Iteration := mkIteration {
  it_recv : Received;
  it_recv_time : Z;
  it_sweep_time : Z
}.

(** What [Run] meets outside the server: the socket factory, [malloc],
    the settings, [Bind], and the passes of the loop that happen before
    the owner requests the stop. *)
Record RunEnv := mkRunEnv {
  env_socket : option CUDPSocket;
  env_malloc : bool;
  env_port_range : Z;
  env_all_interfaces : bool;
  env_bind : bool -> Z -> Z -> bool;
  env_iterations : list Iteration
}.

(** How a call ends: it returns, or a failed [assert] aborts the process. *)
Inductive Outcome := Returned | Aborted.

Section Server.

(** Collaborators that are not part of the sources. *)
Variable ULong : CAddress -> Z.                  (* CAddress::ULong *)
Variable ParsePacket : Z -> list Byte.byte -> CEventPacket.
                                                 (* CEventPacket(pSize, buffer) *)
Variable Decode : CEventPacket -> list CEventAction.
                                                 (* payload to action events *)
Variable livenessWindow : Z.
Variable PACKET_SIZE : Z.
Variable BuiltinsExecute : string -> Z.          (* CBuiltins::Execute *)
Variable TranslateString : string -> Z.          (* CActionTranslator *)
Variable HasGUI : bool.                          (* CServiceBroker::GetGUI() *)
Variable OnAction : CAction -> bool.             (* g_application.OnAction *)

(** Modelled from the spec: [convertPending] drains the packet queue,
    decoding each payload into zero or more action events appended to
    the action queue, in arrival order. *)
Definition Client_ProcessEvents (c : CEventClient) : CEventClient :=
  {| m_remoteAddr := m_remoteAddr c; m_lastPing := m_lastPing c;
     m_readyPackets := [];
     m_actionQueue := m_actionQueue c ++ flat_map Decode (m_readyPackets c) |}.

(** Modelled from the spec: [alive()] is true iff
    [now - lastActivity < livenessWindow]. *)
Definition Alive (now : Z) (c : CEventClient) : bool :=
  now - m_lastPing c <? livenessWindow.

(** The liveness test on a registry entry. *)
Definition aliveAt (now : Z) (kc : Z * CEventClient) : bool :=
  Alive now (snd kc).

(** *** Cleanup *)

(** The loop that empties the registry: the first entry is destroyed and
    erased until none is left. *)
Fixpoint Cleanup_loop (clients : ClientMap.t CEventClient) : list Event :=
  match clients with
  | [] => []
  | (k, _) :: rest => EvClient k MDelete :: Cleanup_loop rest
  end.

(** Several events at once, in order. *)
Definition emits (l : list Event) : M unit := fun s => (tt, s, l).

Definition Cleanup : M unit :=
  sock <- gets m_pSocket ;;
  match sock with
  | Some _ => emit EvSocketClose ;; emit EvSocketDelete ;;
              modify (set_pSocket None)
  | None => ret tt
  end ;;
  buf <- gets m_pPacketBuffer ;;
  match buf with
  | Some _ => emit EvBufferFree ;; modify (set_pPacketBuffer None)
  | None => ret tt
  end ;;
  emit EvEnter ;;
  clients <- gets m_clients ;;
  emits (Cleanup_loop clients) ;;
  modify (set_clients []) ;;
  emit EvLeave.

(** *** GetNumberOfClients *)

Definition GetNumberOfClients : M Z :=
  emit EvEnter ;;
  n <- gets (fun s => ClientMap.size (m_clients s)) ;;
  emit EvLeave ;;
  ret n.

(** *** StartServer *)

(** [esport] and [esmaxclients] are the two settings read with
    [GetInt]. *)
Definition StartServer (esport esmaxclients : Z) : M Outcome :=
  emit EvEnter ;;
  running <- gets m_bRunning ;;
  if running then emit EvLeave ;; ret Returned
  else
    modify (set_iPort esport) ;;
    if negb ((esport <=? 65535) && (esport >=? 1)) then ret Aborted
    else
      modify (set_iMaxClients esmaxclients) ;;
      (if esmaxclients <? 0 then
         emit (EvLog LOGERROR
                 "ES: Invalid maximum number of clients specified %d") ;;
         modify (set_iMaxClients 20)
       else ret tt) ;;
      emit EvThreadCreate ;;
      emit EvLeave ;;
      ret Returned.

(** *** ProcessPacket *)

(** The routing token of a valid packet: its client token, or the
    sender's address when the packet carries none. *)
Definition routingToken (addr : CAddress) (packet : CEventPacket) : Z :=
  let clientToken := ClientToken packet in
  if clientToken =? 0 then to_uint (ULong addr) else clientToken.

(** [m_clients[clientToken]->AddPacket(packet)]; the entry exists at
    the one place this is used. *)
Definition AddPacketTo (now clientToken : Z) (packet : CEventPacket)
  : M unit :=
  clients <- gets m_clients ;;
  match ClientMap.find clientToken clients with
  | Some c =>
      emit (EvClient clientToken MAddPacket) ;;
      modify (set_clients
                (ClientMap.insert clientToken (AddPacket now packet c) clients))
  | None => ret tt
  end.

(** The bytes [m_pPacketBuffer] points to; [Run] only calls
    [ProcessPacket] while the buffer is allocated. *)
Definition buffer_bytes (b : option (list Byte.byte)) : list Byte.byte :=
  match b with Some l => l | None => [] end.

(** [now] is the clock reading the session takes when the packet is
    queued. [new] throws when memory runs out and never yields [NULL],
    so the two out-of-memory branches of the source cannot be taken and
    are left out. Each [return] past the [CSingleLock] leaves the lock. *)
Definition ProcessPacket (now : Z) (addr : CAddress) (pSize : Z) : M unit :=
  buf <- gets m_pPacketBuffer ;;
  let packet := ParsePacket pSize (buffer_bytes buf) in
  if negb (IsValid packet) then
    emit (EvLog LOGDEBUG "ES: Received invalid packet")
  else
    let clientToken := routingToken addr packet in
    emit EvEnter ;;
    clients <- gets m_clients ;;
    match ClientMap.find clientToken clients with
    | None =>
        maxClients <- gets m_iMaxClients ;;
        if ClientMap.size clients >=? to_uint maxClients then
          emit (EvLog LOGWARNING
                  "ES: Cannot accept any more clients, maximum client count reached") ;;
          emit EvLeave
        else
          emit (EvClient clientToken MNew) ;;
          modify (set_clients
                    (ClientMap.insert clientToken (CEventClient_new addr)
                       clients)) ;;
          AddPacketTo now clientToken packet ;;
          emit EvLeave
    | Some _ =>
        AddPacketTo now clientToken packet ;;
        emit EvLeave
    end.

(** *** RefreshClients *)

(** The sweep's loop. The iterator is the pair [(passed, rest)]: the
    map is [passed ++ rest] and [iter] points at the head of [rest]
    ([rest = []] is [m_clients.end()]). After an erase the source sets
    [iter = m_clients.begin()], so the scan restarts on what is left. *)
Equations? RefreshClients_loop (now : Z) (refresh : bool)
    (passed rest : ClientMap.t CEventClient)
  : ClientMap.t CEventClient * list Event
  by wf ((length passed + length rest) * S (length passed + length rest)
         + length rest)%nat lt :=
  RefreshClients_loop now refresh passed [] := (passed, []);
  RefreshClients_loop now refresh passed ((k, c) :: rest') with Alive now c => {
    | false :=
        let r := RefreshClients_loop now refresh [] (passed ++ rest') in
        (fst r,
         EvClient k MAlive
           :: EvLog LOGNOTICE "ES: Client %s from %s timed out"
           :: EvClient k MDelete :: snd r);
    | true :=
        let c' := if refresh then RefreshSettings c else c in
        let r := RefreshClients_loop now refresh (passed ++ [(k, c')]) rest' in
        (fst r,
         EvClient k MAlive
           :: (if refresh then [EvClient k MRefreshSettings] else [])
           ++ snd r) }.
Proof.
  - rewrite length_app. simpl. nia.
  - rewrite length_app. simpl. nia.
Defined.

Definition RefreshClients (now : Z) : M unit :=
  emit EvEnter ;;
  clients <- gets m_clients ;;
  refresh <- gets m_bRefreshSettings ;;
  let r := RefreshClients_loop now refresh [] clients in
  emits (snd r) ;;
  modify (set_clients (fst r)) ;;
  modify (set_bRefreshSettings false) ;;
  emit EvLeave.

(** *** ProcessEvents *)

(** One walk over the registry, each session converting its packets. *)
Fixpoint ProcessEvents_loop (rest : ClientMap.t CEventClient)
  : ClientMap.t CEventClient * list Event :=
  match rest with
  | [] => ([], [])
  | (k, c) :: rest' =>
      let r := ProcessEvents_loop rest' in
      ((k, Client_ProcessEvents c) :: fst r,
       EvClient k MProcessEvents :: snd r)
  end.

Definition ProcessEvents : M unit :=
  emit EvEnter ;;
  clients <- gets m_clients ;;
  let r := ProcessEvents_loop clients in
  emits (snd r) ;;
  modify (set_clients (fst r)) ;;
  emit EvLeave.

(** *** ExecuteNextAction *)

(** The [switch] on the action's type, entered after [lock.Leave()];
    [ret] starts out [true] and a type with no [case] leaves it so. *)
Definition ExecuteAction (actionEvent : CEventAction) : M bool :=
  match actionType actionEvent with
  | AT_EXEC_BUILTIN =>
      emit (EvBuiltinExecute (actionName actionEvent)) ;;
      ret (BuiltinsExecute (actionName actionEvent) =? 0)
  | AT_BUTTON =>
      let actionID := TranslateString (actionName actionEvent) in
      let action := mkCAction actionID 1 0 (actionName actionEvent) in
      (if HasGUI then emit (EvPlayActionSound action) else ret tt) ;;
      emit (EvOnAction action) ;;
      ret (OnAction action)
  | AT_OTHER _ => ret true
  end.

(** The scan for a pending action, with the iterator kept as in the
    sweep. When the loop ends without one, [return false] lets the
    [CSingleLock] go out of scope, which leaves the lock; after
    [lock.Leave()] it has nothing left to release. *)
Fixpoint ExecuteNextAction_loop (passed rest : ClientMap.t CEventClient)
  : M bool :=
  match rest with
  | [] => emit EvLeave ;; ret false
  | (k, c) :: rest' =>
      emit (EvClient k MGetNextAction) ;;
      match GetNextAction c with
      | Some (actionEvent, c') =>
          modify (set_clients (passed ++ (k, c') :: rest')) ;;
          emit EvLeave ;;
          ExecuteAction actionEvent
      | None => ExecuteNextAction_loop (passed ++ [(k, c)]) rest'
      end
  end.

Definition ExecuteNextAction : M bool :=
  emit EvEnter ;;
  clients <- gets m_clients ;;
  ExecuteNextAction_loop [] clients.

(** *** Run *)


(** The [try] block of the loop when nothing is thrown: [Listen], and
    on data [Read] and [ProcessPacket]. *)
Definition ReceiveStep (it : Iteration) : M unit :=
  match it_recv it with
  | Datagram addr bytes =>
      let data := firstn (Z.to_nat PACKET_SIZE) bytes in
      modify (set_pPacketBuffer (Some data)) ;;
      ProcessPacket (it_recv_time it) addr (Z.of_nat (length data))
  | _ => ret tt
  end.

(** One pass of the body of [while (!m_bStop)]; [false] is the [break]
    of the [catch] block. *)
Definition RunIteration (it : Iteration) : M bool :=
  match it_recv it with
  | ListenException =>
      emit (EvLog LOGERROR "ES: Exception caught while listening for socket") ;;
      ret false
  | _ =>
      ReceiveStep it ;;
      ProcessEvents ;;
      RefreshClients (it_sweep_time it) ;;
      ret true
  end.

(** The loop; when the passes the environment supplies are used up the
    owner has requested the stop. *)
Fixpoint RunLoop (its : list Iteration) : M unit :=
  stop <- gets m_bStop ;;
  if stop then ret tt
  else
    match its with
    | [] => modify (set_bStop true)
    | it :: rest =>
        continue <- RunIteration it ;;
        if continue then RunLoop rest else ret tt
    end.

Definition Run (env : RunEnv) : M unit :=
  port <- gets m_iPort ;;
  emit (EvLog LOGNOTICE "ES: Starting UDP Event server on port %d") ;;
  Cleanup ;;
  modify (set_pSocket (env_socket env)) ;;
  match env_socket env with
  | None => emit (EvLog LOGERROR "ES: Could not create socket, aborting!")
  | Some _ =>
      modify (set_pPacketBuffer (if env_malloc env then Some [] else None)) ;;
      if negb (env_malloc env) then
        emit (EvLog LOGERROR
                "ES: Out of memory, could not allocate packet buffer")
      else
        port_range <-
          (if (env_port_range env <? 1) || (env_port_range env >? 100) then
             emit (EvLog LOGERROR
                     "ES: Invalid port range specified %d, defaulting to 10") ;;
             ret 10
           else ret (env_port_range env)) ;;
        emit (EvBind (negb (env_all_interfaces env)) port port_range) ;;
        if negb (env_bind env (negb (env_all_interfaces env)) port port_range)
        then emit (EvLog LOGERROR "ES: Could not listen on port %d")
        else
          emit (EvPublish port) ;;
          modify (set_bRunning true) ;;
          RunLoop (env_iterations env) ;;
          emit (EvLog LOGNOTICE "ES: UDP Event server stopped") ;;
          modify (set_bRunning false) ;;
          Cleanup
  end.

End Server.

Arguments result {A} r /.
Arguments state {A} r /.
Arguments trace {A} r /.

(** ** The lookups, repeated dispatch and the thread body *)

(** The out-parameters of [GetButtonCode]. The amount is a [float] in
    the source; its type is left open. *)
Record ButtonOut (Amount : Type) := mkButtonOut {
  strMapName : string;
  isAxis : bool;
  fAmount : Amount;
  isJoystick : bool
}.
Arguments mkButtonOut {Amount}.
Arguments strMapName {Amount}.
Arguments isAxis {Amount}.
Arguments fAmount {Amount}.
Arguments isJoystick {Amount}.

Section Lookups.

(** The two lookups of a session (EventClient.h is not among the
    sources). Each is handed the caller's out-parameters by reference
    and the session itself, which it may change. *)
Variable Amount : Type.
Variable Client_GetButtonCode :
  ButtonOut Amount -> CEventClient -> Z * ButtonOut Amount * CEventClient.
Variable Coord : Type.
Variable Client_GetMousePos :
  Coord * Coord -> CEventClient -> bool * (Coord * Coord) * CEventClient.

(** *** GetButtonCode *)

(** The scan; [bcode] is the local of that name, returned as it stands
    when the registry has been walked to its end. *)
Fixpoint GetButtonCode_loop (bcode : Z) (out : ButtonOut Amount)
    (passed rest : ClientMap.t CEventClient) : M (Z * ButtonOut Amount) :=
  match rest with
  | [] => emit EvLeave ;; ret (bcode, out)
  | (k, c) :: rest' =>
      let answer := Client_GetButtonCode out c in
      let bcode' := fst (fst answer) in
      let out' := snd (fst answer) in
      let c' := snd answer in
      modify (set_clients (passed ++ (k, c') :: rest')) ;;
      if bcode' =? 0 then
        GetButtonCode_loop bcode' out' (passed ++ [(k, c')]) rest'
      else emit EvLeave ;; ret (bcode', out')
  end.

Definition GetButtonCode (out : ButtonOut Amount) : M (Z * ButtonOut Amount) :=
  emit EvEnter ;;
  clients <- gets m_clients ;;
  GetButtonCode_loop 0 out [] clients.

(** *** GetMousePos *)

Fixpoint GetMousePos_loop (xy : Coord * Coord)
    (passed rest : ClientMap.t CEventClient) : M (bool * (Coord * Coord)) :=
  match rest with
  | [] => emit EvLeave ;; ret (false, xy)
  | (k, c) :: rest' =>
      let answer := Client_GetMousePos xy c in
      let moved := fst (fst answer) in
      let xy' := snd (fst answer) in
      let c' := snd answer in
      modify (set_clients (passed ++ (k, c') :: rest')) ;;
      if moved then emit EvLeave ;; ret (true, xy')
      else GetMousePos_loop xy' (passed ++ [(k, c')]) rest'
  end.

Definition GetMousePos (xy : Coord * Coord) : M (bool * (Coord * Coord)) :=
  emit EvEnter ;;
  clients <- gets m_clients ;;
  GetMousePos_loop xy [] clients.

End Lookups.

Section Thread.

Variable ULong : CAddress -> Z.
Variable ParsePacket : Z -> list Byte.byte -> CEventPacket.
Variable Decode : CEventPacket -> list CEventAction.
Variable livenessWindow : Z.
Variable PACKET_SIZE : Z.
Variable BuiltinsExecute : string -> Z.
Variable TranslateString : string -> Z.
Variable HasGUI : bool.
Variable OnAction : CAction -> bool.

(** The host calling [ExecuteNextAction] [n] times in a row, with no
    packet arriving in between; the results in order. *)
Fixpoint ExecuteNextActions (n : nat) : M (list bool) :=
  match n with
  | O => ret []
  | S n' =>
      b <- ExecuteNextAction BuiltinsExecute TranslateString HasGUI OnAction ;;
      bs <- ExecuteNextActions n' ;;
      ret (b :: bs)
  end.

(** What the thread does: the events of a [Run], or a [Sleep]. *)
Inductive ThreadEvent :=
| InRun (e : Event)
| ThreadSleep (ms : Z).

(** *** Process

    The thread body: [Run] again and again, a second apart, until the
    stop flag is seen. Each element of [runs] is what one [Run] meets and
    whether the owner requests the stop during the [Sleep] after it; when
    [runs] is used up the owner has requested the stop. *)
Fixpoint Process (runs : list (RunEnv * bool)) (s : CEventServer)
  : CEventServer * list ThreadEvent :=
  if m_bStop s then (s, [])
  else
    match runs with
    | [] => (set_bStop true s, [])
    | (env, stopInSleep) :: rest =>
        let r := Run ULong ParsePacket Decode livenessWindow PACKET_SIZE env s in
        if m_bStop (state r) then (state r, map InRun (trace r))
        else
          let s' := if stopInSleep then set_bStop true (state r)
                    else state r in
          let r' := Process rest s' in
          (fst r', map InRun (trace r) ++ ThreadSleep 1000 :: snd r')
    end.

End Thread.

(** ** Observations on states and traces *)

(** The packet [ProcessPacket] builds from the receive buffer. *)
Definition PacketIn (ParsePacket : Z -> list Byte.byte -> CEventPacket)
    (pSize : Z) (s : CEventServer) : CEventPacket :=
  ParsePacket pSize (buffer_bytes (m_pPacketBuffer s)).

(** The packet queue of the session for a token; empty when there is no
    such session. *)
Definition queueOf (T : Z) (s : CEventServer) : list CEventPacket :=
  match ClientMap.find T (m_clients s) with
  | Some c => m_readyPackets c
  | None => []
  end.


(** Calls into the host's action execution. *)
Definition is_execution (e : Event) : bool :=
  match e with
  | EvBuiltinExecute _ | EvPlayActionSound _ | EvOnAction _ => true
  | _ => false
  end.

(** The two executors whose result [ExecuteNextAction] returns. *)
Definition is_executor (e : Event) : bool :=
  match e with
  | EvBuiltinExecute _ | EvOnAction _ => true
  | _ => false
  end.

(** [unlocked_execution d tr]: along [tr], started while the calling
    thread holds the registry lock [d] times, every call into action
    execution happens while the lock is not held. *)
Fixpoint unlocked_execution (d : nat) (tr : list Event) : bool :=
  match tr with
  | [] => true
  | EvEnter :: rest => unlocked_execution (S d) rest
  | EvLeave :: rest => unlocked_execution (Nat.pred d) rest
  | e :: rest =>
      (negb (is_execution e) || Nat.eqb d 0) && unlocked_execution d rest
  end.

Definition is_call (k : Z) (m : Method) (e : Event) : bool :=
  match e with
  | EvClient k' m' =>
      (k' =? k) &&
      match m, m' with
      | MNew, MNew | MDelete, MDelete | MAddPacket, MAddPacket
      | MProcessEvents, MProcessEvents | MAlive, MAlive
      | MRefreshSettings, MRefreshSettings
      | MGetNextAction, MGetNextAction => true
      | _, _ => false
      end
  | _ => false
  end.

(** How many times method [m] is called on the session of token [k]. *)
Definition calls (k : Z) (m : Method) (tr : list Event) : nat :=
  length (filter (is_call k m) tr).

(** Sessions of [l] that a liveness test [alive] finds dead. *)
Definition deadCount (alive : CEventClient -> bool)
    (l : ClientMap.t CEventClient) : nat :=
  length (filter (fun kc => negb (alive (snd kc))) l).

(** Entries of [l] under token [k]. *)
Definition entries (k : Z) (l : ClientMap.t CEventClient) : nat :=
  length (filter (fun kc => fst kc =? k) l).

(** How often one sweep comes by the session of token [k]: a dead
    session once, a live one once and once more for every dead session
    behind it. *)
Fixpoint sweepVisits (alive : CEventClient -> bool) (k : Z)
    (l : ClientMap.t CEventClient) : nat :=
  match l with
  | [] => 0
  | (k0, c) :: rest =>
      ((if (k0 =? k)%Z then
          if alive c then 1 + deadCount alive rest else 1
        else 0)
       + sweepVisits alive k rest)%nat
  end.

(** How often one sweep with the refresh flag set refreshes the settings
    of the session of token [k]. *)
Fixpoint sweepRefreshes (alive : CEventClient -> bool) (k : Z)
    (l : ClientMap.t CEventClient) : nat :=
  match l with
  | [] => 0
  | (k0, c) :: rest =>
      ((if (k0 =? k)%Z && alive c then 1 + deadCount alive rest else 0)
       + sweepRefreshes alive k rest)%nat
  end.

(** Entries of [l] under token [k] that [alive] finds dead. *)
Definition deadEntries (alive : CEventClient -> bool) (k : Z)
    (l : ClientMap.t CEventClient) : nat :=
  length (filter (fun kc => (fst kc =? k) && negb (alive (snd kc))) l).

(** The action events pending in the registry, session by session. *)
Definition pendingActions (clients : ClientMap.t CEventClient)
  : list CEventAction :=
  flat_map (fun kc => m_actionQueue (snd kc)) clients.

(** [lockDepth d tr]: how often the calling thread holds the registry
    lock after [tr], having held it [d] times before; nothing when [tr]
    leaves a lock that is not held. *)
Fixpoint lockDepth (d : nat) (tr : list Event) : option nat :=
  match tr with
  | [] => Some d
  | EvEnter :: rest => lockDepth (S d) rest
  | EvLeave :: rest =>
      match d with
      | O => None
      | S d' => lockDepth d' rest
      end
  | _ :: rest => lockDepth d rest
  end.

(** [allMiss ask miss out l l' out']: the sessions of [l] are asked one
    after the other, each seeing the out-parameters as the one before
    left them, and every answer is a miss; [l'] is what the asking makes
    of the sessions and [out'] of the out-parameters. *)
Inductive allMiss {Out Ans : Type}
    (ask : Out -> CEventClient -> Ans * Out * CEventClient)
    (miss : Ans -> bool)
  : Out -> ClientMap.t CEventClient -> ClientMap.t CEventClient -> Out -> Prop :=
| allMiss_nil out : allMiss ask miss out [] [] out
| allMiss_cons out k c rest rest' out' :
    miss (fst (fst (ask out c))) = true ->
    allMiss ask miss (snd (fst (ask out c))) rest rest' out' ->
    allMiss ask miss out ((k, c) :: rest) ((k, snd (ask out c)) :: rest') out'.

(** The calls that bind the socket and announce the service. *)
Definition is_service_event (e : Event) : bool :=
  match e with
  | EvBind _ _ _ | EvPublish _ => true
  | _ => false
  end.

(** The calls that release the socket or the buffer. *)
Definition is_release (e : Event) : bool :=
  match e with
  | EvSocketClose | EvSocketDelete | EvBufferFree => true
  | _ => false
  end.

(** [ProcessPacket] has a place for a packet of routing token [T]: a
    session for [T] is there, or the registry is below
    [(unsigned int)m_iMaxClients]. *)
Definition admits (T : Z) (s : CEventServer) : bool :=
  match ClientMap.find T (m_clients s) with
  | Some _ => true
  | None => negb (ClientMap.size (m_clients s) >=? to_uint (m_iMaxClients s))
  end.

(** Taking and leaving the registry lock. *)
Definition is_lock_event (e : Event) : bool :=
  match e with
  | EvEnter | EvLeave => true
  | _ => false
  end.

(** What a trace does to the registry lock, in order. *)
Definition lockEvents (tr : list Event) : list Event :=
  filter is_lock_event tr.

(** A trace that does not touch the lock. *)
Definition lockFree (tr : list Event) : Prop :=
  Forall (fun e => e <> EvEnter /\ e <> EvLeave) tr.

(** The registry is an ordered map that holds no more sessions than the
    configured maximum, which is a non-negative [int]. *)
Definition RegistryOK (s : CEventServer) : Prop :=
  ClientMap.wf (m_clients s) /\
  ClientMap.size (m_clients s) <= m_iMaxClients s /\
  0 <= m_iMaxClients s < 2 ^ 31.

(** Events of the registry's own business: the log, the lock and calls
    on sessions. *)
Definition is_registry_event (e : Event) : bool :=
  match e with
  | EvLog _ _ | EvEnter | EvLeave | EvClient _ _ => true
  | _ => false
  end.

(** Some pass of the list ends in an exception. *)
Definition throws (its : list Iteration) : bool :=
  existsb (fun it =>
             match it_recv it with ListenException => true | _ => false end)
    its.

(** The port range [Run] binds with. *)
Definition effectivePortRange (env : RunEnv) : Z :=
  if (env_port_range env <? 1) || (env_port_range env >? 100) then 10
  else env_port_range env.

(** [Run] gets as far as its loop: socket, buffer and bind succeed. *)
Definition startsUp (env : RunEnv) (s : CEventServer) : bool :=
  match env_socket env with
  | Some _ =>
      env_malloc env
      && env_bind env (negb (env_all_interfaces env)) (m_iPort s)
           (effectivePortRange env)
  | None => false
  end.

(** What the executor of an action reports, and the calls it makes. *)
Definition outcomeOf (BuiltinsExecute : string -> Z)
    (TranslateString : string -> Z) (OnAction : CAction -> bool)
    (a : CEventAction) : bool :=
  match actionType a with
  | AT_EXEC_BUILTIN => BuiltinsExecute (actionName a) =? 0
  | AT_BUTTON =>
      OnAction (mkCAction (TranslateString (actionName a)) 1 0 (actionName a))
  | AT_OTHER _ => true
  end.

Definition executorCall (TranslateString : string -> Z) (a : CEventAction)
  : list Event :=
  match actionType a with
  | AT_EXEC_BUILTIN => [EvBuiltinExecute (actionName a)]
  | AT_BUTTON =>
      [EvOnAction
         (mkCAction (TranslateString (actionName a)) 1 0 (actionName a))]
  | AT_OTHER _ => []
  end.

(** ** A concrete host, for evaluating the server on inputs *)
Module Host.

(** An address hash standing for [CAddress::ULong]. *)
Fixpoint ULong (a : CAddress) : Z :=
  match a with
  | EmptyString => 0
  | String ch rest => Z.of_nat (Ascii.nat_of_ascii ch) + 31 * ULong rest
  end.

(** A toy wire format: byte 0 is the signature ["X"], byte 1 the client
    token, the rest is the payload. *)
Definition ParsePacket (pSize : Z) (data : list Byte.byte) : CEventPacket :=
  match data with
  | sig :: tok :: payload =>
      mkPacket (Byte.eqb sig Byte.x58) (Z.of_N (Byte.to_N tok)) payload
  | _ => mkPacket false 0 []
  end.

(** Payload byte 0 selects the action kind, the name is fixed by it. *)
Definition Decode (p : CEventPacket) : list CEventAction :=
  match m_pPayload p with
  | [] => []
  | b :: _ =>
      if Byte.eqb b Byte.x01 then [mkAction "ok" AT_EXEC_BUILTIN]
      else if Byte.eqb b Byte.x02 then [mkAction "select" AT_BUTTON]
      else if Byte.eqb b Byte.x03 then [mkAction "fail" AT_EXEC_BUILTIN]
      else [mkAction "other" (AT_OTHER (Z.of_N (Byte.to_N b)))]
  end.

Definition livenessWindow : Z := 60.
Definition PACKET_SIZE : Z := 1024.

Definition BuiltinsExecute (name : string) : Z :=
  if String.eqb name "ok" then 0 else -1.
Definition TranslateString (name : string) : Z :=
  Z.of_nat (String.length name).
Definition HasGUI : bool := true.
Definition OnAction (a : CAction) : bool := m_id a =? 6.

Definition ProcessPacket := ProcessPacket ULong ParsePacket.
Definition RefreshClients := RefreshClients livenessWindow.
Definition ProcessEvents := ProcessEvents Decode.
Definition ExecuteNextAction :=
  ExecuteNextAction BuiltinsExecute TranslateString HasGUI OnAction.
Definition RunIteration :=
  RunIteration ULong ParsePacket Decode livenessWindow PACKET_SIZE.
Definition Run := Run ULong ParsePacket Decode livenessWindow PACKET_SIZE.

(** A datagram with a good signature, a token and one payload byte. *)
Definition datagram (tok payload : Byte.byte) : list Byte.byte :=
  [Byte.x58; tok; payload].

(** A server that has been started with room for [n] clients. *)
Definition started (n : Z) : CEventServer :=
  set_pPacketBuffer (Some [])
    (set_pSocket (Some (UDPSocket 3))
       (set_iMaxClients n (set_iPort 9777 CEventServer_new))).

(** Sample inputs. *)
Definition addrA : CAddress := "10.0.0.5"%string.
Definition addrB : CAddress := "10.0.0.6"%string.

(** The server after [Read] has put a datagram in the buffer. *)
Definition received (tok payload : Byte.byte) (s : CEventServer)
  : CEventServer :=
  set_pPacketBuffer (Some (datagram tok payload)) s.

Definition session (addr : CAddress) (lastPing : Z)
    (actions : list CEventAction) : CEventClient :=
  mkClient addr lastPing [] actions.

(** A registry with a live session under token 1 and, behind it, one
    under token 2 that was last heard of at time 0. *)
Definition liveThenDead : CEventServer :=
  set_bRefreshSettings true
    (set_clients [(1, session addrA 100 []); (2, session addrB 0 [])]
       (started 20)).

(** A session whose oldest pending action has a type the dispatcher
    has no case for. *)
Definition oddAction : CEventServer :=
  set_clients
    [(1, session addrA 0 []);
     (2, session addrB 0 [mkAction "noop" (AT_OTHER 7);
                          mkAction "ok" AT_EXEC_BUILTIN])]
    (started 20).

(** One session with two pending builtin commands, the first of which
    the host fails to execute. *)
Definition failingFirst : CEventServer :=
  set_clients
    [(5, session addrA 0 [mkAction "fail" AT_EXEC_BUILTIN;
                          mkAction "ok" AT_EXEC_BUILTIN])]
    (started 20).

(** A run whose socket and buffer are obtained but whose every port is
    taken, and a run that is stopped after one quiet pass. *)
Definition portsTaken : RunEnv :=
  mkRunEnv (Some (UDPSocket 3)) true 10 false (fun _ _ _ => false) [].
Definition quietRun (range : Z) : RunEnv :=
  mkRunEnv (Some (UDPSocket 3)) true range false (fun _ _ _ => true)
    [mkIteration ListenTimeout 0 0].

(** The sample calls. *)
Definition roomFor2 : CEventServer := received Byte.x00 Byte.x01 (started 2).
Definition roomFor0 : CEventServer := received Byte.x00 Byte.x01 (started 0).
Definition admitted := ProcessPacket 7 addrA 3 roomFor2.
Definition rejected := ProcessPacket 7 addrA 3 roomFor0.
Definition badSignature : CEventServer :=
  set_pPacketBuffer (Some [Byte.x00; Byte.x05; Byte.x01]) (started 2).
Definition sweepLiveThenDead := RefreshClients 100 liveThenDead.
Definition dispatchOdd := ExecuteNextAction oddAction.
Definition dispatchFailing := ExecuteNextAction failingFirst.
Definition startNegative := StartServer 9777 (-1) CEventServer_new.
Definition runRangeZero := Run (quietRun 0) (started 20).
Definition runPortsTaken := Run portsTaken (set_iPort 9777 CEventServer_new).

Definition addrC : CAddress := "10.0.0.7"%string.
Definition threeDatagrams : CEventServer :=
  state (RunIteration
           (mkIteration (Datagram addrC (datagram Byte.x00 Byte.x01)) 2 2)
           (state (RunIteration
                     (mkIteration (Datagram addrB (datagram Byte.x00 Byte.x01)) 1 1)
                     (state (RunIteration
                               (mkIteration
                                  (Datagram addrA (datagram Byte.x00 Byte.x01)) 0 0)
                               (started 2)))))).
Definition lastSeenAt0 : CEventServer :=
  set_clients [(5, session addrA 0 [])] (started 20).

(** More sample inputs. *)
Definition Process := Process ULong ParsePacket Decode livenessWindow PACKET_SIZE.
Definition RunLoop := RunLoop ULong ParsePacket Decode livenessWindow PACKET_SIZE.
Definition ExecuteNextActions :=
  ExecuteNextActions BuiltinsExecute TranslateString HasGUI OnAction.

(** A session reports its last-activity time as button code when that is
    not 0, and a pointer position when it has packets waiting. *)
Definition Client_GetButtonCode (out : ButtonOut Z) (c : CEventClient)
  : Z * ButtonOut Z * CEventClient :=
  if m_lastPing c =? 0 then (0, out, c)
  else (m_lastPing c, mkButtonOut "KB" false 1 false, c).
Definition Client_GetMousePos (xy : Z * Z) (c : CEventClient)
  : bool * (Z * Z) * CEventClient :=
  match m_readyPackets c with
  | [] => (false, xy, c)
  | _ => (true, (3, 4), c)
  end.
Definition GetButtonCode := GetButtonCode Z Client_GetButtonCode.
Definition GetMousePos := GetMousePos Z Client_GetMousePos.

(** A full registry of one, whose session has token 5 and address A,
    after a datagram with token 5 has been read from address B. *)
Definition fullWithFive : CEventServer :=
  received Byte.x05 Byte.x01
    (set_clients [(5, session addrA 0 [])] (started 1)).

(** Sessions 5 (never active) and 9 (active at 30), and a datagram with
    token 5 in the buffer. *)
Definition fiveAndNine : CEventServer :=
  received Byte.x05 Byte.x01
    (set_clients [(5, session addrA 0 []); (9, session addrB 30 [])]
       (started 4)).

(** Two sessions with three pending actions between them. *)
Definition threePending : CEventServer :=
  set_clients
    [(1, session addrA 0 [mkAction "fail" AT_EXEC_BUILTIN;
                          mkAction "select" AT_BUTTON]);
     (2, session addrB 0 [mkAction "ok" AT_EXEC_BUILTIN])]
    (started 20).

(** Passes: a datagram from A, an exception, a datagram from B. *)
Definition passA : Iteration :=
  mkIteration (Datagram addrA (datagram Byte.x00 Byte.x01)) 0 0.
Definition passThrow : Iteration := mkIteration ListenException 1 1.
Definition passB : Iteration :=
  mkIteration (Datagram addrB (datagram Byte.x00 Byte.x01)) 2 2.

(** The datagram [tok], [payload] read after the one in the buffer of [s]
    has been routed at time 1 from address A. *)
Definition thenReceived (tok payload : Byte.byte) (s : CEventServer)
  : CEventServer :=
  set_pPacketBuffer (Some (datagram tok payload))
    (state (ProcessPacket 1 addrA 3 s)).

(** Two datagrams from A routed one after the other: both without a
    client token, and with the tokens 5 and 6. *)
Definition bothUntagged :=
  ProcessPacket 2 addrA 3
    (thenReceived Byte.x00 Byte.x02 (received Byte.x00 Byte.x01 (started 2))).
Definition bothTagged :=
  ProcessPacket 2 addrA 3
    (thenReceived Byte.x06 Byte.x02 (received Byte.x05 Byte.x01 (started 2))).

Definition brokenRun : RunEnv :=
  mkRunEnv (Some (UDPSocket 4)) true 10 true (fun _ _ _ => true)
    [passA; passThrow; passB].

End Host.

(** * Properties *)

(** ** The registry as a map *)
Module ClientMapFacts.
Import ClientMap.

Lemma find_insert_same {V} (k : Z) (v : V) (m : t V) :
  find k (insert k v m) = Some v.
Proof.
  induction m as [|[k' v'] rest IH]; simpl.
  - now rewrite Z.eqb_refl.
  - destruct (k <? k') eqn:Hlt; simpl.
    + now rewrite Z.eqb_refl.
    + destruct (k =? k') eqn:Heq; simpl.
      * now rewrite Z.eqb_refl.
      * rewrite Z.eqb_sym, Heq. exact IH.
Qed.

Lemma find_insert_other {V} (k k0 : Z) (v : V) (m : t V) :
  k0 <> k -> find k0 (insert k v m) = find k0 m.
Proof.
  intros Hne.
  assert (Hk : (k =? k0) = false) by (apply Z.eqb_neq; congruence).
  induction m as [|[k' v'] rest IH]; simpl.
  - now rewrite Hk.
  - destruct (k <? k') eqn:Hlt; simpl.
    + now rewrite Hk.
    + destruct (k =? k') eqn:Heq; simpl.
      * apply Z.eqb_eq in Heq. subst k'. now rewrite Hk.
      * now rewrite IH.
Qed.

Lemma insert_insert {V} (k : Z) (v w : V) (m : t V) :
  insert k w (insert k v m) = insert k w m.
Proof.
  induction m as [|[k' v'] rest IH]; simpl.
  - now rewrite Z.ltb_irrefl, Z.eqb_refl.
  - destruct (k <? k') eqn:Hlt; simpl.
    + now rewrite Z.ltb_irrefl, Z.eqb_refl.
    + destruct (k =? k') eqn:Heq; simpl.
      * now rewrite Z.ltb_irrefl, Z.eqb_refl.
      * now rewrite Hlt, Heq, IH.
Qed.

Lemma size_insert_new {V} (k : Z) (v : V) (m : t V) :
  find k m = None -> size (insert k v m) = size m + 1.
Proof.
  unfold size. induction m as [|[k' v'] rest IH]; simpl; intros Hf.
  - reflexivity.
  - destruct (k' =? k) eqn:Heq; [discriminate|].
    destruct (k <? k'); simpl; [lia|].
    rewrite Z.eqb_sym, Heq. simpl. specialize (IH Hf). lia.
Qed.

Lemma find_above {V} (k : Z) (m : t V) :
  Forall (fun k' => k < k') (keys m) -> find k m = None.
Proof.
  induction m as [|[k' v'] rest IH]; simpl; intros HF; [reflexivity|].
  inversion HF as [|? ? Hlt Hrest]; subst.
  destruct (k' =? k) eqn:Heq; [apply Z.eqb_eq in Heq; lia|].
  now apply IH.
Qed.

(** On an ordered map, assigning to a key that is present replaces its
    entry: the size does not change. *)
Lemma size_insert_old {V} (k : Z) (v v0 : V) (m : t V) :
  wf m -> find k m = Some v0 -> size (insert k v m) = size m.
Proof.
  unfold size, wf.
  induction m as [|[k' v'] rest IH]; simpl; intros Hwf Hf.
  - discriminate.
  - destruct Hwf as [Hhd Htl].
    destruct (k' =? k) eqn:Heq.
    + apply Z.eqb_eq in Heq. subst k'.
      now rewrite Z.ltb_irrefl, Z.eqb_refl.
    + destruct (k <? k') eqn:Hlt.
      * apply Z.ltb_lt in Hlt.
        rewrite find_above in Hf; [discriminate|].
        eapply Forall_impl; [|exact Hhd]. simpl. intros; lia.
      * rewrite Z.eqb_sym, Heq. simpl. specialize (IH Htl Hf). lia.
Qed.

Lemma keys_insert_Forall {V} (P : Z -> Prop) (k : Z) (v : V) (m : t V) :
  P k -> Forall P (keys m) -> Forall P (keys (insert k v m)).
Proof.
  intros Hk. induction m as [|[k' v'] rest IH]; simpl; intros HF.
  - now constructor.
  - inversion HF; subst.
    destruct (k <? k'); [|destruct (k =? k')]; simpl; auto.
Qed.

Lemma insert_wf {V} (k : Z) (v : V) (m : t V) :
  wf m -> wf (insert k v m).
Proof.
  unfold wf.
  induction m as [|[k' v'] rest IH]; simpl; intros Hwf.
  - auto.
  - destruct Hwf as [Hhd Htl].
    destruct (k <? k') eqn:Hlt; [|destruct (k =? k') eqn:Heq]; simpl.
    + apply Z.ltb_lt in Hlt. repeat split; auto.
      constructor; [exact Hlt|].
      eapply Forall_impl; [|exact Hhd]. simpl. intros; lia.
    + apply Z.eqb_eq in Heq. subst k'. auto.
    + apply Z.ltb_ge in Hlt. apply Z.eqb_neq in Heq. split; auto.
      apply keys_insert_Forall; [lia|exact Hhd].
Qed.

Lemma size_nonneg {V} (m : t V) : 0 <= size m.
Proof. unfold size. lia. Qed.

End ClientMapFacts.

(** ** Routing: [ProcessPacket] *)
Section Routing.

Variable ULong : CAddress -> Z.
Variable ParsePacket : Z -> list Byte.byte -> CEventPacket.

Ltac run_routing :=
  unfold ProcessPacket, AddPacketTo, PacketIn, bind, gets, emit,
    modify, ret in *; cbn in *.

(** What [ProcessPacket] does with a valid packet, case by case. *)
Lemma ProcessPacket_valid now addr pSize s :
  IsValid (PacketIn ParsePacket pSize s) = true ->
  ProcessPacket ULong ParsePacket now addr pSize s =
    let packet := PacketIn ParsePacket pSize s in
    let T := routingToken ULong addr packet in
    match ClientMap.find T (m_clients s) with
    | Some c =>
        (tt,
         set_clients (ClientMap.insert T (AddPacket now packet c) (m_clients s)) s,
         [EvEnter; EvClient T MAddPacket; EvLeave])
    | None =>
        if ClientMap.size (m_clients s) >=? to_uint (m_iMaxClients s) then
          (tt, s,
           [EvEnter;
            EvLog LOGWARNING
              "ES: Cannot accept any more clients, maximum client count reached";
            EvLeave])
        else
          (tt,
           set_clients
             (ClientMap.insert T (AddPacket now packet (CEventClient_new addr))
                (m_clients s)) s,
           [EvEnter; EvClient T MNew; EvClient T MAddPacket; EvLeave])
    end.
Proof.
  intros Hv. run_routing. rewrite Hv. cbn.
  destruct (ClientMap.find _ (m_clients s)) as [c|] eqn:Hf; cbn.
  - rewrite Hf. cbn. destruct s; reflexivity.
  - destruct (_ >=? _) eqn:Hfull; cbn.
    + destruct s; reflexivity.
    + rewrite ClientMapFacts.find_insert_same. cbn.
      rewrite ClientMapFacts.insert_insert. reflexivity.
Qed.

Lemma to_uint_small (x : Z) : 0 <= x < 2 ^ 32 -> to_uint x = x.
Proof. intros H. unfold to_uint. now apply Z.mod_small. Qed.

(** C1. Routing a valid packet under its token [T]: with fewer than
    [m_iMaxClients] clients, a session for [T] exists afterwards and the
    packet is the last of its queue, after whatever the session already
    held; with exactly [m_iMaxClients] clients and no session for [T],
    nothing is created, the packet is dropped and the server state,
    registry included, is what it was. ([m_iMaxClients] is an [int].) *)
Theorem ProcessPacket_admission now addr pSize s packet T :
  packet = PacketIn ParsePacket pSize s ->
  IsValid packet = true ->
  T = routingToken ULong addr packet ->
  m_iMaxClients s < 2 ^ 31 ->
  let r := ProcessPacket ULong ParsePacket now addr pSize s in
  (ClientMap.size (m_clients s) < m_iMaxClients s ->
     exists c, ClientMap.find T (m_clients (state r)) = Some c /\
               m_readyPackets c = queueOf T s ++ [packet] /\
               In (EvClient T MAddPacket) (trace r)) /\
  (ClientMap.size (m_clients s) = m_iMaxClients s ->
   ClientMap.find T (m_clients s) = None ->
     state r = s /\
     ClientMap.find T (m_clients (state r)) = None /\
     forall k m, ~ In (EvClient k m) (trace r)).
Proof.
  intros Hp Hv HT Hmax r. subst r.
  rewrite Hp in Hv. rewrite (ProcessPacket_valid _ _ _ _ Hv).
  cbv zeta. rewrite <- Hp, <- HT.
  pose proof (ClientMapFacts.size_nonneg (m_clients s)) as Hsz.
  split.
  - intros Hroom. unfold queueOf.
    destruct (ClientMap.find T (m_clients s)) as [c|] eqn:Hf.
    + eexists. cbn. rewrite ClientMapFacts.find_insert_same.
      repeat split; cbn; auto.
    + rewrite to_uint_small by lia.
      destruct (_ >=? _) eqn:Hfull; [apply Z.geb_le in Hfull; lia|].
      eexists. cbn. rewrite ClientMapFacts.find_insert_same.
      repeat split; cbn; auto.
  - intros Hfull Hnone. rewrite Hnone.
    rewrite to_uint_small by lia.
    destruct (_ >=? _) eqn:Hge.
    + cbn. repeat split; auto.
      intros k m [H|[H|[H|[]]]]; discriminate.
    + rewrite Z.geb_leb in Hge. apply Z.leb_gt in Hge. lia.
Qed.

Lemma ProcessPacket_invalid_run now addr pSize s :
  IsValid (PacketIn ParsePacket pSize s) = false ->
  ProcessPacket ULong ParsePacket now addr pSize s
  = (tt, s, [EvLog LOGDEBUG "ES: Received invalid packet"]).
Proof.
  intros Hv. run_routing. rewrite Hv. reflexivity.
Qed.

(** Admission control keeps the registry an ordered map of at most
    [m_iMaxClients] sessions, whatever the datagram. *)
Lemma ProcessPacket_keeps_capacity now addr pSize s :
  0 <= m_iMaxClients s < 2 ^ 31 ->
  ClientMap.wf (m_clients s) ->
  ClientMap.size (m_clients s) <= m_iMaxClients s ->
  let s' := state (ProcessPacket ULong ParsePacket now addr pSize s) in
  ClientMap.wf (m_clients s') /\
  ClientMap.size (m_clients s') <= m_iMaxClients s' /\
  m_iMaxClients s' = m_iMaxClients s.
Proof.
  intros Hmax Hwf Hsz. cbv zeta.
  destruct (IsValid (PacketIn ParsePacket pSize s)) eqn:Hv.
  - rewrite (ProcessPacket_valid _ _ _ _ Hv). cbv zeta.
    destruct (ClientMap.find _ (m_clients s)) as [c|] eqn:Hf.
    + cbn. split; [now apply ClientMapFacts.insert_wf|].
      rewrite (ClientMapFacts.size_insert_old _ _ c) by assumption. auto.
    + rewrite to_uint_small by lia.
      destruct (_ >=? _) eqn:Hfull; cbn; [auto|].
      rewrite Z.geb_leb in Hfull. apply Z.leb_gt in Hfull.
      split; [now apply ClientMapFacts.insert_wf|].
      rewrite ClientMapFacts.size_insert_new by assumption. split; [lia|auto].
  - rewrite (ProcessPacket_invalid_run _ _ _ _ Hv). cbn. auto.
Qed.

(** C5. A datagram that parses to an invalid packet changes nothing:
    the server state, registry included, is what it was, whatever the
    sender's address, and no session is called or created. *)
Theorem ProcessPacket_invalid now addr pSize s :
  IsValid (PacketIn ParsePacket pSize s) = false ->
  state (ProcessPacket ULong ParsePacket now addr pSize s) = s /\
  m_clients (state (ProcessPacket ULong ParsePacket now addr pSize s))
    = m_clients s /\
  trace (ProcessPacket ULong ParsePacket now addr pSize s)
    = [EvLog LOGDEBUG "ES: Received invalid packet"].
Proof.
  intros Hv. rewrite (ProcessPacket_invalid_run _ _ _ _ Hv). cbn. auto.
Qed.


End Routing.

(** ** Dispatch: [ExecuteNextAction] *)
Section Dispatch.

Variable BuiltinsExecute : string -> Z.
Variable TranslateString : string -> Z.
Variable HasGUI : bool.
Variable OnAction : CAction -> bool.

Ltac run_dispatch :=
  unfold ExecuteNextAction, ExecuteAction, bind, gets, emit, modify, ret in *;
  cbn in *.

Lemma ExecuteAction_state a s :
  state (ExecuteAction BuiltinsExecute TranslateString HasGUI OnAction a s) = s.
Proof.
  run_dispatch. destruct (actionType a); cbn; auto.
  destruct HasGUI; reflexivity.
Qed.

Lemma GetNextAction_pending c :
  match GetNextAction c with
  | Some (a, c') => m_actionQueue c = a :: m_actionQueue c'
  | None => m_actionQueue c = []
  end.
Proof. unfold GetNextAction. destruct (m_actionQueue c); cbn; auto. Qed.

(** The scan stops at the first session that has a pending action. *)
Lemma ExecuteNextAction_loop_spec rest : forall passed s,
  let r := ExecuteNextAction_loop BuiltinsExecute TranslateString HasGUI
             OnAction passed rest s in
  match pendingActions rest with
  | [] =>
      r = (false, s,
           map (fun kc => EvClient (fst kc) MGetNextAction) rest ++ [EvLeave])
  | a :: q =>
      exists pre k c c' post,
        rest = pre ++ (k, c) :: post /\
        pendingActions pre = [] /\
        GetNextAction c = Some (a, c') /\
        q = pendingActions ((k, c') :: post) /\
        let s' := set_clients (passed ++ pre ++ (k, c') :: post) s in
        let x := ExecuteAction BuiltinsExecute TranslateString HasGUI
                   OnAction a s' in
        result r = result x /\ state r = s' /\
        trace r = map (fun kc => EvClient (fst kc) MGetNextAction) pre
                    ++ [EvClient k MGetNextAction; EvLeave] ++ trace x
  end.
Proof.
  induction rest as [|[k c] rest' IH]; intros passed s; cbn zeta.
  - reflexivity.
  - cbn [ExecuteNextAction_loop pendingActions flat_map snd].
    pose proof (GetNextAction_pending c) as Hq.
    destruct (GetNextAction c) as [[a c']|] eqn:Hg.
    + rewrite Hq. cbn [app].
      exists [], k, c, c', rest'. cbn [app map].
      repeat split; auto.
      * unfold bind, emit, modify. cbn.
        apply ExecuteAction_state.
    + rewrite Hq. cbn [app].
      specialize (IH (passed ++ [(k, c)]) s). cbn zeta in IH.
      fold (pendingActions rest').
      destruct (pendingActions rest') as [|a q].
      * unfold bind, emit. cbn. rewrite IH. reflexivity.
      * destruct IH as (pre & k0 & c0 & c0' & post & Hrest & Hpre & Hg0 & Hq0 & Hres & Hst & Htr).
        exists ((k, c) :: pre), k0, c0, c0', post.
        split; [now rewrite Hrest|].
        split; [unfold pendingActions in *; cbn; now rewrite Hq, Hpre|].
        split; [exact Hg0|]. split; [exact Hq0|].
        rewrite <- app_assoc in Hst, Hres, Htr. cbn [app] in Hst, Hres, Htr.
        unfold bind, emit. cbn in Hres, Hst, Htr |- *.
        rewrite Hres, Hst, Htr. auto.
Qed.

Lemma filter_client_calls (f : Event -> bool) (m : Method)
    (l : ClientMap.t CEventClient) :
  (forall k, f (EvClient k m) = false) ->
  filter f (map (fun kc => EvClient (fst kc) m) l) = [].
Proof.
  intros Hf. induction l as [|[k c] l IH]; cbn; [reflexivity|].
  now rewrite Hf.
Qed.

Lemma unlocked_client_calls (d : nat) (m : Method)
    (l : ClientMap.t CEventClient) (tr : list Event) :
  unlocked_execution d (map (fun kc => EvClient (fst kc) m) l ++ tr)
  = unlocked_execution d tr.
Proof. induction l as [|[k c] l IH]; cbn; auto. Qed.

Lemma ExecuteAction_unlocked a s :
  unlocked_execution 0
    (trace (ExecuteAction BuiltinsExecute TranslateString HasGUI OnAction a s))
  = true.
Proof.
  run_dispatch. destruct (actionType a); cbn; auto.
  destruct HasGUI; reflexivity.
Qed.

(** C2. Along every call of [ExecuteNextAction] entered without the
    registry lock, each call into action execution (a builtin command,
    the action sound, the button action) happens while the lock is not
    held: the lock taken on entry has been left before. *)
Theorem ExecuteNextAction_unlocked s :
  unlocked_execution 0
    (trace (ExecuteNextAction BuiltinsExecute TranslateString HasGUI
              OnAction s))
  = true.
Proof.
  unfold ExecuteNextAction, bind, emit, gets. cbn.
  pose proof (ExecuteNextAction_loop_spec (m_clients s) [] s) as H.
  cbn zeta in H.
  destruct (pendingActions (m_clients s)) as [|a q].
  - rewrite H. cbn. now rewrite unlocked_client_calls.
  - destruct H as (pre & k & c & c' & post & _ & _ & _ & _ & _ & _ & Htr).
    cbn in Htr. rewrite Htr, unlocked_client_calls. cbn.
    apply ExecuteAction_unlocked.
Qed.

(** C3. [ExecuteNextAction] takes at most one action per call, the
    oldest one of the first session that has any, and returns what the
    executor of that action reports: whether the builtin command
    returned 0, or the result of the button action. The action leaves
    the queue whatever the executor reports. With no pending action
    the call returns [false] and leaves the server as it was. *)
Theorem ExecuteNextAction_dispatch s :
  let r := ExecuteNextAction BuiltinsExecute TranslateString HasGUI
             OnAction s in
  match pendingActions (m_clients s) with
  | [] =>
      result r = false /\ state r = s /\ filter is_execution (trace r) = []
  | a :: q =>
      pendingActions (m_clients (state r)) = q /\
      ClientMap.keys (m_clients (state r)) = ClientMap.keys (m_clients s) /\
      match actionType a with
      | AT_EXEC_BUILTIN =>
          filter is_executor (trace r) = [EvBuiltinExecute (actionName a)] /\
          result r = (BuiltinsExecute (actionName a) =? 0)
      | AT_BUTTON =>
          let action :=
            mkCAction (TranslateString (actionName a)) 1 0 (actionName a) in
          filter is_executor (trace r) = [EvOnAction action] /\
          result r = OnAction action
      | AT_OTHER _ => filter is_executor (trace r) = []
      end
  end.
Proof.
  unfold ExecuteNextAction, bind, emit, gets. cbn.
  pose proof (ExecuteNextAction_loop_spec (m_clients s) [] s) as H.
  cbn zeta in H.
  destruct (pendingActions (m_clients s)) as [|a q].
  - rewrite H. cbn. repeat split.
    rewrite filter_app, filter_client_calls by reflexivity. reflexivity.
  - destruct H as (pre & k & c & c' & post & Hcl & Hpre & Hg & Hq & Hres & Hst & Htr).
    cbn in Hres, Hst, Htr. rewrite Hres, Hst, Htr. cbn [m_clients set_clients].
    split.
    { unfold pendingActions in *. rewrite flat_map_app, Hpre, Hq.
      reflexivity. }
    split.
    { rewrite Hcl. unfold ClientMap.keys. rewrite !map_app. reflexivity. }
    rewrite filter_app, filter_client_calls by reflexivity.
    run_dispatch. destruct (actionType a); cbn; auto.
    destruct HasGUI; cbn; auto.
Qed.

(** C10. A pending action whose type is neither [AT_EXEC_BUILTIN] nor
    [AT_BUTTON] is taken off its session's queue and the call returns
    [true], with no call into action execution. *)
Theorem ExecuteNextAction_other_type s a q code :
  pendingActions (m_clients s) = a :: q ->
  actionType a = AT_OTHER code ->
  let r := ExecuteNextAction BuiltinsExecute TranslateString HasGUI
             OnAction s in
  result r = true /\
  pendingActions (m_clients (state r)) = q /\
  filter is_execution (trace r) = [].
Proof.
  intros Hp Ht.
  unfold ExecuteNextAction, bind, emit, gets. cbn.
  pose proof (ExecuteNextAction_loop_spec (m_clients s) [] s) as H.
  cbn zeta in H. rewrite Hp in H.
  destruct H as (pre & k & c & c' & post & Hcl & Hpre & Hg & Hq & Hres & Hst & Htr).
  cbn in Hres, Hst, Htr. rewrite Hres, Hst, Htr. cbn [m_clients set_clients].
  unfold ExecuteAction. rewrite Ht. cbn.
  repeat split.
  - unfold pendingActions in *. rewrite flat_map_app, Hpre, Hq. reflexivity.
  - rewrite filter_app, filter_client_calls by reflexivity. reflexivity.
Qed.

End Dispatch.

(** ** The sweep: [RefreshClients] *)
Section Sweep.

Variable livenessWindow : Z.

Lemma deadCount_app alive l1 l2 :
  deadCount alive (l1 ++ l2) = (deadCount alive l1 + deadCount alive l2)%nat.
Proof. unfold deadCount. now rewrite filter_app, length_app. Qed.

Lemma deadCount_alive now l :
  forallb (aliveAt livenessWindow now) l = true ->
  deadCount (Alive livenessWindow now) l = 0%nat.
Proof.
  unfold deadCount, aliveAt.
  induction l as [|[k c] l IH]; cbn; intros H; [reflexivity|].
  apply andb_prop in H. destruct H as [Hc Hl]. rewrite Hc. cbn. auto.
Qed.

Lemma filter_alive now l :
  forallb (aliveAt livenessWindow now) l = true -> filter (aliveAt livenessWindow now) l = l.
Proof.
  induction l as [|[k c] l IH]; cbn; intros H; [reflexivity|].
  apply andb_prop in H. destruct H as [Hc Hl]. rewrite Hc.
  now rewrite IH.
Qed.

(** The registry after the loop: what had been passed, then the live
    sessions of what was still ahead. *)
Lemma RefreshClients_loop_clients now refresh passed rest :
  forallb (aliveAt livenessWindow now) passed = true ->
  fst (RefreshClients_loop livenessWindow now refresh passed rest)
  = passed ++ filter (aliveAt livenessWindow now) rest.
Proof.
  funelim (RefreshClients_loop livenessWindow now refresh passed rest);
    intros Hp.
  - cbn. now rewrite app_nil_r.
  - cbn zeta. cbn [fst]. rewrite H.
    + rewrite <- app_assoc. cbn [filter app]. unfold aliveAt at 2. cbn [snd].
      rewrite Heq. unfold RefreshSettings. destruct refresh; reflexivity.
    + rewrite forallb_app, Hp. cbn. unfold aliveAt. cbn [snd].
      unfold RefreshSettings. destruct refresh; now rewrite Heq.
  - cbn zeta. cbn [fst]. rewrite H by reflexivity.
    cbn [app filter]. unfold aliveAt at 2. cbn [snd]. rewrite Heq.
    rewrite filter_app, filter_alive by assumption. reflexivity.
Qed.

Lemma calls_cons k m e tr :
  calls k m (e :: tr) = ((if is_call k m e then 1 else 0) + calls k m tr)%nat.
Proof. unfold calls. cbn. destruct (is_call k m e); reflexivity. Qed.

Lemma calls_app k m tr1 tr2 :
  calls k m (tr1 ++ tr2) = (calls k m tr1 + calls k m tr2)%nat.
Proof. unfold calls. now rewrite filter_app, length_app. Qed.

Lemma entries_cons k k0 c l :
  entries k ((k0, c) :: l)
  = ((if (k0 =? k)%Z then 1 else 0) + entries k l)%nat.
Proof. unfold entries. cbn. destruct (k0 =? k); reflexivity. Qed.

Lemma entries_app k l1 l2 :
  entries k (l1 ++ l2) = (entries k l1 + entries k l2)%nat.
Proof. unfold entries. now rewrite filter_app, length_app. Qed.

Lemma deadCount_cons alive k c l :
  deadCount alive ((k, c) :: l)
  = ((if alive c then 0 else 1) + deadCount alive l)%nat.
Proof. unfold deadCount. cbn. destruct (alive c); reflexivity. Qed.

Lemma sweepVisits_app_alive now k passed rest :
  forallb (aliveAt livenessWindow now) passed = true ->
  sweepVisits (Alive livenessWindow now) k (passed ++ rest)
  = (entries k passed * (1 + deadCount (Alive livenessWindow now) rest)
     + sweepVisits (Alive livenessWindow now) k rest)%nat.
Proof.
  induction passed as [|[k0 c] p IH]; intros H; [reflexivity|].
  cbn in H. apply andb_prop in H. destruct H as [Hc Hp].
  unfold aliveAt in Hc. cbn in Hc.
  cbn [app sweepVisits]. rewrite (IH Hp), entries_cons, Hc.
  rewrite deadCount_app, (deadCount_alive _ _ Hp).
  destruct (k0 =? k); nia.
Qed.

Lemma sweepRefreshes_app_alive now k passed rest :
  forallb (aliveAt livenessWindow now) passed = true ->
  sweepRefreshes (Alive livenessWindow now) k (passed ++ rest)
  = (entries k passed * (1 + deadCount (Alive livenessWindow now) rest)
     + sweepRefreshes (Alive livenessWindow now) k rest)%nat.
Proof.
  induction passed as [|[k0 c] p IH]; intros H; [reflexivity|].
  cbn in H. apply andb_prop in H. destruct H as [Hc Hp].
  unfold aliveAt in Hc. cbn in Hc.
  cbn [app sweepRefreshes]. rewrite (IH Hp), entries_cons, Hc.
  rewrite deadCount_app, (deadCount_alive _ _ Hp).
  destruct (k0 =? k); cbn [andb]; nia.
Qed.

Lemma passed_alive now (refresh : bool) passed k c :
  forallb (aliveAt livenessWindow now) passed = true ->
  Alive livenessWindow now c = true ->
  forallb (aliveAt livenessWindow now)
    (passed ++ [(k, if refresh then RefreshSettings c else c)]) = true.
Proof.
  intros Hp Hc. rewrite forallb_app, Hp. cbn. unfold aliveAt. cbn [snd].
  unfold RefreshSettings. destruct refresh; now rewrite Hc.
Qed.

(** Liveness tests the loop makes on the session of token [T]. *)
Lemma RefreshClients_loop_visits now refresh T passed rest :
  forallb (aliveAt livenessWindow now) passed = true ->
  calls T MAlive
    (snd (RefreshClients_loop livenessWindow now refresh passed rest))
  = (entries T passed * deadCount (Alive livenessWindow now) rest
     + sweepVisits (Alive livenessWindow now) T rest)%nat.
Proof.
  funelim (RefreshClients_loop livenessWindow now refresh passed rest);
    intros Hp.
  - cbn. lia.
  - cbn zeta. cbn [snd]. rewrite calls_cons, calls_app.
    rewrite H by (now apply passed_alive).
    rewrite entries_app, entries_cons, deadCount_cons, Heq.
    cbn [sweepVisits]. rewrite Heq.
    assert (Hr : calls T MAlive
              (if refresh then [EvClient k MRefreshSettings] else []) = 0%nat).
    { destruct refresh; cbn; [|reflexivity].
      unfold calls. cbn. now rewrite andb_false_r. }
    rewrite Hr. cbn [is_call]. rewrite andb_true_r.
    change (entries T []) with 0%nat.
    destruct (k =? T); nia.
  - cbn zeta. cbn [snd]. rewrite !calls_cons.
    rewrite H by reflexivity.
    rewrite sweepVisits_app_alive by assumption.
    rewrite deadCount_cons, Heq. cbn [sweepVisits]. rewrite Heq.
    cbn [is_call]. rewrite andb_true_r, andb_false_r.
    change (entries T []) with 0%nat.
    destruct (k =? T); nia.
Qed.

(** Settings refreshes the loop makes on the session of token [T]. *)
Lemma RefreshClients_loop_refreshes now (refresh : bool) T passed rest :
  forallb (aliveAt livenessWindow now) passed = true ->
  calls T MRefreshSettings
    (snd (RefreshClients_loop livenessWindow now refresh passed rest))
  = if refresh then
      (entries T passed * deadCount (Alive livenessWindow now) rest
       + sweepRefreshes (Alive livenessWindow now) T rest)%nat
    else 0%nat.
Proof.
  funelim (RefreshClients_loop livenessWindow now refresh passed rest);
    intros Hp.
  - cbn. destruct refresh; lia.
  - cbn zeta. cbn [snd]. rewrite calls_cons, calls_app.
    rewrite H by (now apply passed_alive).
    rewrite entries_app, entries_cons, deadCount_cons, Heq.
    cbn [sweepRefreshes]. rewrite Heq.
    change (entries T []) with 0%nat.
    cbn [is_call]. rewrite andb_false_r, andb_true_r.
    destruct refresh; [|reflexivity].
    rewrite calls_cons. cbn [is_call]. rewrite andb_true_r.
    change (calls T MRefreshSettings []) with 0%nat.
    destruct (k =? T); nia.
  - cbn zeta. cbn [snd]. rewrite !calls_cons.
    rewrite H by reflexivity.
    cbn [is_call]. rewrite !andb_false_r.
    destruct refresh; [|reflexivity].
    rewrite sweepRefreshes_app_alive by assumption.
    rewrite deadCount_cons, Heq. cbn [sweepRefreshes]. rewrite Heq.
    change (entries T []) with 0%nat.
    rewrite andb_false_r. nia.
Qed.

Lemma deadEntries_alive now T l :
  forallb (aliveAt livenessWindow now) l = true ->
  deadEntries (Alive livenessWindow now) T l = 0%nat.
Proof.
  unfold deadEntries, aliveAt.
  induction l as [|[k c] l IH]; cbn; intros H; [reflexivity|].
  apply andb_prop in H. destruct H as [Hc Hl]. rewrite Hc.
  rewrite andb_false_r. auto.
Qed.

(** Sessions of token [T] the loop destroys. *)
Lemma RefreshClients_loop_deletes now refresh T passed rest :
  forallb (aliveAt livenessWindow now) passed = true ->
  calls T MDelete
    (snd (RefreshClients_loop livenessWindow now refresh passed rest))
  = deadEntries (Alive livenessWindow now) T rest.
Proof.
  funelim (RefreshClients_loop livenessWindow now refresh passed rest);
    intros Hp.
  - reflexivity.
  - cbn zeta. cbn [snd]. rewrite calls_cons, calls_app.
    rewrite H by (now apply passed_alive).
    cbn [is_call]. rewrite andb_false_r.
    assert (Hr : calls T MDelete
              (if refresh then [EvClient k MRefreshSettings] else []) = 0%nat).
    { destruct refresh; cbn; [|reflexivity].
      unfold calls. cbn. now rewrite andb_false_r. }
    rewrite Hr. unfold deadEntries. cbn [filter fst snd].
    rewrite Heq, andb_false_r. reflexivity.
  - cbn zeta. cbn [snd]. rewrite !calls_cons.
    rewrite H by reflexivity.
    cbn [is_call]. rewrite andb_false_r, andb_true_r.
    unfold deadEntries at 1. rewrite filter_app, length_app.
    fold (deadEntries (Alive livenessWindow now) T passed).
    fold (deadEntries (Alive livenessWindow now) T rest').
    rewrite (deadEntries_alive _ _ _ Hp).
    unfold deadEntries at 2. cbn [filter fst snd]. rewrite Heq.
    cbn [negb]. rewrite andb_true_r.
    destruct (k =? T); reflexivity.
Qed.

Lemma RefreshClients_unfold now s :
  RefreshClients livenessWindow now s =
    let r := RefreshClients_loop livenessWindow now (m_bRefreshSettings s)
               [] (m_clients s) in
    (tt, set_bRefreshSettings false (set_clients (fst r) s),
     EvEnter :: snd r ++ [EvLeave]).
Proof.
  unfold RefreshClients, bind, gets, emit, emits, modify. cbn.
  reflexivity.
Qed.

Lemma ascending_split l1 k l2 :
  ClientMap.ascending (l1 ++ k :: l2) ->
  Forall (fun k' => k' < k) l1 /\ Forall (fun k' => k < k') l2.
Proof.
  induction l1 as [|k1 l1 IH]; cbn; intros [Hhd Htl].
  - auto.
  - destruct (IH Htl) as [H1 H2]. split; [|exact H2].
    constructor; [|exact H1].
    apply Forall_app in Hhd. destruct Hhd as [_ Hk].
    now inversion Hk.
Qed.

Lemma entries_none k (l : ClientMap.t CEventClient) :
  Forall (fun k' => k' <> k) (ClientMap.keys l) -> entries k l = 0%nat.
Proof.
  unfold entries.
  induction l as [|[k0 c] l IH]; cbn; intros H; [reflexivity|].
  inversion H as [|x y Hne Hl]; subst.
  apply Z.eqb_neq in Hne. rewrite Hne. auto.
Qed.

Lemma wf_entries pre k c post :
  ClientMap.wf (pre ++ (k, c) :: post) ->
  entries k pre = 0%nat /\ entries k post = 0%nat.
Proof.
  unfold ClientMap.wf, ClientMap.keys. rewrite map_app. cbn [map fst].
  intros H. apply ascending_split in H. destruct H as [H1 H2].
  split; apply entries_none;
    (eapply Forall_impl; [|eassumption]); cbn; intros; lia.
Qed.

Lemma entries_zero_cons k k0 c l :
  entries k ((k0, c) :: l) = 0%nat ->
  (k0 =? k) = false /\ entries k l = 0%nat.
Proof.
  rewrite entries_cons. destruct (k0 =? k); [discriminate|]. auto.
Qed.

Section Skip.
Variable alive : CEventClient -> bool.

Lemma sweepVisits_skip k pre l :
  entries k pre = 0%nat ->
  sweepVisits alive k (pre ++ l) = sweepVisits alive k l.
Proof.
  induction pre as [|[k0 c] pre IH]; intros H; [reflexivity|].
  apply entries_zero_cons in H. destruct H as [Hk H].
  cbn [app sweepVisits]. now rewrite Hk, IH.
Qed.

Lemma sweepRefreshes_skip k pre l :
  entries k pre = 0%nat ->
  sweepRefreshes alive k (pre ++ l) = sweepRefreshes alive k l.
Proof.
  induction pre as [|[k0 c] pre IH]; intros H; [reflexivity|].
  apply entries_zero_cons in H. destruct H as [Hk H].
  cbn [app sweepRefreshes]. now rewrite Hk, IH.
Qed.

Lemma deadEntries_skip k pre l :
  entries k pre = 0%nat ->
  deadEntries alive k (pre ++ l) = deadEntries alive k l.
Proof.
  unfold deadEntries.
  induction pre as [|[k0 c] pre IH]; intros H; [reflexivity|].
  apply entries_zero_cons in H. destruct H as [Hk H].
  cbn [app filter fst]. rewrite Hk. cbn [andb]. now apply IH.
Qed.

Lemma find_filter_skip (f : Z * CEventClient -> bool) k pre l :
  entries k pre = 0%nat ->
  ClientMap.find k (filter f (pre ++ l)) = ClientMap.find k (filter f l).
Proof.
  induction pre as [|[k0 c] pre IH]; intros H; [reflexivity|].
  apply entries_zero_cons in H. destruct H as [Hk H].
  cbn [app filter]. destruct (f (k0, c)); cbn [ClientMap.find];
    [rewrite Hk|]; auto.
Qed.
End Skip.

(** The entry of token [k] seen from the whole registry. *)
Lemma sweep_on_entry now pre k c post :
  entries k pre = 0%nat -> entries k post = 0%nat ->
  let alive := Alive livenessWindow now in
  let l := pre ++ (k, c) :: post in
  sweepVisits alive k l
    = (if alive c then (1 + deadCount alive post)%nat else 1%nat) /\
  sweepRefreshes alive k l
    = (if alive c then (1 + deadCount alive post)%nat else 0%nat) /\
  deadEntries alive k l = (if alive c then 0%nat else 1%nat) /\
  ClientMap.find k (filter (aliveAt livenessWindow now) l)
    = (if alive c then Some c else None).
Proof.
  intros Hpre Hpost alive l. subst l.
  rewrite sweepVisits_skip, sweepRefreshes_skip, deadEntries_skip,
    find_filter_skip by assumption.
  pose proof (sweepVisits_skip alive k post [] Hpost) as Hv.
  pose proof (sweepRefreshes_skip alive k post [] Hpost) as Hr.
  pose proof (deadEntries_skip alive k post [] Hpost) as Hd.
  pose proof (find_filter_skip (aliveAt livenessWindow now) k post [] Hpost)
    as Hf.
  rewrite app_nil_r in Hv, Hr, Hd, Hf. cbn in Hv, Hr, Hd, Hf.
  cbn [sweepVisits sweepRefreshes]. rewrite Hv, Hr, Z.eqb_refl.
  unfold deadEntries at 1. cbn [filter fst snd]. rewrite Z.eqb_refl.
  fold (deadEntries alive k post). unfold aliveAt at 1. cbn [snd].
  fold alive. cbn [andb].
  unfold deadEntries in Hd.
  destruct (alive c); cbn [negb filter length ClientMap.find];
    rewrite ?Z.eqb_refl, ?Hd, ?Hf; repeat split; lia.
Qed.

(** C6, as the code has it. One call of [RefreshClients] keeps exactly
    the live sessions and clears the refresh flag. A dead session is
    tested once, destroyed and removed. A live session stays; since the
    scan goes back to the first session after every eviction, it is
    tested once and once more for each dead session behind it, and with
    the refresh flag set its settings are refreshed as many times. *)
Theorem RefreshClients_sweep now s pre k c post :
  ClientMap.wf (m_clients s) ->
  m_clients s = pre ++ (k, c) :: post ->
  let r := RefreshClients livenessWindow now s in
  let alive := Alive livenessWindow now in
  m_clients (state r) = filter (aliveAt livenessWindow now) (m_clients s) /\
  m_bRefreshSettings (state r) = false /\
  if alive c then
    ClientMap.find k (m_clients (state r)) = Some c /\
    calls k MDelete (trace r) = 0%nat /\
    calls k MAlive (trace r) = (1 + deadCount alive post)%nat /\
    calls k MRefreshSettings (trace r)
      = (if m_bRefreshSettings s then 1 + deadCount alive post else 0)%nat
  else
    ClientMap.find k (m_clients (state r)) = None /\
    calls k MDelete (trace r) = 1%nat /\
    calls k MAlive (trace r) = 1%nat /\
    calls k MRefreshSettings (trace r) = 0%nat.
Proof.
  intros Hwf Hcl r alive. subst r.
  rewrite RefreshClients_unfold. cbv zeta.
  cbn [state trace fst snd m_clients m_bRefreshSettings
       set_clients set_bRefreshSettings].
  rewrite RefreshClients_loop_clients by reflexivity. cbn [app].
  rewrite !calls_cons, !calls_app.
  rewrite RefreshClients_loop_visits, RefreshClients_loop_refreshes,
    RefreshClients_loop_deletes by reflexivity.
  rewrite Hcl in Hwf. apply wf_entries in Hwf. destruct Hwf as [Hpre Hpost].
  destruct (sweep_on_entry now pre k c post Hpre Hpost)
    as (Hv & Hr & Hd & Hf).
  rewrite Hcl, Hv, Hr, Hd, Hf. fold alive.
  change (entries k []) with 0%nat. cbn [is_call].
  unfold calls. cbn [filter is_call length].
  split; [reflexivity|]. split; [reflexivity|].
  destruct (alive c); destruct (m_bRefreshSettings s);
    repeat split; lia.
Qed.

End Sweep.

(** ** The receive loop: [Run] *)
Section Loop.

Variable ULong : CAddress -> Z.
Variable ParsePacket : Z -> list Byte.byte -> CEventPacket.
Variable Decode : CEventPacket -> list CEventAction.
Variable livenessWindow : Z.
Variable PACKET_SIZE : Z.


Lemma ProcessEvents_unfold s :
  ProcessEvents Decode s =
    let r := ProcessEvents_loop Decode (m_clients s) in
    (tt, set_clients (fst r) s, EvEnter :: snd r ++ [EvLeave]).
Proof. reflexivity. Qed.




Lemma Cleanup_state s :
  snd (fst (Cleanup s))
  = set_clients [] (set_pPacketBuffer None (set_pSocket None s)).
Proof.
  unfold Cleanup, bind, gets, emit, emits, modify, ret. cbn.
  destruct s as [sock buf ? ? ? ? ? ? ?]. cbn.
  destruct sock, buf; reflexivity.
Qed.

Ltac run_startup :=
  unfold Run, StartServer, bind, gets, emit, modify, ret;
  cbn -[Cleanup RunLoop].

(** A run that got as far as the loop ends with [Cleanup]: the socket
    and the buffer are released and their fields are null, whether the
    loop ended on the stop flag or on an exception. *)
Lemma Run_loop_exit_releases env s sock :
  env_socket env = Some sock ->
  env_malloc env = true ->
  (forall range, env_bind env (negb (env_all_interfaces env)) (m_iPort s) range
                 = true) ->
  let r := Run ULong ParsePacket Decode livenessWindow PACKET_SIZE env s in
  m_pSocket (state r) = None /\ m_pPacketBuffer (state r) = None /\
  m_clients (state r) = [] /\ m_bRunning (state r) = false.
Proof.
  intros Hs Hm Hb. run_startup. rewrite Hs, Hm. cbn -[Cleanup RunLoop].
  destruct (_ || _); cbn -[Cleanup RunLoop]; rewrite Hb;
    cbn -[Cleanup RunLoop]; rewrite Cleanup_state; cbn; auto.
Qed.

(** When the socket cannot be created the run stops with nothing
    held. *)
Lemma Run_no_socket env s :
  env_socket env = None ->
  let r := Run ULong ParsePacket Decode livenessWindow PACKET_SIZE env s in
  m_pSocket (state r) = None /\ m_pPacketBuffer (state r) = None.
Proof.
  intros Hs. run_startup. rewrite Hs. cbn -[Cleanup RunLoop].
  rewrite Cleanup_state. cbn. auto.
Qed.

(** The two later aborts of the startup return at once, with what has
    been acquired so far still held. *)
Lemma Run_abort_keeps_resources env s sock :
  env_socket env = Some sock ->
  let r := Run ULong ParsePacket Decode livenessWindow PACKET_SIZE env s in
  (env_malloc env = false -> m_pSocket (state r) = Some sock) /\
  (env_malloc env = true ->
   (forall range,
      env_bind env (negb (env_all_interfaces env)) (m_iPort s) range = false) ->
   m_pSocket (state r) = Some sock /\ m_pPacketBuffer (state r) = Some []).
Proof.
  intros Hs. run_startup. rewrite Hs. cbn -[Cleanup RunLoop]. split.
  - intros Hm. rewrite Hm. cbn -[Cleanup RunLoop]. reflexivity.
  - intros Hm Hb. rewrite Hm. cbn -[Cleanup RunLoop].
    destruct (_ || _); cbn -[Cleanup RunLoop]; rewrite Hb; cbn -[Cleanup];
      auto.
Qed.

(** C9. Settings out of range are replaced and the startup goes on.
    [StartServer], on a server that is not running and with a port
    that passes the assertion, replaces a negative maximum of clients
    by 20, logs an error and creates the thread. [Run], once it has its
    socket and buffer, replaces a port range outside 1..100 by 10, logs
    it, binds with range 10 and, the bind succeeding, publishes the
    service and enters the loop. *)
Theorem config_defaults :
  (forall s esport esmaxclients,
     m_bRunning s = false ->
     1 <= esport <= 65535 ->
     esmaxclients < 0 ->
     let r := StartServer esport esmaxclients s in
     result r = Returned /\
     m_iMaxClients (state r) = 20 /\
     In (EvLog LOGERROR "ES: Invalid maximum number of clients specified %d")
        (trace r) /\
     In EvThreadCreate (trace r)) /\
  (forall env s sock,
     env_socket env = Some sock ->
     env_malloc env = true ->
     env_port_range env < 1 \/ 100 < env_port_range env ->
     let r := Run ULong ParsePacket Decode livenessWindow PACKET_SIZE env s in
     let localOnly := negb (env_all_interfaces env) in
     In (EvLog LOGERROR "ES: Invalid port range specified %d, defaulting to 10")
        (trace r) /\
     In (EvBind localOnly (m_iPort s) 10) (trace r) /\
     (env_bind env localOnly (m_iPort s) 10 = true ->
      In (EvPublish (m_iPort s)) (trace r) /\
      In (EvLog LOGNOTICE "ES: UDP Event server stopped") (trace r))).
Proof.
  split.
  - intros s esport esmax Hrun Hport Hmax. run_startup. rewrite Hrun.
    assert (Hp : (esport <=? 65535) && (esport >=? 1) = true).
    { apply andb_true_intro. split; [apply Z.leb_le|apply Z.geb_le]; lia. }
    cbn. rewrite Hp. cbn.
    assert (Hm : (esmax <? 0) = true) by (apply Z.ltb_lt; lia).
    rewrite Hm. cbn. auto 10.
  - intros env s sock Hs Hm Hrange. run_startup.
    rewrite Hs, Hm. cbn -[Cleanup RunLoop].
    assert (Hr : (env_port_range env <? 1) || (env_port_range env >? 100)
                 = true).
    { apply orb_true_iff. rewrite Z.ltb_lt, Z.gtb_lt. lia. }
    rewrite Hr. cbn -[Cleanup RunLoop].
    split; [|split].
    + right. apply in_or_app. right. left. reflexivity.
    + right. apply in_or_app. right. right. left. reflexivity.
    + intros Hb. rewrite Hb. cbn -[Cleanup RunLoop]. split.
      * right. apply in_or_app. right. right. right. left. reflexivity.
      * right. apply in_or_app. right. right. right. right.
        apply in_or_app. right. left. reflexivity.
Qed.

End Loop.

(** ** The properties at work on the sample host *)
Module Scenarios.
Import Host.

Lemma ProcessPacket_admission_witness :
  (exists c,
     ClientMap.find (to_uint (ULong addrA)) (m_clients (state admitted))
       = Some c /\
     m_readyPackets c
       = queueOf (to_uint (ULong addrA)) roomFor2
           ++ [PacketIn ParsePacket 3 roomFor2] /\
     In (EvClient (to_uint (ULong addrA)) MAddPacket) (trace admitted)) /\
  state rejected = roomFor0.
Proof.
  split.
  - refine (proj1 (ProcessPacket_admission ULong ParsePacket 7 addrA 3
                     roomFor2 (PacketIn ParsePacket 3 roomFor2)
                     (to_uint (ULong addrA)) eq_refl eq_refl eq_refl _) _);
      reflexivity.
  - refine (proj1 (proj2 (ProcessPacket_admission ULong ParsePacket 7 addrA 3
                            roomFor0 (PacketIn ParsePacket 3 roomFor0)
                            (to_uint (ULong addrA)) eq_refl eq_refl eq_refl _)
                     _ _));
      reflexivity.
Defined.

Lemma ProcessPacket_invalid_witness :
  state (ProcessPacket 0 addrA 3 badSignature) = badSignature /\
  m_clients (state (ProcessPacket 0 addrA 3 badSignature))
    = m_clients badSignature /\
  trace (ProcessPacket 0 addrA 3 badSignature)
    = [EvLog LOGDEBUG "ES: Received invalid packet"].
Proof.
  exact (ProcessPacket_invalid ULong ParsePacket 0 addrA 3 badSignature
           eq_refl).
Defined.

Lemma ExecuteNextAction_other_type_witness :
  result dispatchOdd = true /\
  pendingActions (m_clients (state dispatchOdd))
    = [mkAction "ok" AT_EXEC_BUILTIN] /\
  filter is_execution (trace dispatchOdd) = [].
Proof.
  exact (ExecuteNextAction_other_type BuiltinsExecute TranslateString HasGUI
           OnAction oddAction (mkAction "noop" (AT_OTHER 7))
           [mkAction "ok" AT_EXEC_BUILTIN] 7 eq_refl eq_refl).
Defined.

(** The check of C2 is not void: it rejects an execution under the
    lock. *)
Example unlocked_execution_rejects :
  unlocked_execution 0 [EvEnter; EvBuiltinExecute "ok"; EvLeave] = false.
Proof. reflexivity. Qed.

(** The scenario of the specification: of two queued actions the first
    is dispatched; the host fails it, the call returns [false] and the
    action is gone from the queue. *)
Example ExecuteNextAction_failure :
  result dispatchFailing = false /\
  pendingActions (m_clients (state dispatchFailing))
    = [mkAction "ok" AT_EXEC_BUILTIN] /\
  trace dispatchFailing
    = [EvEnter; EvClient 5 MGetNextAction; EvLeave; EvBuiltinExecute "fail"].
Proof. repeat split. Qed.

(** C6 as stated fails. With the refresh flag set, a live session under
    token 1 and a dead one under token 2: the sweep evicts session 2 and
    starts over, so session 1, which survives, is visited twice and has
    its settings refreshed twice in the one sweep. *)
Lemma RefreshClients_revisits :
  ClientMap.find 1 (m_clients (state sweepLiveThenDead))
    = Some (session addrA 100 []) /\
  ClientMap.find 2 (m_clients (state sweepLiveThenDead)) = None /\
  calls 1 MAlive (trace sweepLiveThenDead) = 2%nat /\
  calls 1 MRefreshSettings (trace sweepLiveThenDead) = 2%nat /\
  ~ (calls 1 MRefreshSettings (trace sweepLiveThenDead) <= 1)%nat.
Proof.
  repeat split. vm_compute. intros H.
  apply Nat.leb_le in H. discriminate.
Qed.

Lemma RefreshClients_sweep_witness :
  m_clients (state sweepLiveThenDead) = [(1, session addrA 100 [])] /\
  m_bRefreshSettings (state sweepLiveThenDead) = false /\
  ClientMap.find 1 (m_clients (state sweepLiveThenDead))
    = Some (session addrA 100 []) /\
  calls 1 MDelete (trace sweepLiveThenDead) = 0%nat /\
  calls 1 MAlive (trace sweepLiveThenDead) = 2%nat /\
  calls 1 MRefreshSettings (trace sweepLiveThenDead) = 2%nat.
Proof.
  assert (Hwf : ClientMap.wf (m_clients liveThenDead)).
  { cbn. repeat split; repeat constructor. }
  exact (RefreshClients_sweep livenessWindow 100 liveThenDead []
           1 (session addrA 100 []) [(2, session addrB 0 [])] Hwf eq_refl).
Defined.


Lemma config_defaults_witness :
  (result startNegative = Returned /\
   m_iMaxClients (state startNegative) = 20) /\
  (In (EvBind true 9777 10) (trace runRangeZero) /\
   In (EvPublish 9777) (trace runRangeZero)).
Proof.
  destruct (config_defaults ULong ParsePacket Decode livenessWindow PACKET_SIZE)
    as [Hstart Hrun].
  split.
  - destruct (Hstart CEventServer_new 9777 (-1) eq_refl
                ltac:(lia) eq_refl) as (H1 & H2 & _).
    split; assumption.
  - destruct (Hrun (quietRun 0) (started 20) (UDPSocket 3) eq_refl eq_refl
                (or_introl eq_refl)) as (_ & H2 & H3).
    split; [exact H2|exact (proj1 (H3 eq_refl))].
Defined.

(** C8 fails on the code. When [Bind] fails, [Run] returns at once: the
    socket it created and the buffer it allocated are still held, and
    neither was closed or freed on the way out. *)
Theorem Run_bind_failure_leaks :
  m_pSocket (state runPortsTaken) = Some (UDPSocket 3) /\
  m_pPacketBuffer (state runPortsTaken) = Some [] /\
  trace runPortsTaken
    = [EvLog LOGNOTICE "ES: Starting UDP Event server on port %d";
       EvEnter; EvLeave;
       EvBind true 9777 10;
       EvLog LOGERROR "ES: Could not listen on port %d"].
Proof. repeat split. Qed.

(** The scenario of the specification: room for two clients; A and B,
    each without a token, get a session, C is turned away. *)
Example three_clients_two_places :
  ClientMap.keys (m_clients threeDatagrams)
    = [to_uint (ULong addrA); to_uint (ULong addrB)] /\
  ClientMap.find (to_uint (ULong addrC)) (m_clients threeDatagrams) = None /\
  ClientMap.size (m_clients threeDatagrams) = 2.
Proof. repeat split. Qed.

(** The scenario of the specification: last seen at 0 with a window of
    60, the session is kept by a sweep at 59 and evicted by one at 61. *)
Example sweep_at_59_and_61 :
  ClientMap.keys (m_clients (state (RefreshClients 59 lastSeenAt0))) = [5] /\
  ClientMap.keys (m_clients (state (RefreshClients 61 lastSeenAt0))) = [] /\
  calls 5 MDelete (trace (RefreshClients 61 lastSeenAt0)) = 1%nat.
Proof. repeat split. Qed.

End Scenarios.

(** * Further properties *)

(** ** More on routing *)
Section RoutingMore.

Variable ULong : CAddress -> Z.
Variable ParsePacket : Z -> list Byte.byte -> CEventPacket.

Lemma set_clients_same s : set_clients (m_clients s) s = s.
Proof. destruct s; reflexivity. Qed.

(** X1. A valid packet whose routing token already has a session is
    always taken: the number of clients is not looked at and the
    sender's address is not compared with the session's. The session
    keeps its address and its actions, the packet goes to the end of its
    queue and its last-activity time becomes [now]; no session is
    created, and on an ordered registry the size stays what it was. *)
Theorem ProcessPacket_known_session now addr pSize s c :
  IsValid (PacketIn ParsePacket pSize s) = true ->
  ClientMap.find (routingToken ULong addr (PacketIn ParsePacket pSize s))
    (m_clients s) = Some c ->
  let packet := PacketIn ParsePacket pSize s in
  let T := routingToken ULong addr packet in
  let r := ProcessPacket ULong ParsePacket now addr pSize s in
  (exists c',
     ClientMap.find T (m_clients (state r)) = Some c' /\
     m_remoteAddr c' = m_remoteAddr c /\
     m_lastPing c' = now /\
     m_readyPackets c' = m_readyPackets c ++ [packet] /\
     m_actionQueue c' = m_actionQueue c) /\
  trace r = [EvEnter; EvClient T MAddPacket; EvLeave] /\
  (ClientMap.wf (m_clients s) ->
   ClientMap.size (m_clients (state r)) = ClientMap.size (m_clients s)).
Proof.
  intros Hv Hf packet T r. subst r.
  rewrite (ProcessPacket_valid _ _ _ _ _ _ Hv). cbv zeta.
  fold packet. fold T. fold packet in Hf. fold T in Hf. rewrite Hf.
  cbn [state trace fst snd m_clients set_clients]. split; [|split].
  - exists (AddPacket now packet c).
    rewrite ClientMapFacts.find_insert_same. repeat split.
  - reflexivity.
  - intros Hwf. now apply ClientMapFacts.size_insert_old with (v0 := c).
Qed.

Lemma ProcessPacket_fields now addr pSize s :
  exists clients,
    state (ProcessPacket ULong ParsePacket now addr pSize s)
    = set_clients clients s.
Proof.
  destruct (IsValid (PacketIn ParsePacket pSize s)) eqn:Hv.
  - rewrite (ProcessPacket_valid _ _ _ _ _ _ Hv). cbv zeta.
    destruct (ClientMap.find _ (m_clients s)); [|destruct (_ >=? _)];
      cbn [state fst snd]; try (eexists; reflexivity).
    exists (m_clients s). now rewrite set_clients_same.
  - rewrite (ProcessPacket_invalid_run _ _ _ _ _ _ Hv). cbn [state fst snd].
    exists (m_clients s). now rewrite set_clients_same.
Qed.

(** X2. Whatever the datagram, [ProcessPacket] changes nothing but the
    registry, and in the registry nothing but the entry of the packet's
    routing token: every other token finds what it found before, and no
    session is ever removed. *)
Theorem ProcessPacket_frame now addr pSize s :
  let T := routingToken ULong addr (PacketIn ParsePacket pSize s) in
  let r := ProcessPacket ULong ParsePacket now addr pSize s in
  (exists clients, state r = set_clients clients s) /\
  (forall k, k <> T ->
     ClientMap.find k (m_clients (state r)) = ClientMap.find k (m_clients s)) /\
  (forall k, ClientMap.find k (m_clients s) <> None ->
     ClientMap.find k (m_clients (state r)) <> None).
Proof.
  intros T r. subst r.
  destruct (IsValid (PacketIn ParsePacket pSize s)) eqn:Hv.
  - rewrite (ProcessPacket_valid _ _ _ _ _ _ Hv). cbv zeta. fold T.
    assert (Hkeep : forall (c : CEventClient) k,
               ClientMap.find k (m_clients s) <> None ->
               ClientMap.find k (ClientMap.insert T c (m_clients s)) <> None).
    { intros c k Hk. destruct (Z.eq_dec k T) as [->|Hne].
      - rewrite ClientMapFacts.find_insert_same. discriminate.
      - now rewrite ClientMapFacts.find_insert_other. }
    destruct (ClientMap.find T (m_clients s)) as [c|] eqn:Hf;
      [|destruct (_ >=? _)]; cbn [state trace fst snd m_clients set_clients].
    + split; [eexists; reflexivity|]. split; [|apply Hkeep].
      intros k Hk. now apply ClientMapFacts.find_insert_other.
    + split; [exists (m_clients s); now rewrite set_clients_same|]. auto.
    + split; [eexists; reflexivity|]. split; [|apply Hkeep].
      intros k Hk. now apply ClientMapFacts.find_insert_other.
  - rewrite (ProcessPacket_invalid_run _ _ _ _ _ _ Hv).
    cbn [state fst snd].
    split; [exists (m_clients s); now rewrite set_clients_same|]. auto.
Qed.

(** X3. A valid packet under a token without a session, with the
    registry below [(unsigned int)m_iMaxClients], opens a session bound
    to the sender's address that holds just this packet, no action, and
    [now] as its last-activity time; the registry grows by one. *)
Theorem ProcessPacket_new_session now addr pSize s :
  IsValid (PacketIn ParsePacket pSize s) = true ->
  ClientMap.find (routingToken ULong addr (PacketIn ParsePacket pSize s))
    (m_clients s) = None ->
  ClientMap.size (m_clients s) < to_uint (m_iMaxClients s) ->
  let packet := PacketIn ParsePacket pSize s in
  let T := routingToken ULong addr packet in
  let r := ProcessPacket ULong ParsePacket now addr pSize s in
  ClientMap.find T (m_clients (state r)) = Some (mkClient addr now [packet] []) /\
  ClientMap.size (m_clients (state r)) = ClientMap.size (m_clients s) + 1 /\
  trace r = [EvEnter; EvClient T MNew; EvClient T MAddPacket; EvLeave].
Proof.
  intros Hv Hf Hroom packet T r. subst r.
  rewrite (ProcessPacket_valid _ _ _ _ _ _ Hv). cbv zeta.
  fold packet. fold T. fold packet in Hf. fold T in Hf. rewrite Hf.
  destruct (_ >=? _) eqn:Hfull; [apply Z.geb_le in Hfull; lia|].
  cbn [state trace fst snd m_clients set_clients].
  rewrite ClientMapFacts.find_insert_same.
  rewrite ClientMapFacts.size_insert_new by assumption.
  repeat split.
Qed.

(** The bound on the registry is kept by routing. *)
Lemma ProcessPacket_RegistryOK now addr pSize s :
  RegistryOK s ->
  RegistryOK (state (ProcessPacket ULong ParsePacket now addr pSize s)).
Proof.
  intros (Hwf & Hsz & Hmax).
  destruct (ProcessPacket_keeps_capacity ULong ParsePacket now addr pSize s
              Hmax Hwf Hsz) as (H1 & H2 & H3).
  cbv zeta in *. unfold RegistryOK. rewrite H3 in *. auto.
Qed.

End RoutingMore.

(** ** The registry lock *)
Section Locking.

Variable ULong : CAddress -> Z.
Variable ParsePacket : Z -> list Byte.byte -> CEventPacket.
Variable Decode : CEventPacket -> list CEventAction.
Variable livenessWindow : Z.
Variable PACKET_SIZE : Z.
Variable BuiltinsExecute : string -> Z.
Variable TranslateString : string -> Z.
Variable HasGUI : bool.
Variable OnAction : CAction -> bool.
Variable Amount : Type.
Variable Client_GetButtonCode :
  ButtonOut Amount -> CEventClient -> Z * ButtonOut Amount * CEventClient.
Variable Coord : Type.
Variable Client_GetMousePos :
  Coord * Coord -> CEventClient -> bool * (Coord * Coord) * CEventClient.

Lemma lockDepth_app d tr1 tr2 :
  lockDepth d (tr1 ++ tr2)
  = match lockDepth d tr1 with
    | Some d' => lockDepth d' tr2
    | None => None
    end.
Proof.
  revert d. induction tr1 as [|e tr1 IH]; intros d; [reflexivity|].
  destruct e; cbn; auto. destruct d; auto.
Qed.

Lemma lockDepth_lockFree d tr : lockFree tr -> lockDepth d tr = Some d.
Proof.
  induction 1 as [|e tr [H1 H2] _ IH]; [reflexivity|].
  destruct e; cbn; auto; congruence.
Qed.

Lemma lockFree_calls (m : Method) (l : ClientMap.t CEventClient) :
  lockFree (map (fun kc => EvClient (fst kc) m) l).
Proof.
  induction l; constructor; auto. split; discriminate.
Qed.

Lemma lockFree_ProcessEvents_loop l :
  lockFree (snd (ProcessEvents_loop Decode l)).
Proof.
  induction l as [|[k c] l IH]; cbn; constructor; auto. split; discriminate.
Qed.

Lemma lockFree_RefreshClients_loop now refresh passed rest :
  lockFree (snd (RefreshClients_loop livenessWindow now refresh passed rest)).
Proof.
  funelim (RefreshClients_loop livenessWindow now refresh passed rest).
  - constructor.
  - cbn zeta. cbn [snd]. constructor; [split; discriminate|].
    apply Forall_app. split; [|assumption].
    destruct refresh; repeat constructor; discriminate.
  - cbn zeta. cbn [snd]. repeat (constructor; [split; discriminate|]).
    assumption.
Qed.

Lemma lockFree_Cleanup_loop l : lockFree (Cleanup_loop l).
Proof.
  induction l as [|[k c] l IH]; cbn; constructor; auto. split; discriminate.
Qed.

Lemma lockFree_ExecuteAction a s :
  lockFree (trace (ExecuteAction BuiltinsExecute TranslateString HasGUI
                     OnAction a s)).
Proof.
  unfold ExecuteAction, bind, emit, ret.
  destruct (actionType a); cbn; [| destruct HasGUI; cbn |];
    repeat constructor; discriminate.
Qed.

Lemma lockDepth_ProcessPacket d now addr pSize s :
  lockDepth d (trace (ProcessPacket ULong ParsePacket now addr pSize s))
  = Some d.
Proof.
  destruct (IsValid (PacketIn ParsePacket pSize s)) eqn:Hv.
  - rewrite (ProcessPacket_valid _ _ _ _ _ _ Hv). cbv zeta.
    destruct (ClientMap.find _ _); [|destruct (_ >=? _)]; reflexivity.
  - now rewrite (ProcessPacket_invalid_run _ _ _ _ _ _ Hv).
Qed.

Lemma lockDepth_ProcessEvents d s :
  lockDepth d (trace (ProcessEvents Decode s)) = Some d.
Proof.
  rewrite ProcessEvents_unfold. cbn [trace snd lockDepth].
  rewrite lockDepth_app, lockDepth_lockFree
    by apply lockFree_ProcessEvents_loop.
  reflexivity.
Qed.

Lemma lockDepth_RefreshClients d now s :
  lockDepth d (trace (RefreshClients livenessWindow now s)) = Some d.
Proof.
  rewrite RefreshClients_unfold. cbn [trace snd lockDepth].
  rewrite lockDepth_app, lockDepth_lockFree
    by apply lockFree_RefreshClients_loop.
  reflexivity.
Qed.

Lemma lockDepth_Cleanup d s : lockDepth d (trace (Cleanup s)) = Some d.
Proof.
  unfold Cleanup, bind, gets, emit, emits, modify, ret. cbn.
  assert (H : forall tr, lockDepth d
                (EvEnter :: Cleanup_loop (m_clients s) ++ EvLeave :: tr)
              = lockDepth d tr).
  { intros tr. cbn. rewrite lockDepth_app, lockDepth_lockFree
      by apply lockFree_Cleanup_loop. reflexivity. }
  destruct s as [sock buf ? ? ? ? ? ? cl]. cbn in *.
  destruct sock, buf; cbn; apply (H []).
Qed.

Lemma lockDepth_ExecuteNextAction d s :
  lockDepth d (trace (ExecuteNextAction BuiltinsExecute TranslateString HasGUI
                        OnAction s)) = Some d.
Proof.
  unfold ExecuteNextAction, bind, emit, gets. cbn.
  pose proof (ExecuteNextAction_loop_spec BuiltinsExecute TranslateString
                HasGUI OnAction (m_clients s) [] s) as H.
  cbn zeta in H.
  destruct (pendingActions (m_clients s)) as [|a q].
  - rewrite H. cbn. rewrite lockDepth_app, lockDepth_lockFree
      by apply lockFree_calls. reflexivity.
  - destruct H as (pre & k & c & c' & post & _ & _ & _ & _ & _ & _ & Htr).
    cbn in Htr. rewrite Htr.
    rewrite lockDepth_app, lockDepth_lockFree by apply lockFree_calls.
    cbn. apply lockDepth_lockFree, lockFree_ExecuteAction.
Qed.

Lemma lockDepth_GetButtonCode_loop d rest : forall bcode out passed s,
  lockDepth (S d)
    (trace (GetButtonCode_loop Amount Client_GetButtonCode bcode out passed
              rest s)) = Some d.
Proof.
  induction rest as [|[k c] rest IH]; intros bcode out passed s.
  - reflexivity.
  - cbn [GetButtonCode_loop]. unfold bind, modify. cbn.
    destruct (fst (fst (Client_GetButtonCode out c)) =? 0).
    + apply IH.
    + reflexivity.
Qed.

Lemma lockDepth_GetMousePos_loop d rest : forall xy passed s,
  lockDepth (S d)
    (trace (GetMousePos_loop Coord Client_GetMousePos xy passed rest s))
  = Some d.
Proof.
  induction rest as [|[k c] rest IH]; intros xy passed s.
  - reflexivity.
  - cbn [GetMousePos_loop]. unfold bind, modify. cbn.
    destruct (fst (fst (Client_GetMousePos xy c))).
    + reflexivity.
    + apply IH.
Qed.

(** Every operation on the registry returns with the lock held as often
    as on entry, and never leaves a lock it does not hold. *)
Lemma lock_balanced (d : nat) (s : CEventServer) :
  (forall now addr pSize,
     lockDepth d (trace (ProcessPacket ULong ParsePacket now addr pSize s))
     = Some d) /\
  lockDepth d (trace (ProcessEvents Decode s)) = Some d /\
  (forall now,
     lockDepth d (trace (RefreshClients livenessWindow now s)) = Some d) /\
  lockDepth d (trace (ExecuteNextAction BuiltinsExecute TranslateString HasGUI
                        OnAction s)) = Some d /\
  (forall out,
     lockDepth d (trace (GetButtonCode Amount Client_GetButtonCode out s))
     = Some d) /\
  (forall xy,
     lockDepth d (trace (GetMousePos Coord Client_GetMousePos xy s))
     = Some d) /\
  lockDepth d (trace (GetNumberOfClients s)) = Some d /\
  lockDepth d (trace (Cleanup s)) = Some d /\
  (forall esport esmaxclients,
     result (StartServer esport esmaxclients s) = Returned ->
     lockDepth d (trace (StartServer esport esmaxclients s)) = Some d).
Proof.
  repeat apply conj; intros.
  - apply lockDepth_ProcessPacket.
  - apply lockDepth_ProcessEvents.
  - apply lockDepth_RefreshClients.
  - apply lockDepth_ExecuteNextAction.
  - unfold GetButtonCode, bind, emit, gets. cbn.
    apply lockDepth_GetButtonCode_loop.
  - unfold GetMousePos, bind, emit, gets. cbn.
    apply lockDepth_GetMousePos_loop.
  - reflexivity.
  - apply lockDepth_Cleanup.
  - revert H. unfold StartServer, bind, emit, gets, modify, ret. cbn.
    destruct (m_bRunning s); cbn; [reflexivity|].
    destruct ((esport <=? 65535) && (esport >=? 1)); cbn;
      [|discriminate].
    destruct (esmaxclients <? 0); reflexivity.
Qed.

End Locking.

(** ** More on conversion and the sweep *)
Section SweepMore.

Variable Decode : CEventPacket -> list CEventAction.
Variable livenessWindow : Z.

Lemma ProcessEvents_loop_keys l :
  ClientMap.keys (fst (ProcessEvents_loop Decode l)) = ClientMap.keys l.
Proof.
  unfold ClientMap.keys.
  induction l as [|[k c] l IH]; cbn; [reflexivity|]. now rewrite IH.
Qed.



Lemma sweepVisits_alive now T l :
  forallb (aliveAt livenessWindow now) l = true ->
  sweepVisits (Alive livenessWindow now) T l = entries T l.
Proof.
  intros H.
  pose proof (sweepVisits_app_alive livenessWindow now T l [] H) as Hv.
  rewrite app_nil_r in Hv. rewrite Hv. cbn. lia.
Qed.

Lemma sweepRefreshes_alive now T l :
  forallb (aliveAt livenessWindow now) l = true ->
  sweepRefreshes (Alive livenessWindow now) T l = entries T l.
Proof.
  intros H.
  pose proof (sweepRefreshes_app_alive livenessWindow now T l [] H) as Hv.
  rewrite app_nil_r in Hv. rewrite Hv. cbn. lia.
Qed.

Lemma RefreshClients_alive_run now s :
  forallb (aliveAt livenessWindow now) (m_clients s) = true ->
  let r := RefreshClients livenessWindow now s in
  m_clients (state r) = m_clients s /\
  m_bRefreshSettings (state r) = false /\
  forall k,
    calls k MAlive (trace r) = entries k (m_clients s) /\
    calls k MDelete (trace r) = 0%nat /\
    calls k MRefreshSettings (trace r)
      = (if m_bRefreshSettings s then entries k (m_clients s) else 0%nat).
Proof.
  intros Hall. cbv zeta. rewrite RefreshClients_unfold. cbv zeta.
  cbn [state trace fst snd m_clients m_bRefreshSettings
       set_clients set_bRefreshSettings].
  rewrite RefreshClients_loop_clients by reflexivity. cbn [app].
  split; [now apply filter_alive|]. split; [reflexivity|].
  intros k. rewrite !calls_cons, !calls_app.
  rewrite RefreshClients_loop_visits, RefreshClients_loop_refreshes,
    RefreshClients_loop_deletes by reflexivity.
  rewrite sweepVisits_alive, sweepRefreshes_alive, deadEntries_alive
    by assumption.
  change (entries k []) with 0%nat. unfold calls. cbn.
  destruct (m_bRefreshSettings s); repeat split; lia.
Qed.

(** X6. A sweep that finds every session alive leaves the registry as it
    is, tests each session exactly once, destroys none, and, when the
    refresh flag was set, refreshes the settings of each session exactly
    once; the flag is clear afterwards. *)
Theorem RefreshClients_all_alive now s :
  forallb (aliveAt livenessWindow now) (m_clients s) = true ->
  let r := RefreshClients livenessWindow now s in
  m_clients (state r) = m_clients s /\
  m_bRefreshSettings (state r) = false /\
  forall k,
    calls k MAlive (trace r) = entries k (m_clients s) /\
    calls k MDelete (trace r) = 0%nat /\
    calls k MRefreshSettings (trace r)
      = (if m_bRefreshSettings s then entries k (m_clients s) else 0%nat).
Proof. exact (RefreshClients_alive_run now s). Qed.

Lemma keys_filter_Forall (P : Z -> Prop) (f : Z * CEventClient -> bool) l :
  Forall P (ClientMap.keys l) -> Forall P (ClientMap.keys (filter f l)).
Proof.
  unfold ClientMap.keys.
  induction l as [|[k c] l IH]; cbn; intros H; [constructor|].
  inversion H as [|x y Hk Hl]; subst.
  destruct (f (k, c)); cbn; auto.
Qed.

Lemma filter_wf (f : Z * CEventClient -> bool) l :
  ClientMap.wf l -> ClientMap.wf (filter f l).
Proof.
  unfold ClientMap.wf.
  induction l as [|[k c] l IH]; cbn; intros H; [exact I|].
  destruct H as [Hhd Htl].
  destruct (f (k, c)); cbn; auto.
  split; [|auto]. now apply (keys_filter_Forall (fun k' => k < k')).
Qed.

Lemma filter_size (f : Z * CEventClient -> bool) l :
  ClientMap.size (filter f l) <= ClientMap.size l.
Proof.
  unfold ClientMap.size. pose proof (filter_length_le f l). lia.
Qed.

Lemma forallb_filter_same (f : Z * CEventClient -> bool) l :
  forallb f (filter f l) = true.
Proof.
  induction l as [|x l IH]; cbn; [reflexivity|].
  destruct (f x) eqn:Hx; cbn; [rewrite Hx|]; auto.
Qed.

(** X7. A sweep never adds or reorders sessions or changes one it keeps:
    the registry afterwards is the former one without its dead sessions,
    entry for entry, and the state afterwards is the former state with
    that registry and the refresh flag cleared. So the registry stays
    ordered and does not grow, and all that is left is alive. A second
    sweep at the same clock reading destroys nothing and leaves the
    registry as the first one left it. *)
Theorem RefreshClients_shrinks now s :
  let r := RefreshClients livenessWindow now s in
  let r2 := RefreshClients livenessWindow now (state r) in
  m_clients (state r) = filter (aliveAt livenessWindow now) (m_clients s) /\
  state r
  = set_bRefreshSettings false
      (set_clients (filter (aliveAt livenessWindow now) (m_clients s)) s) /\
  (ClientMap.wf (m_clients s) -> ClientMap.wf (m_clients (state r))) /\
  ClientMap.size (m_clients (state r)) <= ClientMap.size (m_clients s) /\
  forallb (aliveAt livenessWindow now) (m_clients (state r)) = true /\
  m_clients (state r2) = m_clients (state r) /\
  forall k, calls k MDelete (trace r2) = 0%nat.
Proof.
  cbv zeta.
  assert (Hcl : m_clients (state (RefreshClients livenessWindow now s))
                = filter (aliveAt livenessWindow now) (m_clients s)).
  { rewrite RefreshClients_unfold. cbv zeta.
    cbn [state fst snd m_clients set_clients set_bRefreshSettings].
    now rewrite RefreshClients_loop_clients by reflexivity. }
  assert (Hall : forallb (aliveAt livenessWindow now)
                   (m_clients (state (RefreshClients livenessWindow now s)))
                 = true).
  { rewrite Hcl. apply forallb_filter_same. }
  destruct (RefreshClients_alive_run now _ Hall) as (H1 & _ & H3).
  cbv zeta in H1, H3.
  split; [exact Hcl|].
  split.
  { rewrite RefreshClients_unfold. cbv zeta. cbn [state fst snd].
    now rewrite RefreshClients_loop_clients by reflexivity. }
  split; [intros Hwf; rewrite Hcl; now apply filter_wf|].
  split; [rewrite Hcl; apply filter_size|].
  split; [exact Hall|]. split; [exact H1|].
  intros k. apply (H3 k).
Qed.

Lemma RefreshClients_RegistryOK now s :
  RegistryOK s -> RegistryOK (state (RefreshClients livenessWindow now s)).
Proof.
  intros (Hwf & Hsz & Hmax).
  rewrite RefreshClients_unfold. cbv zeta. unfold RegistryOK.
  cbn [state fst snd m_clients m_iMaxClients set_clients set_bRefreshSettings].
  rewrite RefreshClients_loop_clients by reflexivity. cbn [app].
  pose proof (filter_size (aliveAt livenessWindow now) (m_clients s)).
  repeat split; try lia. now apply filter_wf.
Qed.

Lemma ProcessEvents_RegistryOK s :
  RegistryOK s -> RegistryOK (state (ProcessEvents Decode s)).
Proof.
  intros (Hwf & Hsz & Hmax).
  rewrite ProcessEvents_unfold. cbv zeta. unfold RegistryOK, ClientMap.wf.
  cbn [state fst snd m_clients m_iMaxClients set_clients].
  rewrite ProcessEvents_loop_keys.
  assert (Hs : ClientMap.size (fst (ProcessEvents_loop Decode (m_clients s)))
               = ClientMap.size (m_clients s)).
  { pose proof (ProcessEvents_loop_keys (m_clients s)) as Hk.
    apply (f_equal (@length Z)) in Hk. unfold ClientMap.keys in Hk.
    rewrite !length_map in Hk. unfold ClientMap.size. lia. }
  rewrite Hs. auto.
Qed.

End SweepMore.

(** ** More on dispatch *)
Section DispatchMore.

Variable BuiltinsExecute : string -> Z.
Variable TranslateString : string -> Z.
Variable HasGUI : bool.
Variable OnAction : CAction -> bool.

Lemma ExecuteAction_outcome a s :
  result (ExecuteAction BuiltinsExecute TranslateString HasGUI OnAction a s)
  = outcomeOf BuiltinsExecute TranslateString OnAction a /\
  filter is_executor
    (trace (ExecuteAction BuiltinsExecute TranslateString HasGUI OnAction a s))
  = executorCall TranslateString a.
Proof.
  unfold ExecuteAction, outcomeOf, executorCall, bind, emit, ret.
  destruct (actionType a); cbn; auto. destruct HasGUI; cbn; auto.
Qed.

(** One call, read off the pending actions. *)
Lemma ExecuteNextAction_step s :
  let r := ExecuteNextAction BuiltinsExecute TranslateString HasGUI
             OnAction s in
  match pendingActions (m_clients s) with
  | [] => r = (false, s,
               EvEnter
                 :: map (fun kc => EvClient (fst kc) MGetNextAction)
                      (m_clients s) ++ [EvLeave])
  | a :: q =>
      result r = outcomeOf BuiltinsExecute TranslateString OnAction a /\
      pendingActions (m_clients (state r)) = q /\
      filter is_executor (trace r) = executorCall TranslateString a
  end.
Proof.
  unfold ExecuteNextAction, bind, emit, gets. cbn.
  pose proof (ExecuteNextAction_loop_spec BuiltinsExecute TranslateString
                HasGUI OnAction (m_clients s) [] s) as H.
  cbn zeta in H.
  destruct (pendingActions (m_clients s)) as [|a q].
  - rewrite H. reflexivity.
  - destruct H as (pre & k & c & c' & post & Hcl & Hpre & Hg & Hq & Hres & Hst & Htr).
    cbn in Hres, Hst, Htr. rewrite Hres, Hst, Htr. cbn [m_clients set_clients].
    destruct (ExecuteAction_outcome a
                (set_clients (pre ++ (k, c') :: post) s)) as [Ho He].
    cbn in Ho, He. split; [exact Ho|]. split.
    + unfold pendingActions in *. rewrite flat_map_app, Hpre, Hq. reflexivity.
    + rewrite filter_app, filter_client_calls by reflexivity. exact He.
Qed.

Lemma ExecuteNextAction_change s :
  let r := ExecuteNextAction BuiltinsExecute TranslateString HasGUI
             OnAction s in
  state r = s \/
  exists pre k c a q post,
    m_clients s = pre ++ (k, c) :: post /\
    pendingActions pre = [] /\
    m_actionQueue c = a :: q /\
    state r
    = set_clients
        (pre ++ (k, mkClient (m_remoteAddr c) (m_lastPing c)
                      (m_readyPackets c) q) :: post) s.
Proof.
  unfold ExecuteNextAction, bind, emit, gets. cbn.
  pose proof (ExecuteNextAction_loop_spec BuiltinsExecute TranslateString
                HasGUI OnAction (m_clients s) [] s) as H.
  cbn zeta in H.
  destruct (pendingActions (m_clients s)) as [|a q].
  - left. now rewrite H.
  - right.
    destruct H as (pre & k & c & c' & post & Hcl & Hpre & Hg & Hq & Hres & Hst & Htr).
    cbn in Hst. unfold GetNextAction in Hg.
    destruct (m_actionQueue c) as [|a0 q0] eqn:Hqc; [discriminate|].
    injection Hg as -> <-.
    exists pre, k, c, a, q0, post. repeat split; auto.
Qed.

(** X8. A call of [ExecuteNextAction] either leaves the server as it is
    or changes one thing only: the session that is first, in token
    order, to have a pending action loses the oldest one. Tokens, order,
    the other sessions, that session's address, packets and
    last-activity time, and every field outside the registry stay. *)
Theorem ExecuteNextAction_frame s :
  let r := ExecuteNextAction BuiltinsExecute TranslateString HasGUI
             OnAction s in
  state r = s \/
  exists pre k c a q post,
    m_clients s = pre ++ (k, c) :: post /\
    pendingActions pre = [] /\
    m_actionQueue c = a :: q /\
    state r
    = set_clients
        (pre ++ (k, mkClient (m_remoteAddr c) (m_lastPing c)
                      (m_readyPackets c) q) :: post) s.
Proof. exact (ExecuteNextAction_change s). Qed.

Lemma ExecuteNextAction_RegistryOK s :
  RegistryOK s ->
  RegistryOK (state (ExecuteNextAction BuiltinsExecute TranslateString HasGUI
                       OnAction s)).
Proof.
  intros Hok. destruct (ExecuteNextAction_change s) as [H|H]; cbv zeta in H.
  - now rewrite H.
  - destruct H as (pre & k & c & a & q & post & Hcl & _ & _ & Hst).
    rewrite Hst. destruct Hok as (Hwf & Hsz & Hmax).
    unfold RegistryOK, ClientMap.wf, ClientMap.size, ClientMap.keys in *.
    cbn [m_clients m_iMaxClients set_clients].
    rewrite Hcl in Hwf, Hsz. rewrite map_app in *. rewrite length_app in *.
    cbn [map fst length] in *. auto.
Qed.

Lemma ExecuteNextActions_S n s :
  ExecuteNextActions BuiltinsExecute TranslateString HasGUI OnAction (S n) s
  = let r1 := ExecuteNextAction BuiltinsExecute TranslateString HasGUI
                OnAction s in
    let r2 := ExecuteNextActions BuiltinsExecute TranslateString HasGUI
                OnAction n (snd (fst r1)) in
    (fst (fst r1) :: fst (fst r2), snd (fst r2), snd r1 ++ snd r2).
Proof.
  cbn [ExecuteNextActions]. unfold bind, ret. cbn.
  now rewrite app_nil_r.
Qed.

(** X9. Calls of [ExecuteNextAction] in a row, with no packet converted
    in between, dispatch the pending actions in registry order: all of
    the session with the smallest token first, oldest first, then the
    next session's. After [n] calls the first [n] pending actions are
    gone and the rest is untouched; the calls return what the executors
    of these actions report, then [false] once nothing is pending; the
    executors are called for just these actions, in this order. *)
Theorem ExecuteNextActions_in_order n : forall s,
  let pending := pendingActions (m_clients s) in
  let r := ExecuteNextActions BuiltinsExecute TranslateString HasGUI OnAction
             n s in
  pendingActions (m_clients (state r)) = skipn n pending /\
  result r
  = map (outcomeOf BuiltinsExecute TranslateString OnAction) (firstn n pending)
      ++ repeat false (n - length pending) /\
  filter is_executor (trace r)
  = flat_map (executorCall TranslateString) (firstn n pending).
Proof.
  induction n as [|n IH]; intros s; cbv zeta.
  - cbn. auto.
  - rewrite ExecuteNextActions_S. cbv zeta.
    pose proof (ExecuteNextAction_step s) as Hstep. cbv zeta in Hstep.
    set (r1 := ExecuteNextAction BuiltinsExecute TranslateString HasGUI
                 OnAction s) in *.
    specialize (IH (snd (fst r1))). cbv zeta in IH.
    destruct IH as (IHp & IHr & IHe).
    cbn [state result trace fst snd] in *.
    rewrite filter_app, IHp, IHr, IHe.
    destruct (pendingActions (m_clients s)) as [|a q] eqn:Hp.
    + rewrite Hstep. cbn [fst snd]. rewrite Hp.
      rewrite !firstn_nil, skipn_nil. cbn [map app flat_map filter].
      rewrite filter_app, filter_client_calls by reflexivity.
      cbn. rewrite Nat.sub_0_r. auto.
    + destruct Hstep as (Hres & Hpq & Hex).
      rewrite Hpq, Hres, Hex. cbn. auto.
Qed.

End DispatchMore.

(** ** The lookups *)
Section LookupsMore.

Variable Amount : Type.
Variable Client_GetButtonCode :
  ButtonOut Amount -> CEventClient -> Z * ButtonOut Amount * CEventClient.
Variable Coord : Type.
Variable Client_GetMousePos :
  Coord * Coord -> CEventClient -> bool * (Coord * Coord) * CEventClient.

Lemma GetButtonCode_loop_spec rest : forall bcode out passed s,
  m_clients s = passed ++ rest ->
  let r := GetButtonCode_loop Amount Client_GetButtonCode bcode out passed
             rest s in
  (fst (result r) = (match rest with [] => bcode | _ => 0 end) /\
   exists asked,
     allMiss Client_GetButtonCode (Z.eqb 0) out rest asked (snd (result r)) /\
     state r = set_clients (passed ++ asked) s)
  \/
  (fst (result r) <> 0 /\
   exists pre pre' k c out0 behind,
     rest = pre ++ (k, c) :: behind /\
     allMiss Client_GetButtonCode (Z.eqb 0) out pre pre' out0 /\
     fst (Client_GetButtonCode out0 c) = result r /\
     state r
     = set_clients
         (passed ++ pre' ++ (k, snd (Client_GetButtonCode out0 c)) :: behind)
         s).
Proof.
  induction rest as [|[k c] rest IH]; intros bcode out passed s Hinv; cbv zeta.
  - left. cbn. split; [reflexivity|]. exists []. split; [constructor|].
    rewrite app_nil_r in *. rewrite <- Hinv. now rewrite set_clients_same.
  - cbn [GetButtonCode_loop]. unfold bind, modify. cbn [fst snd].
    destruct (fst (fst (Client_GetButtonCode out c)) =? 0) eqn:Hz.
    + set (s1 := set_clients
                   (passed ++ (k, snd (Client_GetButtonCode out c)) :: rest) s).
      assert (Hinv1 : m_clients s1
                      = (passed ++ [(k, snd (Client_GetButtonCode out c))])
                          ++ rest).
      { subst s1. cbn. now rewrite <- app_assoc. }
      specialize (IH (fst (fst (Client_GetButtonCode out c)))
                    (snd (fst (Client_GetButtonCode out c)))
                    _ s1 Hinv1).
      cbv zeta in IH. cbn [result state fst snd app] in *.
      destruct IH as [[Hb (asked & Hmiss & Hst)]
                     |[Hb (pre & pre' & k0 & c0 & out0 & behind
                           & Hrest & Hmiss & Hans & Hst)]].
      * left. split.
        { rewrite Hb. apply Z.eqb_eq in Hz. now destruct rest. }
        exists ((k, snd (Client_GetButtonCode out c)) :: asked).
        split; [constructor; [now rewrite Z.eqb_sym|exact Hmiss]|].
        rewrite Hst. subst s1. cbn. now rewrite <- app_assoc.
      * right. split; [exact Hb|].
        exists ((k, c) :: pre),
               ((k, snd (Client_GetButtonCode out c)) :: pre'),
               k0, c0, out0, behind.
        split; [now rewrite Hrest|].
        split; [constructor; [now rewrite Z.eqb_sym|exact Hmiss]|].
        split; [exact Hans|].
        rewrite Hst. subst s1. cbn. now rewrite <- app_assoc.
    + right. cbn [result state fst snd app]. split.
      * now apply Z.eqb_neq.
      * exists [], [], k, c, out, rest. cbn [app].
        split; [reflexivity|]. split; [constructor|].
        split; [now destruct (Client_GetButtonCode out c) as [[? ?] ?]|].
        reflexivity.
Qed.

(** X10. [GetButtonCode] asks the sessions in token order, each seeing
    the out-parameters as the one before left them, and returns the
    first code that is not 0 together with the out-parameters of that
    answer; the sessions behind the one that answered are not asked and
    stay as they are. It returns 0 only after every session has answered
    0. Only sessions that were asked can have changed, and nothing
    outside the registry does. *)
Theorem GetButtonCode_first out s :
  let r := GetButtonCode Amount Client_GetButtonCode out s in
  (fst (result r) = 0 /\
   exists asked,
     allMiss Client_GetButtonCode (Z.eqb 0) out (m_clients s) asked
       (snd (result r)) /\
     state r = set_clients asked s)
  \/
  (fst (result r) <> 0 /\
   exists pre pre' k c out0 behind,
     m_clients s = pre ++ (k, c) :: behind /\
     allMiss Client_GetButtonCode (Z.eqb 0) out pre pre' out0 /\
     fst (Client_GetButtonCode out0 c) = result r /\
     state r
     = set_clients
         (pre' ++ (k, snd (Client_GetButtonCode out0 c)) :: behind) s).
Proof.
  unfold GetButtonCode, bind, emit, gets. cbn.
  destruct (GetButtonCode_loop_spec (m_clients s) 0 out [] s eq_refl)
    as [[Hb H]|H]; cbv zeta in *; cbn [result state fst snd app] in *.
  - left. split; [|exact H]. rewrite Hb. now destruct (m_clients s).
  - right. exact H.
Qed.

Lemma GetMousePos_loop_spec rest : forall xy passed s,
  m_clients s = passed ++ rest ->
  let r := GetMousePos_loop Coord Client_GetMousePos xy passed rest s in
  (fst (result r) = false /\
   exists asked,
     allMiss Client_GetMousePos negb xy rest asked (snd (result r)) /\
     state r = set_clients (passed ++ asked) s)
  \/
  (fst (result r) = true /\
   exists pre pre' k c xy0 behind,
     rest = pre ++ (k, c) :: behind /\
     allMiss Client_GetMousePos negb xy pre pre' xy0 /\
     fst (Client_GetMousePos xy0 c) = result r /\
     state r
     = set_clients
         (passed ++ pre' ++ (k, snd (Client_GetMousePos xy0 c)) :: behind) s).
Proof.
  induction rest as [|[k c] rest IH]; intros xy passed s Hinv; cbv zeta.
  - left. cbn. split; [reflexivity|]. exists []. split; [constructor|].
    rewrite app_nil_r in *. rewrite <- Hinv. now rewrite set_clients_same.
  - cbn [GetMousePos_loop]. unfold bind, modify. cbn [fst snd].
    destruct (fst (fst (Client_GetMousePos xy c))) eqn:Hm.
    + right. cbn [result state fst snd app]. split; [reflexivity|].
      exists [], [], k, c, xy, rest. cbn [app].
      split; [reflexivity|]. split; [constructor|].
      split; [|reflexivity].
      destruct (Client_GetMousePos xy c) as [[m xy1] c1]. cbn in *.
      now subst m.
    + set (s1 := set_clients
                   (passed ++ (k, snd (Client_GetMousePos xy c)) :: rest) s).
      assert (Hinv1 : m_clients s1
                      = (passed ++ [(k, snd (Client_GetMousePos xy c))])
                          ++ rest).
      { subst s1. cbn. now rewrite <- app_assoc. }
      specialize (IH (snd (fst (Client_GetMousePos xy c))) _ s1 Hinv1).
      cbv zeta in IH. cbn [result state fst snd app] in *.
      destruct IH as [[Hb (asked & Hmiss & Hst)]
                     |[Hb (pre & pre' & k0 & c0 & xy0 & behind
                           & Hrest & Hmiss & Hans & Hst)]].
      * left. split; [exact Hb|].
        exists ((k, snd (Client_GetMousePos xy c)) :: asked).
        split; [constructor; [now rewrite Hm|exact Hmiss]|].
        rewrite Hst. subst s1. cbn. now rewrite <- app_assoc.
      * right. split; [exact Hb|].
        exists ((k, c) :: pre),
               ((k, snd (Client_GetMousePos xy c)) :: pre'),
               k0, c0, xy0, behind.
        split; [now rewrite Hrest|].
        split; [constructor; [now rewrite Hm|exact Hmiss]|].
        split; [exact Hans|].
        rewrite Hst. subst s1. cbn. now rewrite <- app_assoc.
Qed.

(** X11. [GetMousePos] asks the sessions in token order and stops at the
    first that reports a pointer position: it returns [true] with the
    coordinates of that answer, and the sessions behind are not asked.
    It returns [false] only after every session has reported none. *)
Theorem GetMousePos_first xy s :
  let r := GetMousePos Coord Client_GetMousePos xy s in
  (fst (result r) = false /\
   exists asked,
     allMiss Client_GetMousePos negb xy (m_clients s) asked (snd (result r)) /\
     state r = set_clients asked s)
  \/
  (fst (result r) = true /\
   exists pre pre' k c xy0 behind,
     m_clients s = pre ++ (k, c) :: behind /\
     allMiss Client_GetMousePos negb xy pre pre' xy0 /\
     fst (Client_GetMousePos xy0 c) = result r /\
     state r
     = set_clients
         (pre' ++ (k, snd (Client_GetMousePos xy0 c)) :: behind) s).
Proof.
  unfold GetMousePos, bind, emit, gets. cbn.
  destruct (GetMousePos_loop_spec (m_clients s) xy [] s eq_refl)
    as [H|H]; cbv zeta in *; cbn [result state fst snd app] in *; auto.
Qed.

End LookupsMore.

(** ** More on the run and the thread *)
Section RunMore.

Variable ULong : CAddress -> Z.
Variable ParsePacket : Z -> list Byte.byte -> CEventPacket.
Variable Decode : CEventPacket -> list CEventAction.
Variable livenessWindow : Z.
Variable PACKET_SIZE : Z.

(** *** What a pass of the loop can change *)

Lemma RunIteration_exception it s :
  it_recv it = ListenException ->
  RunIteration ULong ParsePacket Decode livenessWindow PACKET_SIZE it s
  = (false, s,
     [EvLog LOGERROR "ES: Exception caught while listening for socket"]).
Proof. intros H. unfold RunIteration. now rewrite H. Qed.

Lemma ReceiveStep_fields it s :
  exists buf clients,
    state (ReceiveStep ULong ParsePacket PACKET_SIZE it s)
    = set_clients clients (set_pPacketBuffer buf s) /\
    (m_pPacketBuffer s <> None -> buf <> None).
Proof.
  assert (Hsame : exists buf clients,
             s = set_clients clients (set_pPacketBuffer buf s) /\
             (m_pPacketBuffer s <> None -> buf <> None)).
  { exists (m_pPacketBuffer s), (m_clients s). split; [now destruct s|auto]. }
  unfold ReceiveStep. destruct (it_recv it); try exact Hsame.
  unfold bind, modify. cbn [fst snd state].
  match goal with
  | |- context [ProcessPacket _ _ ?now ?a ?n ?s1] =>
      destruct (ProcessPacket_fields ULong ParsePacket now a n s1) as [cl Hcl]
  end.
  cbn [state] in Hcl. rewrite Hcl. eexists _, cl.
  split; [reflexivity|]. discriminate.
Qed.

Lemma RunIteration_fields it s :
  it_recv it <> ListenException ->
  let r := RunIteration ULong ParsePacket Decode livenessWindow PACKET_SIZE
             it s in
  result r = true /\
  exists buf clients,
    state r
    = set_bRefreshSettings false (set_clients clients (set_pPacketBuffer buf s))
    /\ (m_pPacketBuffer s <> None -> buf <> None).
Proof.
  intros Hex. cbv zeta.
  destruct (ReceiveStep_fields it s) as (buf & cl & Hst & Hbuf).
  assert (Hrun : RunIteration ULong ParsePacket Decode livenessWindow
                   PACKET_SIZE it s
                 = (ReceiveStep ULong ParsePacket PACKET_SIZE it ;;
                    ProcessEvents Decode ;;
                    RefreshClients livenessWindow (it_sweep_time it) ;;
                    ret true)%es s).
  { unfold RunIteration. destruct (it_recv it); try reflexivity.
    contradiction. }
  rewrite Hrun. unfold bind, ret. cbn [fst snd result state].
  split; [reflexivity|].
  rewrite RefreshClients_unfold. cbv zeta. cbn [fst snd].
  rewrite ProcessEvents_unfold. cbv zeta. cbn [fst snd].
  cbn [state] in Hst. rewrite Hst. eexists _, _. split; [reflexivity|].
  exact Hbuf.
Qed.

Lemma RegistryOK_buffer buf s :
  RegistryOK s -> RegistryOK (set_pPacketBuffer buf s).
Proof. intros H. exact H. Qed.

Lemma RunIteration_RegistryOK it s :
  RegistryOK s ->
  RegistryOK (state (RunIteration ULong ParsePacket Decode livenessWindow
                       PACKET_SIZE it s)).
Proof.
  intros Hok. unfold RunIteration.
  assert (Hrecv : RegistryOK
                    (state (ReceiveStep ULong ParsePacket PACKET_SIZE it s))).
  { unfold ReceiveStep. destruct (it_recv it); try exact Hok.
    unfold bind, modify. cbn [fst snd state].
    apply ProcessPacket_RegistryOK. exact Hok. }
  assert (Hall : RegistryOK
            (state ((ReceiveStep ULong ParsePacket PACKET_SIZE it ;;
                     ProcessEvents Decode ;;
                     RefreshClients livenessWindow (it_sweep_time it) ;;
                     ret true)%es s))).
  { unfold bind, ret. cbn [fst snd state].
    apply RefreshClients_RegistryOK, ProcessEvents_RegistryOK. exact Hrecv. }
  destruct (it_recv it); try exact Hall. exact Hok.
Qed.

Lemma RunLoop_unfold it rest s :
  RunLoop ULong ParsePacket Decode livenessWindow PACKET_SIZE (it :: rest) s
  = if m_bStop s then (tt, s, [])
    else
      let r := RunIteration ULong ParsePacket Decode livenessWindow
                 PACKET_SIZE it s in
      if result r then
        let r' := RunLoop ULong ParsePacket Decode livenessWindow PACKET_SIZE
                    rest (state r) in
        (tt, state r', trace r ++ trace r')
      else (tt, state r, trace r).
Proof.
  cbn [RunLoop]. unfold bind, gets, ret. cbn [fst snd].
  destruct (m_bStop s); [reflexivity|]. cbn [fst snd app result state trace].
  destruct (fst (fst (RunIteration ULong ParsePacket Decode livenessWindow
                        PACKET_SIZE it s))); cbn [fst snd];
    [|rewrite app_nil_r];
    now destruct (RunLoop _ _ _ _ _ _ _) as [[[] ?] ?]
    || (destruct (RunIteration _ _ _ _ _ _ _) as [[? ?] ?]; reflexivity).
Qed.

(** X12. The bound on the registry is an invariant of the receive loop:
    on a server whose registry is an ordered map of at most
    [m_iMaxClients] sessions, with [m_iMaxClients] a non-negative
    [int], it still is after any number of passes, whatever arrives. *)
Theorem RunLoop_keeps_bound its : forall s,
  RegistryOK s ->
  RegistryOK (state (RunLoop ULong ParsePacket Decode livenessWindow
                       PACKET_SIZE its s)).
Proof.
  induction its as [|it rest IH]; intros s Hok.
  - cbn [RunLoop]. unfold bind, gets, ret, modify. cbn.
    destruct (m_bStop s); exact Hok.
  - rewrite RunLoop_unfold. destruct (m_bStop s); [exact Hok|]. cbv zeta.
    pose proof (RunIteration_RegistryOK it s Hok) as H1.
    destruct (result _); cbn [state fst snd]; [|exact H1].
    apply IH. exact H1.
Qed.

Lemma RunLoop_stop its : forall s,
  m_bStop (state (RunLoop ULong ParsePacket Decode livenessWindow PACKET_SIZE
                    its s))
  = m_bStop s || negb (throws its).
Proof.
  induction its as [|it rest IH]; intros s.
  - cbn [RunLoop]. unfold bind, gets, ret, modify. cbn.
    destruct (m_bStop s) eqn:Hs; cbn; auto.
  - rewrite RunLoop_unfold. destruct (m_bStop s) eqn:Hs; [cbn; auto|].
    cbv zeta. unfold throws. cbn [existsb]. fold (throws rest).
    assert (Hgo : it_recv it <> ListenException ->
              m_bStop
                (state
                   (let r := RunIteration ULong ParsePacket Decode
                               livenessWindow PACKET_SIZE it s in
                    if result r then
                      let r' := RunLoop ULong ParsePacket Decode livenessWindow
                                  PACKET_SIZE rest (state r) in
                      (tt, state r', trace r ++ trace r')
                    else (tt, state r, trace r)))
              = negb (throws rest)).
    { intros Hne.
      destruct (RunIteration_fields it s Hne) as (Hres & buf & cl & Hst & _).
      cbv zeta in Hres, Hst. cbv zeta. rewrite Hres.
      cbn [state fst snd] in IH, Hst |- *.
      rewrite IH, Hst. cbn. now rewrite Hs. }
    destruct (it_recv it) eqn:Hrecv;
      try (cbn [orb]; apply Hgo; discriminate).
    rewrite (RunIteration_exception it s Hrecv). cbn. exact Hs.
Qed.

(** X13. An exception ends the loop there and then: the passes that
    would have followed are not made, whatever they would have brought,
    and the stop flag comes out as it went in, so that a loop ended by an
    exception has not been stopped. A loop that meets no exception ends
    with the stop flag set. *)
Theorem RunLoop_exception_ends before it after s :
  it_recv it = ListenException ->
  RunLoop ULong ParsePacket Decode livenessWindow PACKET_SIZE
    (before ++ it :: after) s
  = RunLoop ULong ParsePacket Decode livenessWindow PACKET_SIZE
      (before ++ [it]) s /\
  m_bStop (state (RunLoop ULong ParsePacket Decode livenessWindow PACKET_SIZE
                    (before ++ it :: after) s))
  = m_bStop s /\
  (forall its, throws its = false ->
     m_bStop (state (RunLoop ULong ParsePacket Decode livenessWindow
                       PACKET_SIZE its s)) = true).
Proof.
  intros Hex. split; [|split].
  - revert s. induction before as [|it0 before IH]; intros s.
    + cbn [app]. rewrite !RunLoop_unfold.
      destruct (m_bStop s); [reflexivity|].
      now rewrite (RunIteration_exception it s Hex).
    + cbn [app]. rewrite !RunLoop_unfold.
      destruct (m_bStop s); [reflexivity|]. cbv zeta.
      destruct (result _); [|reflexivity]. now rewrite IH.
  - rewrite RunLoop_stop.
    assert (Ht : throws (before ++ it :: after) = true).
    { unfold throws. rewrite existsb_app. cbn. rewrite Hex.
      now rewrite orb_true_r. }
    rewrite Ht. cbn. apply orb_false_r.
  - intros its Hno. rewrite RunLoop_stop, Hno. cbn. apply orb_true_r.
Qed.

(** *** Cleanup *)

Lemma Cleanup_loop_map l :
  Cleanup_loop l = map (fun kc => EvClient (fst kc) MDelete) l.
Proof. induction l as [|[k c] l IH]; cbn; [reflexivity|]. now rewrite IH. Qed.

Lemma Cleanup_run s :
  Cleanup s
  = (tt,
     set_clients [] (set_pPacketBuffer None (set_pSocket None s)),
     match m_pSocket s with
     | Some _ => [EvSocketClose; EvSocketDelete]
     | None => []
     end
     ++ match m_pPacketBuffer s with
        | Some _ => [EvBufferFree]
        | None => []
        end
     ++ EvEnter :: map (fun kc => EvClient (fst kc) MDelete) (m_clients s)
     ++ [EvLeave]).
Proof.
  unfold Cleanup, bind, gets, emit, emits, modify, ret.
  destruct s as [sock buf ? ? ? ? ? ? cl]. cbn.
  rewrite Cleanup_loop_map.
  destruct sock, buf; cbn; rewrite ?app_nil_r; reflexivity.
Qed.

(** X14. [Cleanup] releases what is held and nothing else: the socket is
    closed and then deleted only if there is one, the buffer is freed
    only if there is one, and every session of the registry is destroyed
    once, in token order, under the lock. Afterwards the socket and the
    buffer are null and the registry is empty, the other fields are
    untouched, and a second [Cleanup] only takes and leaves the lock. *)
Theorem Cleanup_releases s :
  let r := Cleanup s in
  state r = set_clients [] (set_pPacketBuffer None (set_pSocket None s)) /\
  filter is_release (trace r)
  = match m_pSocket s with
    | Some _ => [EvSocketClose; EvSocketDelete]
    | None => []
    end
    ++ match m_pPacketBuffer s with
       | Some _ => [EvBufferFree]
       | None => []
       end /\
  (forall k, calls k MDelete (trace r) = entries k (m_clients s)) /\
  trace (Cleanup (state r)) = [EvEnter; EvLeave].
Proof.
  cbv zeta. rewrite !Cleanup_run. cbn [state trace fst snd].
  split; [reflexivity|]. split; [|split].
  - rewrite !filter_app. cbn [filter is_release].
    rewrite filter_app, filter_client_calls by reflexivity.
    destruct (m_pSocket s), (m_pPacketBuffer s); reflexivity.
  - intros k. rewrite !calls_app, calls_cons, calls_app.
    assert (Hm : forall l,
               calls k MDelete (map (fun kc => EvClient (fst kc) MDelete) l)
               = entries k l).
    { induction l as [|[k0 c] l IH]; [reflexivity|].
      cbn [map fst]. rewrite calls_cons, entries_cons, IH. cbn [is_call].
      now rewrite andb_true_r. }
    rewrite Hm.
    destruct (m_pSocket s), (m_pPacketBuffer s); unfold calls; cbn; lia.
  - reflexivity.
Qed.

(** *** Run *)

(** [Run] path by path. *)
Lemma Run_run env s :
  Run ULong ParsePacket Decode livenessWindow PACKET_SIZE env s
  = let c0 := Cleanup s in
    let start :=
      EvLog LOGNOTICE "ES: Starting UDP Event server on port %d" :: trace c0 in
    match env_socket env with
    | None =>
        (tt, set_pSocket None (state c0),
         start ++ [EvLog LOGERROR "ES: Could not create socket, aborting!"])
    | Some sock =>
        if env_malloc env then
          let s1 := set_pPacketBuffer (Some [])
                      (set_pSocket (Some sock) (state c0)) in
          let rangeLog :=
            if (env_port_range env <? 1) || (env_port_range env >? 100) then
              [EvLog LOGERROR
                 "ES: Invalid port range specified %d, defaulting to 10"]
            else [] in
          let bind := EvBind (negb (env_all_interfaces env)) (m_iPort s)
                        (effectivePortRange env) in
          if env_bind env (negb (env_all_interfaces env)) (m_iPort s)
               (effectivePortRange env) then
            let rl := RunLoop ULong ParsePacket Decode livenessWindow
                        PACKET_SIZE (env_iterations env)
                        (set_bRunning true s1) in
            let c1 := Cleanup (set_bRunning false (state rl)) in
            (tt, state c1,
             start ++ rangeLog ++ bind :: EvPublish (m_iPort s) :: trace rl
               ++ EvLog LOGNOTICE "ES: UDP Event server stopped" :: trace c1)
          else
            (tt, s1,
             start ++ rangeLog
               ++ [bind; EvLog LOGERROR "ES: Could not listen on port %d"])
        else
          (tt, set_pPacketBuffer None (set_pSocket (Some sock) (state c0)),
           start ++ [EvLog LOGERROR
                       "ES: Out of memory, could not allocate packet buffer"])
    end.
Proof.
  unfold Run, effectivePortRange, bind, gets, emit, modify, ret.
  cbn -[Cleanup RunLoop].
  destruct (env_socket env) as [sock|]; cbn -[Cleanup RunLoop];
    [|reflexivity].
  destruct (env_malloc env); cbn -[Cleanup RunLoop]; [|reflexivity].
  destruct ((env_port_range env <? 1) || (env_port_range env >? 100));
    cbn -[Cleanup RunLoop];
    destruct (env_bind env _ _ _); cbn -[Cleanup RunLoop];
    rewrite <- ?app_assoc; cbn -[Cleanup RunLoop]; reflexivity.
Qed.

Lemma registry_events_only tr :
  forallb is_registry_event tr = true ->
  filter is_service_event tr = [] /\ filter is_release tr = [].
Proof.
  induction tr as [|e tr IH]; cbn; intros H; [auto|].
  apply andb_prop in H. destruct H as [He Ht].
  destruct (IH Ht) as [H1 H2]. destruct e; try discriminate; cbn; auto.
Qed.

Lemma registry_events_app tr1 tr2 :
  forallb is_registry_event tr1 = true ->
  forallb is_registry_event tr2 = true ->
  forallb is_registry_event (tr1 ++ tr2) = true.
Proof. intros H1 H2. now rewrite forallb_app, H1, H2. Qed.

Lemma ProcessPacket_registry_events now addr pSize s :
  forallb is_registry_event
    (trace (ProcessPacket ULong ParsePacket now addr pSize s)) = true.
Proof.
  destruct (IsValid (PacketIn ParsePacket pSize s)) eqn:Hv.
  - rewrite (ProcessPacket_valid _ _ _ _ _ _ Hv). cbv zeta.
    destruct (ClientMap.find _ _); [|destruct (_ >=? _)]; reflexivity.
  - now rewrite (ProcessPacket_invalid_run _ _ _ _ _ _ Hv).
Qed.

Lemma ProcessEvents_registry_events s :
  forallb is_registry_event (trace (ProcessEvents Decode s)) = true.
Proof.
  rewrite ProcessEvents_unfold. cbn [trace snd forallb is_registry_event andb].
  apply registry_events_app; [|reflexivity].
  induction (m_clients s) as [|[k c] l IH]; cbn; auto.
Qed.

Lemma RefreshClients_loop_registry_events now refresh passed rest :
  forallb is_registry_event
    (snd (RefreshClients_loop livenessWindow now refresh passed rest)) = true.
Proof.
  funelim (RefreshClients_loop livenessWindow now refresh passed rest).
  - reflexivity.
  - cbn zeta. cbn [snd forallb is_registry_event andb].
    apply registry_events_app; [now destruct refresh|assumption].
  - cbn zeta. cbn [snd forallb is_registry_event andb]. assumption.
Qed.

Lemma RefreshClients_registry_events now s :
  forallb is_registry_event (trace (RefreshClients livenessWindow now s))
  = true.
Proof.
  rewrite RefreshClients_unfold. cbn [trace snd forallb is_registry_event andb].
  apply registry_events_app; [|reflexivity].
  apply RefreshClients_loop_registry_events.
Qed.

Lemma RunIteration_registry_events it s :
  forallb is_registry_event
    (trace (RunIteration ULong ParsePacket Decode livenessWindow PACKET_SIZE
              it s)) = true.
Proof.
  assert (Hall : forallb is_registry_event
            (trace ((ReceiveStep ULong ParsePacket PACKET_SIZE it ;;
                     ProcessEvents Decode ;;
                     RefreshClients livenessWindow (it_sweep_time it) ;;
                     ret true)%es s)) = true).
  { unfold bind, ret. cbn [fst snd trace]. rewrite app_nil_r.
    apply registry_events_app; [|apply registry_events_app].
    - unfold ReceiveStep. destruct (it_recv it); try reflexivity.
      unfold bind, modify. cbn [fst snd app].
      apply ProcessPacket_registry_events.
    - apply ProcessEvents_registry_events.
    - apply RefreshClients_registry_events. }
  unfold RunIteration. destruct (it_recv it); try exact Hall. reflexivity.
Qed.

Lemma RunLoop_registry_events its : forall s,
  forallb is_registry_event
    (trace (RunLoop ULong ParsePacket Decode livenessWindow PACKET_SIZE its s))
  = true.
Proof.
  induction its as [|it rest IH]; intros s.
  - cbn [RunLoop]. unfold bind, gets, ret, modify. cbn.
    now destruct (m_bStop s).
  - rewrite RunLoop_unfold. destruct (m_bStop s); [reflexivity|]. cbv zeta.
    pose proof (RunIteration_registry_events it s) as H1.
    destruct (result _); cbn [trace snd]; [|exact H1].
    apply registry_events_app; [exact H1|apply IH].
Qed.

Lemma RunLoop_resources its : forall s,
  let s' := state (RunLoop ULong ParsePacket Decode livenessWindow PACKET_SIZE
                     its s) in
  m_pSocket s' = m_pSocket s /\
  (m_pPacketBuffer s <> None -> m_pPacketBuffer s' <> None).
Proof.
  induction its as [|it rest IH]; intros s; cbv zeta.
  - cbn [RunLoop]. unfold bind, gets, ret, modify. cbn.
    destruct (m_bStop s); cbn; auto.
  - rewrite RunLoop_unfold. destruct (m_bStop s); [cbn; auto|]. cbv zeta.
    destruct (it_recv it) eqn:Hrecv;
      try (rewrite (RunIteration_exception it s Hrecv); cbn; now auto).
    all: assert (Hne : it_recv it <> ListenException)
           by (rewrite Hrecv; discriminate);
         destruct (RunIteration_fields it s Hne) as (Hres & buf & cl & Hst & Hb);
         cbv zeta in Hres, Hst; rewrite Hres; cbn [state fst snd] in Hst |- *;
         specialize (IH (snd (fst (RunIteration ULong ParsePacket Decode
                                     livenessWindow PACKET_SIZE it s))));
         cbv zeta in IH; cbn [state] in IH; destruct IH as [IH1 IH2];
         rewrite IH1; rewrite Hst in *; cbn in *; auto.
Qed.

(** X15. A run that gets through its startup ends, whether the loop was
    stopped or broken by an exception, with the socket closed, then
    deleted, and the buffer freed, after whatever a [Cleanup] of the
    state at entry has to release; the fields are null, the registry is
    empty and the running flag is clear. The stop flag is set exactly if
    it was set before or no pass threw. *)
Theorem Run_completed env s :
  startsUp env s = true ->
  let r := Run ULong ParsePacket Decode livenessWindow PACKET_SIZE env s in
  m_pSocket (state r) = None /\
  m_pPacketBuffer (state r) = None /\
  m_clients (state r) = [] /\
  m_bRunning (state r) = false /\
  m_bStop (state r) = m_bStop s || negb (throws (env_iterations env)) /\
  filter is_release (trace r)
  = filter is_release (trace (Cleanup s))
      ++ [EvSocketClose; EvSocketDelete; EvBufferFree].
Proof.
  unfold startsUp. intros Hup. cbv zeta. rewrite Run_run. cbv zeta.
  destruct (env_socket env) as [sock|]; [|discriminate].
  apply andb_prop in Hup. destruct Hup as [Hm Hb]. rewrite Hm, Hb.
  rewrite (Cleanup_run s). cbn [state trace fst snd].
  remember (set_bRunning true
              (set_pPacketBuffer (Some [])
                 (set_pSocket (Some sock)
                    (set_clients []
                       (set_pPacketBuffer None (set_pSocket None s))))))
    as s1 eqn:Hs1.
  pose proof (RunLoop_stop (env_iterations env) s1) as Hstop.
  destruct (RunLoop_resources (env_iterations env) s1) as [Hsock Hbuf].
  pose proof (RunLoop_registry_events (env_iterations env) s1) as Hreg.
  apply registry_events_only in Hreg. destruct Hreg as [_ Hrel].
  remember (RunLoop ULong ParsePacket Decode livenessWindow PACKET_SIZE
              (env_iterations env) s1) as rl eqn:Hrl.
  assert (Hstop' : m_bStop (snd (fst rl))
                   = m_bStop s || negb (throws (env_iterations env))).
  { cbn [state] in Hstop. rewrite Hstop, Hs1. reflexivity. }
  assert (Hsock' : m_pSocket (snd (fst rl)) = Some sock).
  { cbn [state] in Hsock. rewrite Hsock, Hs1. reflexivity. }
  assert (Hbuf' : m_pPacketBuffer (snd (fst rl)) <> None).
  { cbn [state] in Hbuf. apply Hbuf. rewrite Hs1. discriminate. }
  cbn [trace] in Hrel.
  rewrite Cleanup_run. cbn [state trace fst snd].
  repeat apply conj; try reflexivity.
  - cbn. exact Hstop'.
  - cbn [m_pSocket m_pPacketBuffer m_clients set_bRunning].
    rewrite Hsock'.
    destruct (m_pPacketBuffer (snd (fst rl))) as [b|]; [|contradiction].
    cbn [filter is_release app].
    rewrite !filter_app. cbn [filter is_release].
    rewrite !filter_app, Hrel, !filter_client_calls by reflexivity.
    cbn [filter is_release app].
    destruct ((env_port_range env <? 1) || (env_port_range env >? 100));
      cbn [filter is_release app];
      destruct (m_pSocket s), (m_pPacketBuffer s);
      cbn [filter is_release app];
      rewrite ?filter_app, ?filter_client_calls by reflexivity;
      reflexivity.
Qed.

(** X16. In a run the socket is bound at most once, and the service is
    published at most once and only after the bind has succeeded. With
    its socket and buffer, [Run] binds exactly once: to the local
    interface unless all interfaces are configured, on the server's port,
    with the configured range if it lies in 1..100 and 10 otherwise.
    Nothing in the loop or the cleanup binds or publishes. *)
Theorem Run_service_events env s :
  filter is_service_event
    (trace (Run ULong ParsePacket Decode livenessWindow PACKET_SIZE env s))
  = match env_socket env with
    | Some _ =>
        if env_malloc env then
          EvBind (negb (env_all_interfaces env)) (m_iPort s)
            (effectivePortRange env)
            :: (if env_bind env (negb (env_all_interfaces env)) (m_iPort s)
                     (effectivePortRange env)
                then [EvPublish (m_iPort s)] else [])
        else []
    | None => []
    end.
Proof.
  rewrite Run_run. cbv zeta. unfold trace, state.
  assert (Hc : forall s0, filter is_service_event (snd (Cleanup s0)) = []).
  { intros s0. rewrite Cleanup_run. cbn [snd].
    rewrite !filter_app. cbn [filter is_service_event].
    rewrite filter_app, filter_client_calls by reflexivity.
    destruct (m_pSocket s0), (m_pPacketBuffer s0); reflexivity. }
  destruct (env_socket env) as [sock|];
    [|cbn [snd app filter is_service_event]; rewrite filter_app, Hc;
      reflexivity].
  destruct (env_malloc env);
    [|cbn [snd app filter is_service_event]; rewrite filter_app, Hc;
      reflexivity].
  assert (Hrange : filter is_service_event
            (if (env_port_range env <? 1) || (env_port_range env >? 100)
             then [EvLog LOGERROR
                     "ES: Invalid port range specified %d, defaulting to 10"]
             else []) = []) by (now destruct (_ || _)).
  destruct (env_bind env _ _ _); cbn [snd app filter is_service_event];
    rewrite !filter_app, Hc, Hrange; cbn [filter is_service_event app];
    [|reflexivity].
  rewrite filter_app. cbn [filter is_service_event]. rewrite Hc.
  match goal with
  | |- context [RunLoop ?a ?b ?c ?d ?e ?f ?g] =>
      pose proof (RunLoop_registry_events f g) as Hreg
  end.
  apply registry_events_only in Hreg. destruct Hreg as [Hsv _].
  cbn [trace] in Hsv. now rewrite Hsv.
Qed.

(** X17. What an aborted startup leaves behind is released by the next
    run before it acquires anything: after a run whose bind failed the
    socket and the buffer are still held and the registry is empty, and
    any run entered in that state starts by closing and deleting that
    socket and freeing that buffer. *)
Theorem Run_after_abort_releases env1 s sock :
  env_socket env1 = Some sock ->
  env_malloc env1 = true ->
  env_bind env1 (negb (env_all_interfaces env1)) (m_iPort s)
    (effectivePortRange env1) = false ->
  let s1 := state (Run ULong ParsePacket Decode livenessWindow PACKET_SIZE
                     env1 s) in
  m_pSocket s1 = Some sock /\
  m_pPacketBuffer s1 = Some [] /\
  m_clients s1 = [] /\
  forall env2, exists tail,
    trace (Run ULong ParsePacket Decode livenessWindow PACKET_SIZE env2 s1)
    = EvLog LOGNOTICE "ES: Starting UDP Event server on port %d"
        :: EvSocketClose :: EvSocketDelete :: EvBufferFree
        :: EvEnter :: EvLeave :: tail.
Proof.
  intros Hs Hm Hb. cbv zeta. rewrite Run_run. cbv zeta.
  rewrite Hs, Hm, Hb. rewrite Cleanup_run. cbn [state trace fst snd].
  repeat apply conj; try reflexivity.
  intros env2. rewrite Run_run. cbv zeta. rewrite Cleanup_run.
  cbn [state trace fst snd m_pSocket m_pPacketBuffer m_clients set_clients
       set_pPacketBuffer set_pSocket map app].
  destruct (env_socket env2); [destruct (env_malloc env2);
    [destruct (env_bind env2 _ _ _)|]|]; eexists; reflexivity.
Qed.

(** *** Process *)

Lemma Run_stop_flag env s :
  m_bStop (state (Run ULong ParsePacket Decode livenessWindow PACKET_SIZE
                    env s))
  = m_bStop s || (startsUp env s && negb (throws (env_iterations env))).
Proof.
  rewrite Run_run. cbv zeta. unfold startsUp. rewrite !Cleanup_run.
  cbn [state fst snd].
  destruct (env_socket env) as [sock|]; [|cbn; now rewrite orb_false_r].
  destruct (env_malloc env); [|cbn; now rewrite orb_false_r].
  destruct (env_bind env _ _ _); [|cbn; now rewrite orb_false_r].
  rewrite Cleanup_run. cbn [state fst snd andb].
  cbn [m_bStop set_clients set_pPacketBuffer set_pSocket set_bRunning].
  match goal with
  | |- context [RunLoop ?a ?b ?c ?d ?e ?f ?g] =>
      pose proof (RunLoop_stop f g) as Hstop
  end.
  cbn [state] in Hstop. rewrite Hstop. reflexivity.
Qed.

Lemma Process_stopped runs s :
  m_bStop s = true ->
  Process ULong ParsePacket Decode livenessWindow PACKET_SIZE runs s = (s, []).
Proof. intros H. destruct runs; cbn [Process]; now rewrite H. Qed.

(** X18. What the thread does after a [Run]. When [Run] comes back with
    the stop flag set, the thread ends at once. When it comes back
    without, which is the case after a startup that failed and after a
    loop broken by an exception, the thread sleeps 1000 ms and, unless
    the stop is requested meanwhile, runs [Run] again: the server
    restarts by itself. *)
Theorem Process_after_run env stopInSleep rest s :
  m_bStop s = false ->
  let r := Run ULong ParsePacket Decode livenessWindow PACKET_SIZE env s in
  let goes := startsUp env s && negb (throws (env_iterations env)) in
  m_bStop (state r) = goes /\
  (goes = true ->
   Process ULong ParsePacket Decode livenessWindow PACKET_SIZE
     ((env, stopInSleep) :: rest) s
   = (state r, map InRun (trace r))) /\
  (goes = false ->
   Process ULong ParsePacket Decode livenessWindow PACKET_SIZE
     ((env, stopInSleep) :: rest) s
   = let s' := if stopInSleep then set_bStop true (state r) else state r in
     let r' := Process ULong ParsePacket Decode livenessWindow PACKET_SIZE
                 rest s' in
     (fst r', map InRun (trace r) ++ ThreadSleep 1000 :: snd r')).
Proof.
  intros Hs. cbv zeta.
  pose proof (Run_stop_flag env s) as Hflag. rewrite Hs in Hflag.
  cbn [orb] in Hflag.
  split; [exact Hflag|].
  split; intros Hgo; rewrite Hgo in Hflag;
    cbn [Process]; rewrite Hs; cbn [state] in Hflag |- *;
    rewrite Hflag; reflexivity.
Qed.

(** X19. A thread stopped after a failed bind ends with the socket and
    the buffer still held: [Run] has returned without releasing them,
    the stop request during the sleep ends [Process], and nothing after
    the bind closes the socket or frees the buffer. *)
Theorem Process_stop_keeps_resources env rest s sock :
  m_bStop s = false ->
  env_socket env = Some sock ->
  env_malloc env = true ->
  env_bind env (negb (env_all_interfaces env)) (m_iPort s)
    (effectivePortRange env) = false ->
  let r := Run ULong ParsePacket Decode livenessWindow PACKET_SIZE env s in
  let p := Process ULong ParsePacket Decode livenessWindow PACKET_SIZE
             ((env, true) :: rest) s in
  snd p = map InRun (trace r) ++ [ThreadSleep 1000] /\
  m_bStop (fst p) = true /\
  m_pSocket (fst p) = Some sock /\
  m_pPacketBuffer (fst p) = Some [] /\
  filter is_release (trace r) = filter is_release (trace (Cleanup s)).
Proof.
  intros Hs Hsock Hm Hb. cbv zeta.
  assert (Hup : startsUp env s = false).
  { unfold startsUp. now rewrite Hsock, Hm, Hb. }
  pose proof (Run_stop_flag env s) as Hflag.
  rewrite Hs, Hup in Hflag. cbn [orb andb] in Hflag.
  cbn [Process]. rewrite Hs. cbn [state] in Hflag |- *. rewrite Hflag.
  rewrite Process_stopped by reflexivity. cbn [fst snd].
  rewrite Run_run. cbv zeta. rewrite Hsock, Hm, Hb.
  cbn [state trace fst snd m_bStop m_pSocket m_pPacketBuffer set_bStop
       set_pPacketBuffer set_pSocket].
  repeat apply conj; try reflexivity.
  rewrite !filter_app. cbn [filter is_release app].
  destruct ((env_port_range env <? 1) || (env_port_range env >? 100));
    cbn [filter is_release]; now rewrite !app_nil_r.
Qed.

(** *** StartServer and the client count *)

(** X20. [StartServer] on a server that is running changes nothing and
    creates no thread. On one that is not, with a port in 1..65535, it
    returns having created one thread, stored the port, and stored a
    maximum of clients that is never negative: the configured one, or 20
    in its place; with a configured maximum in [int] range a fresh server
    then satisfies the bound on the registry. With a port outside
    1..65535 the assertion stops the process before any thread is
    created. *)
Theorem StartServer_guard esport esmaxclients s :
  let r := StartServer esport esmaxclients s in
  (m_bRunning s = true -> r = (Returned, s, [EvEnter; EvLeave])) /\
  (m_bRunning s = false -> 1 <= esport <= 65535 ->
     result r = Returned /\
     m_iPort (state r) = esport /\
     m_iMaxClients (state r) = (if esmaxclients <? 0 then 20 else esmaxclients) /\
     0 <= m_iMaxClients (state r) /\
     m_clients (state r) = m_clients s /\
     filter (fun e => match e with EvThreadCreate => true | _ => false end)
       (trace r) = [EvThreadCreate] /\
     (m_clients s = [] -> esmaxclients < 2 ^ 31 -> RegistryOK (state r))) /\
  (m_bRunning s = false -> ~ 1 <= esport <= 65535 ->
     result r = Aborted /\ ~ In EvThreadCreate (trace r)).
Proof.
  cbv zeta. unfold StartServer, bind, gets, emit, modify, ret. cbn.
  split; [|split].
  - intros Hr. rewrite Hr. cbn. reflexivity.
  - intros Hr Hp. rewrite Hr. cbn.
    assert (Hport : (esport <=? 65535) && (esport >=? 1) = true).
    { apply andb_true_intro. split; [apply Z.leb_le|apply Z.geb_le]; lia. }
    rewrite Hport. cbn.
    destruct (esmaxclients <? 0) eqn:Hneg; cbn.
    + repeat apply conj; try reflexivity; try lia.
      intros Hcl _. unfold RegistryOK. cbn. rewrite Hcl. cbn.
      repeat split; lia.
    + apply Z.ltb_ge in Hneg.
      repeat apply conj; try reflexivity; try lia.
      intros Hcl Hint. unfold RegistryOK. cbn. rewrite Hcl. cbn.
      repeat split; lia.
  - intros Hr Hp. rewrite Hr. cbn.
    assert (Hport : (esport <=? 65535) && (esport >=? 1) = false).
    { apply andb_false_iff.
      destruct (Z.leb_spec esport 65535); [right|left; reflexivity].
      rewrite Z.geb_leb. apply Z.leb_gt. lia. }
    rewrite Hport. cbn. split; [reflexivity|].
    intros [H|[]]. discriminate.
Qed.

(** X21. [GetNumberOfClients] returns the size of the registry and
    changes nothing. Routing one datagram raises the count by one
    exactly when a session is created for it, and leaves it alone
    otherwise. *)
Theorem GetNumberOfClients_after_routing now addr pSize s :
  ClientMap.wf (m_clients s) ->
  let T := routingToken ULong addr (PacketIn ParsePacket pSize s) in
  let r := ProcessPacket ULong ParsePacket now addr pSize s in
  GetNumberOfClients s = (ClientMap.size (m_clients s), s, [EvEnter; EvLeave]) /\
  result (GetNumberOfClients (state r))
  = result (GetNumberOfClients s) + Z.of_nat (calls T MNew (trace r)).
Proof.
  intros Hwf. cbv zeta. split; [reflexivity|].
  unfold GetNumberOfClients, bind, gets, emit, ret. cbn [result fst snd].
  destruct (IsValid (PacketIn ParsePacket pSize s)) eqn:Hv.
  - rewrite (ProcessPacket_valid _ _ _ _ _ _ Hv). cbv zeta.
    destruct (ClientMap.find _ (m_clients s)) as [c|] eqn:Hf;
      [|destruct (_ >=? _)]; cbn [state trace fst snd m_clients set_clients].
    + rewrite (ClientMapFacts.size_insert_old _ _ c) by assumption.
      unfold calls. cbn [filter is_call]. rewrite Z.eqb_refl. cbn. lia.
    + unfold calls. cbn. lia.
    + rewrite ClientMapFacts.size_insert_new by assumption.
      unfold calls. cbn [filter is_call]. rewrite Z.eqb_refl. cbn. lia.
  - rewrite (ProcessPacket_invalid_run _ _ _ _ _ _ Hv). unfold calls. cbn. lia.
Qed.

End RunMore.

(** ** Routing token and session *)
Section RoutingIdentity.

Variable ULong : CAddress -> Z.
Variable ParsePacket : Z -> list Byte.byte -> CEventPacket.

Lemma admits_buffer T buf s : admits T (set_pPacketBuffer buf s) = admits T s.
Proof. reflexivity. Qed.

(** Where a valid packet ends up. *)
Lemma ProcessPacket_outcome now addr pSize s :
  IsValid (PacketIn ParsePacket pSize s) = true ->
  let packet := PacketIn ParsePacket pSize s in
  let T := routingToken ULong addr packet in
  let r := ProcessPacket ULong ParsePacket now addr pSize s in
  (admits T s = true ->
     (exists c,
        ClientMap.find T (m_clients (state r)) = Some c /\
        m_readyPackets c = queueOf T s ++ [packet]) /\
     (forall k, k <> T ->
        ClientMap.find k (m_clients (state r))
        = ClientMap.find k (m_clients s))) /\
  (admits T s = false ->
     state r = s /\ ClientMap.find T (m_clients s) = None).
Proof.
  intros Hv packet T r. subst r.
  rewrite (ProcessPacket_valid _ _ _ _ _ _ Hv). cbv zeta.
  fold packet. fold T. unfold admits, queueOf.
  destruct (ClientMap.find T (m_clients s)) as [c|] eqn:Hf.
  - split; [|discriminate]. intros _.
    cbn [state fst snd m_clients set_clients]. split.
    + eexists. rewrite ClientMapFacts.find_insert_same. split; reflexivity.
    + intros k Hk. now apply ClientMapFacts.find_insert_other.
  - destruct (_ >=? _).
    + split; [discriminate|]. intros _. cbn. auto.
    + split; [|discriminate]. intros _.
      cbn [state fst snd m_clients set_clients]. split.
      * eexists. rewrite ClientMapFacts.find_insert_same. split; reflexivity.
      * intros k Hk. now apply ClientMapFacts.find_insert_other.
Qed.

Lemma ProcessPacket_other now addr pSize s k :
  IsValid (PacketIn ParsePacket pSize s) = true ->
  k <> routingToken ULong addr (PacketIn ParsePacket pSize s) ->
  ClientMap.find k
    (m_clients (state (ProcessPacket ULong ParsePacket now addr pSize s)))
  = ClientMap.find k (m_clients s).
Proof.
  intros Hv Hk.
  destruct (ProcessPacket_outcome now addr pSize s Hv) as [Hyes Hno].
  cbv zeta in Hyes, Hno.
  destruct (admits (routingToken ULong addr (PacketIn ParsePacket pSize s)) s).
  - destruct (Hyes eq_refl) as [_ Hother]. now apply Hother.
  - destruct (Hno eq_refl) as [Hst _]. now rewrite Hst.
Qed.

(** C4. Two valid datagrams from one address, routed one after the
    other. If both carry the client token 0, the routing token of both
    is the one derived from the address, and both packets are queued on
    the session of that token, one behind the other, unless the registry
    has no place for it, in which case neither is queued. If they carry
    distinct client tokens that are not 0, each packet is queued on the
    session of its own token and on no other: where both find a place
    they are the last packets of two different sessions. *)
Theorem routing_token_identity addr now1 now2 pSize1 pSize2 buf2 s :
  let p1 := PacketIn ParsePacket pSize1 s in
  let r1 := ProcessPacket ULong ParsePacket now1 addr pSize1 s in
  let s2 := set_pPacketBuffer buf2 (state r1) in
  let p2 := PacketIn ParsePacket pSize2 s2 in
  let r2 := ProcessPacket ULong ParsePacket now2 addr pSize2 s2 in
  IsValid p1 = true ->
  IsValid p2 = true ->
  (ClientToken p1 = 0 -> ClientToken p2 = 0 ->
     let T := to_uint (ULong addr) in
     if admits T s then
       exists c,
         ClientMap.find T (m_clients (state r2)) = Some c /\
         m_readyPackets c = queueOf T s ++ [p1; p2]
     else m_clients (state r2) = m_clients s) /\
  (ClientToken p1 <> 0 -> ClientToken p2 <> 0 ->
   ClientToken p1 <> ClientToken p2 ->
     let t1 := ClientToken p1 in
     let t2 := ClientToken p2 in
     (if admits t1 s then
        exists c1,
          ClientMap.find t1 (m_clients (state r2)) = Some c1 /\
          m_readyPackets c1 = queueOf t1 s ++ [p1]
      else ClientMap.find t1 (m_clients (state r2)) = None) /\
     (if admits t2 s2 then
        exists c2,
          ClientMap.find t2 (m_clients (state r2)) = Some c2 /\
          m_readyPackets c2 = queueOf t2 s ++ [p2]
      else ClientMap.find t2 (m_clients (state r2)) = None)).
Proof.
  intros p1 r1 s2 p2 r2 Hv1 Hv2.
  destruct (ProcessPacket_outcome now1 addr pSize1 s Hv1) as [Hyes1 Hno1].
  destruct (ProcessPacket_outcome now2 addr pSize2 s2 Hv2) as [Hyes2 Hno2].
  cbv zeta in Hyes1, Hno1, Hyes2, Hno2.
  fold p1 in Hyes1, Hno1. fold r1 in Hyes1, Hno1.
  fold p2 in Hyes2, Hno2. fold r2 in Hyes2, Hno2.
  split.
  - intros H1 H2 T.
    assert (HT1 : routingToken ULong addr p1 = T)
      by (unfold routingToken; now rewrite H1).
    assert (HT2 : routingToken ULong addr p2 = T)
      by (unfold routingToken; now rewrite H2).
    rewrite HT1 in Hyes1, Hno1. rewrite HT2 in Hyes2, Hno2.
    destruct (admits T s) eqn:Ha.
    + destruct (Hyes1 eq_refl) as [(c1 & Hf1 & Hq1) _].
      assert (Ha2 : admits T s2 = true).
      { unfold admits, s2. cbn [m_clients set_pPacketBuffer]. now rewrite Hf1. }
      destruct (Hyes2 Ha2) as [(c2 & Hf2 & Hq2) _].
      exists c2. split; [exact Hf2|]. rewrite Hq2.
      unfold queueOf at 1, s2. cbn [m_clients set_pPacketBuffer].
      rewrite Hf1, Hq1, <- app_assoc. reflexivity.
    + destruct (Hno1 eq_refl) as [Hst1 _].
      assert (Ha2 : admits T s2 = false).
      { unfold s2. rewrite admits_buffer, Hst1. exact Ha. }
      destruct (Hno2 Ha2) as [Hst2 _]. rewrite Hst2. unfold s2.
      cbn [m_clients set_pPacketBuffer]. now rewrite Hst1.
  - intros H1 H2 Hne t1 t2.
    assert (HT1 : routingToken ULong addr p1 = t1).
    { unfold routingToken. apply Z.eqb_neq in H1. now rewrite H1. }
    assert (HT2 : routingToken ULong addr p2 = t2).
    { unfold routingToken. apply Z.eqb_neq in H2. now rewrite H2. }
    rewrite HT1 in Hyes1, Hno1. rewrite HT2 in Hyes2, Hno2.
    assert (Hkeep1 : ClientMap.find t1 (m_clients (state r2))
                     = ClientMap.find t1 (m_clients (state r1))).
    { unfold r2. rewrite ProcessPacket_other; [reflexivity|exact Hv2|].
      fold p2. rewrite HT2. exact Hne. }
    assert (Hkeep2 : ClientMap.find t2 (m_clients s2)
                     = ClientMap.find t2 (m_clients s)).
    { unfold s2. cbn [m_clients set_pPacketBuffer]. unfold r1.
      rewrite ProcessPacket_other; [reflexivity|exact Hv1|].
      fold p1. rewrite HT1. intro E. apply Hne. symmetry. exact E. }
    split.
    + rewrite Hkeep1. destruct (admits t1 s) eqn:Ha.
      * destruct (Hyes1 eq_refl) as [Hc1 _]. exact Hc1.
      * destruct (Hno1 eq_refl) as [Hst1 Hnone]. now rewrite Hst1.
    + destruct (admits t2 s2) eqn:Ha.
      * destruct (Hyes2 eq_refl) as [(c2 & Hf2 & Hq2) _].
        exists c2. split; [exact Hf2|]. rewrite Hq2.
        unfold queueOf. now rewrite Hkeep2.
      * destruct (Hno2 eq_refl) as [Hst2 Hnone]. now rewrite Hst2.
Qed.

End RoutingIdentity.

(** ** The registry lock is taken once *)
Section LockOnce.

Variable ULong : CAddress -> Z.
Variable ParsePacket : Z -> list Byte.byte -> CEventPacket.
Variable Decode : CEventPacket -> list CEventAction.
Variable livenessWindow : Z.
Variable BuiltinsExecute : string -> Z.
Variable TranslateString : string -> Z.
Variable HasGUI : bool.
Variable OnAction : CAction -> bool.
Variable Amount : Type.
Variable Client_GetButtonCode :
  ButtonOut Amount -> CEventClient -> Z * ButtonOut Amount * CEventClient.
Variable Coord : Type.
Variable Client_GetMousePos :
  Coord * Coord -> CEventClient -> bool * (Coord * Coord) * CEventClient.

Lemma lockEvents_app tr1 tr2 :
  lockEvents (tr1 ++ tr2) = lockEvents tr1 ++ lockEvents tr2.
Proof. apply filter_app. Qed.

Lemma lockEvents_lockFree tr : lockFree tr -> lockEvents tr = [].
Proof.
  induction 1 as [|e tr [H1 H2] _ IH]; [reflexivity|].
  destruct e; cbn; auto; congruence.
Qed.

Lemma lockEvents_calls (m : Method) (l : ClientMap.t CEventClient) :
  lockEvents (map (fun kc => EvClient (fst kc) m) l) = [].
Proof. apply lockEvents_lockFree, lockFree_calls. Qed.

Lemma lockEvents_GetButtonCode_loop rest : forall bcode out passed s,
  lockEvents
    (trace (GetButtonCode_loop Amount Client_GetButtonCode bcode out passed
              rest s)) = [EvLeave].
Proof.
  induction rest as [|[k c] rest IH]; intros bcode out passed s.
  - reflexivity.
  - cbn [GetButtonCode_loop]. unfold bind, modify. cbn.
    destruct (fst (fst (Client_GetButtonCode out c)) =? 0).
    + apply IH.
    + reflexivity.
Qed.

Lemma lockEvents_GetMousePos_loop rest : forall xy passed s,
  lockEvents
    (trace (GetMousePos_loop Coord Client_GetMousePos xy passed rest s))
  = [EvLeave].
Proof.
  induction rest as [|[k c] rest IH]; intros xy passed s.
  - reflexivity.
  - cbn [GetMousePos_loop]. unfold bind, modify. cbn.
    destruct (fst (fst (Client_GetMousePos xy c))).
    + reflexivity.
    + apply IH.
Qed.

(** X4. What each operation does to [m_critSection], read off its
    trace: [ProcessEvents], [RefreshClients], [ExecuteNextAction],
    [GetButtonCode], [GetMousePos], [GetNumberOfClients] and [Cleanup]
    take the lock exactly once and leave it exactly once, in that order,
    on every path. [ProcessPacket] does so for a valid packet and does
    not touch the lock for an invalid one, which it drops before the
    [CSingleLock]. [StartServer] takes and leaves the lock once when it
    returns, and has taken it without leaving it when the assertion on
    the port stops it. *)
Theorem lock_taken_once (s : CEventServer) :
  (forall now addr pSize,
     lockEvents (trace (ProcessPacket ULong ParsePacket now addr pSize s))
     = if IsValid (PacketIn ParsePacket pSize s) then [EvEnter; EvLeave]
       else []) /\
  lockEvents (trace (ProcessEvents Decode s)) = [EvEnter; EvLeave] /\
  (forall now,
     lockEvents (trace (RefreshClients livenessWindow now s))
     = [EvEnter; EvLeave]) /\
  lockEvents (trace (ExecuteNextAction BuiltinsExecute TranslateString HasGUI
                        OnAction s)) = [EvEnter; EvLeave] /\
  (forall out,
     lockEvents (trace (GetButtonCode Amount Client_GetButtonCode out s))
     = [EvEnter; EvLeave]) /\
  (forall xy,
     lockEvents (trace (GetMousePos Coord Client_GetMousePos xy s))
     = [EvEnter; EvLeave]) /\
  lockEvents (trace (GetNumberOfClients s)) = [EvEnter; EvLeave] /\
  lockEvents (trace (Cleanup s)) = [EvEnter; EvLeave] /\
  (forall esport esmaxclients,
     lockEvents (trace (StartServer esport esmaxclients s))
     = match result (StartServer esport esmaxclients s) with
       | Returned => [EvEnter; EvLeave]
       | Aborted => [EvEnter]
       end).
Proof.
  repeat apply conj; intros.
  - destruct (IsValid (PacketIn ParsePacket pSize s)) eqn:Hv.
    + rewrite (ProcessPacket_valid _ _ _ _ _ _ Hv). cbv zeta.
      destruct (ClientMap.find _ _); [|destruct (_ >=? _)]; reflexivity.
    + now rewrite (ProcessPacket_invalid_run _ _ _ _ _ _ Hv).
  - rewrite ProcessEvents_unfold. cbn [trace snd].
    change (lockEvents (EvEnter :: ?l)) with (EvEnter :: lockEvents l).
    rewrite lockEvents_app, lockEvents_lockFree
      by apply lockFree_ProcessEvents_loop.
    reflexivity.
  - rewrite RefreshClients_unfold. cbn [trace snd].
    change (lockEvents (EvEnter :: ?l)) with (EvEnter :: lockEvents l).
    rewrite lockEvents_app, lockEvents_lockFree
      by apply lockFree_RefreshClients_loop.
    reflexivity.
  - unfold ExecuteNextAction, bind, emit, gets. cbn.
    pose proof (ExecuteNextAction_loop_spec BuiltinsExecute TranslateString
                  HasGUI OnAction (m_clients s) [] s) as H.
    cbn zeta in H.
    destruct (pendingActions (m_clients s)) as [|a q].
    + rewrite H. cbn. unfold lockEvents in *. cbn. f_equal.
      fold (lockEvents (map (fun kc => EvClient (fst kc) MGetNextAction)
                          (m_clients s) ++ [EvLeave])).
      now rewrite lockEvents_app, lockEvents_calls.
    + destruct H as (pre & k & c & c' & post & _ & _ & _ & _ & _ & _ & Htr).
      cbn in Htr. rewrite Htr.
      unfold lockEvents. cbn. f_equal.
      fold (lockEvents
              (map (fun kc => EvClient (fst kc) MGetNextAction) pre ++
               EvClient k MGetNextAction :: EvLeave ::
               snd (ExecuteAction BuiltinsExecute TranslateString HasGUI
                      OnAction a
                      (set_clients (pre ++ (k, c') :: post) s)))).
      rewrite lockEvents_app, lockEvents_calls. cbn. f_equal.
      apply (lockEvents_lockFree _
               (lockFree_ExecuteAction BuiltinsExecute TranslateString HasGUI
                  OnAction a _)).
  - unfold GetButtonCode, bind, emit, gets. cbn.
    change (lockEvents (EvEnter :: ?l)) with (EvEnter :: lockEvents l).
    f_equal. apply lockEvents_GetButtonCode_loop.
  - unfold GetMousePos, bind, emit, gets. cbn.
    change (lockEvents (EvEnter :: ?l)) with (EvEnter :: lockEvents l).
    f_equal. apply lockEvents_GetMousePos_loop.
  - reflexivity.
  - rewrite Cleanup_run. cbn [trace snd].
    rewrite !lockEvents_app.
    change (lockEvents (EvEnter :: ?l)) with (EvEnter :: lockEvents l).
    rewrite lockEvents_app, lockEvents_calls.
    destruct (m_pSocket s), (m_pPacketBuffer s); reflexivity.
  - unfold StartServer, bind, emit, gets, modify, ret. cbn.
    destruct (m_bRunning s); cbn; [reflexivity|].
    destruct ((esport <=? 65535) && (esport >=? 1)); cbn; [|reflexivity].
    destruct (esmaxclients <? 0); reflexivity.
Qed.

End LockOnce.

(** ** The further properties at work on the sample host *)
Module MoreScenarios.
Import Host.

Lemma ProcessPacket_known_session_witness :
  trace (ProcessPacket 9 addrB 3 fullWithFive)
    = [EvEnter; EvClient 5 MAddPacket; EvLeave] /\
  ClientMap.size (m_clients (state (ProcessPacket 9 addrB 3 fullWithFive)))
    = 1.
Proof.
  destruct (ProcessPacket_known_session ULong ParsePacket 9 addrB 3
              fullWithFive (session addrA 0 []) eq_refl eq_refl)
    as (_ & Htr & Hsz).
  split; [exact Htr|].
  refine (Hsz _). cbn. repeat split; constructor.
Defined.

Lemma ProcessPacket_frame_witness :
  ClientMap.find 9 (m_clients (state (ProcessPacket 40 addrB 3 fiveAndNine)))
    = ClientMap.find 9 (m_clients fiveAndNine) /\
  ClientMap.find 5 (m_clients (state (ProcessPacket 40 addrB 3 fiveAndNine)))
    <> None.
Proof.
  destruct (ProcessPacket_frame ULong ParsePacket 40 addrB 3 fiveAndNine)
    as (_ & Hother & Hkeep).
  split.
  - refine (Hother 9 _). discriminate.
  - refine (Hkeep 5 _). discriminate.
Defined.

Lemma ProcessPacket_new_session_witness :
  ClientMap.find (to_uint (ULong addrA)) (m_clients (state admitted))
    = Some (mkClient addrA 7 [PacketIn ParsePacket 3 roomFor2] []) /\
  ClientMap.size (m_clients (state admitted)) = 1.
Proof.
  destruct (ProcessPacket_new_session ULong ParsePacket 7 addrA 3 roomFor2
              eq_refl eq_refl eq_refl) as (Hf & Hsz & _).
  split; [exact Hf|exact Hsz].
Defined.

Lemma RefreshClients_all_alive_witness :
  m_clients (state (RefreshClients 50 liveThenDead)) = m_clients liveThenDead /\
  calls 1 MRefreshSettings (trace (RefreshClients 50 liveThenDead)) = 1%nat.
Proof.
  destruct (RefreshClients_all_alive livenessWindow 50 liveThenDead eq_refl)
    as (Hcl & _ & Hcalls).
  split; [exact Hcl|]. exact (proj2 (proj2 (Hcalls 1))).
Defined.

Lemma RefreshClients_shrinks_witness :
  m_clients (state sweepLiveThenDead) = [(1, session addrA 100 [])] /\
  ClientMap.wf (m_clients (state sweepLiveThenDead)) /\
  m_clients (state (RefreshClients 100 (state sweepLiveThenDead)))
    = m_clients (state sweepLiveThenDead).
Proof.
  destruct (RefreshClients_shrinks livenessWindow 100 liveThenDead)
    as (Hfilter & _ & Hwf & _ & _ & Hsame & _).
  split; [exact Hfilter|]. split; [|exact Hsame].
  refine (Hwf _). cbn. repeat split; repeat constructor.
Defined.

Lemma RunLoop_keeps_bound_witness :
  RegistryOK (state (RunLoop [passA; passB; passA] (started 1))).
Proof.
  refine (RunLoop_keeps_bound ULong ParsePacket Decode livenessWindow
            PACKET_SIZE [passA; passB; passA] (started 1) _).
  unfold RegistryOK. cbn. repeat split; lia.
Defined.

Lemma RunLoop_exception_ends_witness :
  RunLoop [passA; passThrow; passB] (started 2)
    = RunLoop [passA; passThrow] (started 2) /\
  m_bStop (state (RunLoop [passA; passThrow; passB] (started 2))) = false.
Proof.
  destruct (RunLoop_exception_ends ULong ParsePacket Decode livenessWindow
              PACKET_SIZE [passA] passThrow [passB] (started 2) eq_refl)
    as (Heq & Hstop & _).
  split; [exact Heq|exact Hstop].
Defined.

Lemma Run_completed_witness :
  m_pSocket (state (Run (quietRun 5) (started 20))) = None /\
  m_pPacketBuffer (state (Run (quietRun 5) (started 20))) = None /\
  m_bStop (state (Run (quietRun 5) (started 20))) = true.
Proof.
  destruct (Run_completed ULong ParsePacket Decode livenessWindow PACKET_SIZE
              (quietRun 5) (started 20) eq_refl)
    as (H1 & H2 & _ & _ & H5 & _).
  exact (conj H1 (conj H2 H5)).
Defined.

Lemma Run_after_abort_releases_witness :
  m_pSocket (state runPortsTaken) = Some (UDPSocket 3) /\
  exists tail,
    trace (Run (quietRun 5) (state runPortsTaken))
    = EvLog LOGNOTICE "ES: Starting UDP Event server on port %d"
        :: EvSocketClose :: EvSocketDelete :: EvBufferFree
        :: EvEnter :: EvLeave :: tail.
Proof.
  destruct (Run_after_abort_releases ULong ParsePacket Decode livenessWindow
              PACKET_SIZE portsTaken (set_iPort 9777 CEventServer_new)
              (UDPSocket 3) eq_refl eq_refl eq_refl)
    as (H1 & _ & _ & H4).
  split; [exact H1|exact (H4 (quietRun 5))].
Defined.

Lemma Process_after_run_witness :
  m_bStop (state (Run brokenRun (started 2))) = false /\
  Process [(brokenRun, false); (quietRun 5, false)] (started 2)
  = (fst (Process [(quietRun 5, false)] (state (Run brokenRun (started 2)))),
     map InRun (trace (Run brokenRun (started 2)))
       ++ ThreadSleep 1000
       :: snd (Process [(quietRun 5, false)]
                 (state (Run brokenRun (started 2))))).
Proof.
  destruct (Process_after_run ULong ParsePacket Decode livenessWindow
              PACKET_SIZE brokenRun false [(quietRun 5, false)] (started 2)
              eq_refl) as (Hflag & _ & Hagain).
  split; [exact Hflag|exact (Hagain eq_refl)].
Defined.

Lemma Process_stop_keeps_resources_witness :
  m_pSocket (fst (Process [(portsTaken, true)]
                    (set_iPort 9777 CEventServer_new)))
    = Some (UDPSocket 3) /\
  m_bStop (fst (Process [(portsTaken, true)]
                  (set_iPort 9777 CEventServer_new))) = true.
Proof.
  destruct (Process_stop_keeps_resources ULong ParsePacket Decode
              livenessWindow PACKET_SIZE portsTaken []
              (set_iPort 9777 CEventServer_new) (UDPSocket 3)
              eq_refl eq_refl eq_refl eq_refl)
    as (_ & Hstop & Hsock & _).
  split; [exact Hsock|exact Hstop].
Defined.

Lemma StartServer_guard_witness :
  StartServer 9777 5 (set_bRunning true (started 2))
    = (Returned, set_bRunning true (started 2), [EvEnter; EvLeave]) /\
  m_iMaxClients (state (StartServer 9777 (-3) CEventServer_new)) = 20 /\
  RegistryOK (state (StartServer 9777 7 CEventServer_new)) /\
  result (StartServer 0 7 CEventServer_new) = Aborted.
Proof.
  destruct (StartServer_guard 9777 5 (set_bRunning true (started 2)))
    as (Hrun & _ & _).
  destruct (StartServer_guard 9777 (-3) CEventServer_new) as (_ & Hneg & _).
  destruct (StartServer_guard 9777 7 CEventServer_new) as (_ & Hok & _).
  destruct (StartServer_guard 0 7 CEventServer_new) as (_ & _ & Hbad).
  split; [exact (Hrun eq_refl)|].
  split; [exact (proj1 (proj2 (proj2 (Hneg eq_refl ltac:(lia)))))|].
  split.
  - destruct (Hok eq_refl ltac:(lia)) as (_ & _ & _ & _ & _ & _ & Hreg).
    exact (Hreg eq_refl eq_refl).
  - exact (proj1 (Hbad eq_refl ltac:(lia))).
Defined.

Lemma GetNumberOfClients_after_routing_witness :
  result (GetNumberOfClients (state admitted))
    = result (GetNumberOfClients roomFor2) + 1.
Proof.
  refine (proj2 (GetNumberOfClients_after_routing ULong ParsePacket 7 addrA 3
                   roomFor2 _)).
  exact I.
Defined.

(** Three calls on two sessions with three pending actions: session 1 is
    served first, oldest action first; the failed builtin returns
    [false], the button action and the second builtin [true]; a fourth
    call finds nothing. *)
Example ExecuteNextActions_sample :
  result (ExecuteNextActions 4 threePending) = [false; true; true; false] /\
  filter is_executor (trace (ExecuteNextActions 4 threePending))
    = [EvBuiltinExecute "fail";
       EvOnAction (mkCAction 6 1 0 "select");
       EvBuiltinExecute "ok"] /\
  pendingActions (m_clients (state (ExecuteNextActions 4 threePending))) = [].
Proof. repeat split. Qed.

(** Session 5 has nothing to report, session 9 does: the lookups answer
    with what session 9 says, or nothing. *)
Example lookups_sample :
  result (GetButtonCode (mkButtonOut "" false 0 false) fiveAndNine)
    = (30, mkButtonOut "KB" false 1 false) /\
  result (GetMousePos (0, 0) fiveAndNine) = (false, (0, 0)).
Proof. repeat split. Qed.

Lemma routing_token_identity_witness :
  (exists c,
     ClientMap.find (to_uint (ULong addrA)) (m_clients (state bothUntagged))
       = Some c /\
     m_readyPackets c
       = [mkPacket true 0 [Byte.x01]; mkPacket true 0 [Byte.x02]]) /\
  (exists c1,
     ClientMap.find 5 (m_clients (state bothTagged)) = Some c1 /\
     m_readyPackets c1 = [mkPacket true 5 [Byte.x01]]) /\
  (exists c2,
     ClientMap.find 6 (m_clients (state bothTagged)) = Some c2 /\
     m_readyPackets c2 = [mkPacket true 6 [Byte.x02]]).
Proof.
  split.
  - destruct (routing_token_identity ULong ParsePacket addrA 1 2 3 3
                (Some (datagram Byte.x00 Byte.x02))
                (received Byte.x00 Byte.x01 (started 2))
                eq_refl eq_refl) as [Hzero _].
    exact (Hzero eq_refl eq_refl).
  - destruct (routing_token_identity ULong ParsePacket addrA 1 2 3 3
                (Some (datagram Byte.x06 Byte.x02))
                (received Byte.x05 Byte.x01 (started 2))
                eq_refl eq_refl) as [_ Htagged].
    refine (Htagged _ _ _); vm_compute; discriminate.
Defined.


Lemma lock_taken_once_witness :
  lockEvents (trace (ProcessPacket 7 addrA 3 badSignature)) = [] /\
  lockEvents (trace admitted) = [EvEnter; EvLeave] /\
  lockEvents (trace rejected) = [EvEnter; EvLeave] /\
  lockEvents (trace dispatchFailing) = [EvEnter; EvLeave] /\
  lockEvents (trace (StartServer 0 5 CEventServer_new)) = [EvEnter].
Proof.
  repeat apply conj.
  - exact (proj1 (lock_taken_once ULong ParsePacket Decode livenessWindow
                    BuiltinsExecute TranslateString HasGUI OnAction
                    Z Client_GetButtonCode Z Client_GetMousePos badSignature)
             7 addrA 3).
  - exact (proj1 (lock_taken_once ULong ParsePacket Decode livenessWindow
                    BuiltinsExecute TranslateString HasGUI OnAction
                    Z Client_GetButtonCode Z Client_GetMousePos roomFor2)
             7 addrA 3).
  - exact (proj1 (lock_taken_once ULong ParsePacket Decode livenessWindow
                    BuiltinsExecute TranslateString HasGUI OnAction
                    Z Client_GetButtonCode Z Client_GetMousePos roomFor0)
             7 addrA 3).
  - exact (proj1 (proj2 (proj2 (proj2
             (lock_taken_once ULong ParsePacket Decode livenessWindow
                BuiltinsExecute TranslateString HasGUI OnAction
                Z Client_GetButtonCode Z Client_GetMousePos failingFirst))))).
  - exact (proj2 (proj2 (proj2 (proj2 (proj2 (proj2 (proj2 (proj2
             (lock_taken_once ULong ParsePacket Decode livenessWindow
                BuiltinsExecute TranslateString HasGUI OnAction
                Z Client_GetButtonCode Z Client_GetMousePos
                CEventServer_new))))))))
             0 5).
Defined.

End MoreScenarios.
